(** * Asgardeo SPA SDK: the web-worker client and the refresh-timer helper

    A shallow embedding of
      - [lib/src/helpers/spa-helper.ts]        (class [SPAHelper]);
      - [lib/src/clients/web-worker-client.ts] ([communicate],
        [requestAccessToken], [getAuthorizationURL], [updateConfig] and the
        host-role wait of [trySignInSilently]).

    JavaScript's run-time is made explicit: timers are a table of armed
    handles, a promise is a cell that settles once, and an asynchronous
    function is a state-passing computation that either returns, throws
    (a rejected promise) or never settles.  Every call into the run-time or
    into a collaborator is appended to a trace, so that "is called", "is not
    called" and "is called before" are statements about lists.

    The first part of the file holds the embedding, the second the
    properties. *)

From Stdlib Require Import ZArith String Ascii List Bool Lia.
From stdpp Require Import base tactics option list gmap strings pretty.

Set Warnings "-register-all".

Local Open Scope string_scope.
Local Open Scope Z_scope.

(* ===================================================================== *)
(** * Part I. The embedding                                               *)
(* ===================================================================== *)

(** ** JavaScript values *)

Module JS.

(** Numbers as far as the code computes with them: integers (timer handles,
    lifetimes in seconds, delays in milliseconds) and [NaN], which
    [parseInt] returns on a string without a leading number. *)
Inductive Number :=
| NaN
| Int (z : Z).

(** [a <= b], [a - b], [a * b]: every comparison with [NaN] is false and
    every arithmetic operation on [NaN] is [NaN]. *)
Definition le (a b : Number) : bool :=
  match a, b with
  | Int x, Int y => x <=? y
  | _, _ => false
  end.

Definition sub (a b : Number) : Number :=
  match a, b with
  | Int x, Int y => Int (x - y)
  | _, _ => NaN
  end.

Definition mul (a b : Number) : Number :=
  match a, b with
  | Int x, Int y => Int (x * y)
  | _, _ => NaN
  end.

(** The errors the run-time itself raises in the modelled code. *)
Inductive Exception :=
| SyntaxError   (* JSON.parse on a text that is not JSON *)
| TypeError.    (* property access on null/undefined, new URL on a bad URL *)

(** A string is truthy unless it is empty. *)
Definition truthy (s : string) : bool :=
  match s with
  | EmptyString => false
  | String _ _ => true
  end.

(** An optional property [o.p] used as a condition: absent is falsy. *)
Definition truthy_opt (o : option string) : bool :=
  match o with
  | Some s => truthy s
  | None => false
  end.

Definition truthy_flag (o : option bool) : bool :=
  match o with
  | Some b => b
  | None => false
  end.

(** What [JSON.parse] can return. *)
Inductive Json :=
| JNull
| JBool (b : bool)
| JNum (n : Z)
| JStr (s : string)
| JArr (items : list Json)
| JObj (fields : list (string * Json)).

(** A string that is handed to [JSON.parse].  Every string either is the
    JSON text of one value or is not JSON at all; the embedding keeps
    exactly that view of it.  [NotJSON raw] stands for a string [raw] on
    which [JSON.parse] throws; the empty string is one of them. *)
Inductive JSONText :=
| Encodes (j : Json)
| NotJSON (raw : string).

Definition JSON_stringify (j : Json) : JSONText := Encodes j.

Definition JSON_parse (t : JSONText) : Exception + Json :=
  match t with
  | Encodes j => inr j
  | NotJSON _ => inl SyntaxError
  end.

(** A JSON text is never empty, so only [NotJSON ""] is falsy. *)
Definition truthy_text (t : JSONText) : bool :=
  match t with
  | Encodes _ => true
  | NotJSON raw => truthy raw
  end.

Definition truthy_opt_text (o : option JSONText) : bool :=
  match o with
  | Some t => truthy_text t
  | None => false
  end.

(** *** [parseInt(string)] with no radix argument

    Leading (ASCII) white space is skipped, one sign is read, a [0x]/[0X]
    prefix selects radix 16 (radix 10 otherwise), and the longest prefix of
    digits is converted; no digit at all gives [NaN]. *)
Definition is_space (c : ascii) : bool :=
  let n := Z.of_N (N_of_ascii c) in
  ((9 <=? n) && (n <=? 13)) || (n =? 32).

Fixpoint skip_space (s : string) : string :=
  match s with
  | String c r => if is_space c then skip_space r else s
  | EmptyString => EmptyString
  end.

Definition digit_val (radix : Z) (c : ascii) : option Z :=
  let n := Z.of_N (N_of_ascii c) in
  let v :=
    if (48 <=? n) && (n <=? 57) then Some (n - 48)
    else if (97 <=? n) && (n <=? 122) then Some (n - 87)
    else if (65 <=? n) && (n <=? 90) then Some (n - 55)
    else None in
  match v with
  | Some d => if d <? radix then Some d else None
  | None => None
  end.

Fixpoint digits (radix : Z) (s : string) (acc : option Z) : option Z :=
  match s with
  | String c r =>
      match digit_val radix c with
      | Some d =>
          digits radix r
            (Some (match acc with Some a => a * radix + d | None => d end))
      | None => acc
      end
  | EmptyString => acc
  end.

Definition strip_sign (s : string) : bool * string :=
  match s with
  | String c r =>
      if Ascii.eqb c "-" then (true, r)
      else if Ascii.eqb c "+" then (false, r)
      else (false, s)
  | EmptyString => (false, s)
  end.

Definition strip_hex_prefix (s : string) : Z * string :=
  match s with
  | String c0 (String c1 r) =>
      if Ascii.eqb c0 "0" && (Ascii.eqb c1 "x" || Ascii.eqb c1 "X")
      then (16, r) else (10, s)
  | _ => (10, s)
  end.

Definition parseInt (s : string) : Number :=
  let '(negative, s1) := strip_sign (skip_space s) in
  let '(radix, s2) := strip_hex_prefix s1 in
  match digits radix s2 None with
  | Some v => Int (if negative then - v else v)
  | None => NaN
  end.

End JS.

(** ** [helpers/spa-helper.ts]: class [SPAHelper] *)

Module SPAHelper.
Import JS.

(** The session data the data layer hands out; [refresh_token] is optional
    and [expires_in] is the lifetime in seconds, as a string. *)
Record SessionData := {
  access_token : string;
  id_token : string;
  expires_in : string;
  scope : string;
  refresh_token : option string;
  token_type : string;
  session_state : string
}.

(** Calls that leave the helper, in the order they are made. *)
Inductive Call :=
| GetSessionData
| GetTemporaryDataParameter (key : string)
| SetTemporaryDataParameter (key : string) (value : JSONText)
| SetTimeout (handle : Z) (delay : Number)
| ClearTimeout (arg : Json).

(** The helper's surroundings: the data layer ([_dataLayer]: session data
    and the temporary key/value data, whose values are strings), the
    run-time's table of armed timers (handle to delay; every timer of this
    helper has the one callback [authenticationHelper.refreshAccessToken()])
    and the handle the next [setTimeout] returns. *)
Record World := {
  session : SessionData;
  temporary_data : gmap string JSONText;
  armed : gmap Z Number;
  next_handle : Z;
  trace : list Call
}.

Definition record (c : Call) (w : World) : World :=
  {| session := session w;
     temporary_data := temporary_data w;
     armed := armed w;
     next_handle := next_handle w;
     trace := trace w ++ [c] |}.

Definition with_session (s : SessionData) (w : World) : World :=
  {| session := s;
     temporary_data := temporary_data w;
     armed := armed w;
     next_handle := next_handle w;
     trace := trace w |}.

Definition with_temporary_data (d : gmap string JSONText) (w : World) : World :=
  {| session := session w;
     temporary_data := d;
     armed := armed w;
     next_handle := next_handle w;
     trace := trace w |}.

Definition with_armed (timers : gmap Z Number) (w : World) : World :=
  {| session := session w;
     temporary_data := temporary_data w;
     armed := timers;
     next_handle := next_handle w;
     trace := trace w |}.

Definition with_next_handle (h : Z) (w : World) : World :=
  {| session := session w;
     temporary_data := temporary_data w;
     armed := armed w;
     next_handle := h;
     trace := trace w |}.

(** An [async] method: from a world to a completion and the world after.
    [Threw] is a rejected promise. *)
Inductive Completion (A : Type) :=
| Returned (a : A)
| Threw (e : Exception).
Arguments Returned {A} a.
Arguments Threw {A} e.

Definition Async (A : Type) : Type := World -> Completion A * World.

Definition ret {A} (a : A) : Async A := fun w => (Returned a, w).

Definition throw {A} (e : Exception) : Async A := fun w => (Threw e, w).

Definition bind {A B} (m : Async A) (k : A -> Async B) : Async B :=
  fun w =>
    match m w with
    | (Returned a, w') => k a w'
    | (Threw e, w') => (Threw e, w')
    end.

Notation "'let*' x ':=' m 'in' k" := (bind m (fun x => k))
  (at level 10, x name, m at level 100, k at level 200).

(** The data layer. *)
Definition getSessionData : Async SessionData :=
  fun w => (Returned (session w), record GetSessionData w).

Definition getTemporaryDataParameter (key : string) : Async (option JSONText) :=
  fun w =>
    (Returned (temporary_data w !! key), record (GetTemporaryDataParameter key) w).

Definition setTemporaryDataParameter (key : string) (value : JSONText) : Async unit :=
  fun w =>
    (Returned tt,
     record (SetTemporaryDataParameter key value)
       (with_temporary_data (<[key := value]> (temporary_data w)) w)).

(** The run-time's timers.  [setTimeout] arms a fresh handle and returns it;
    [clearTimeout] disarms the handle its argument names and does nothing
    when no such timer is armed. *)
Definition setTimeout (delay : Number) : Async Z :=
  fun w =>
    let h := next_handle w in
    (Returned h,
     record (SetTimeout h delay)
       (with_next_handle (h + 1) (with_armed (<[h := delay]> (armed w)) w))).

Definition disarm (arg : Json) (timers : gmap Z Number) : gmap Z Number :=
  match arg with
  | JNum h => delete h timers
  | _ => timers
  end.

Definition clearTimeout (arg : Json) : Async unit :=
  fun w =>
    (Returned tt, record (ClearTimeout arg) (with_armed (disarm arg (armed w)) w)).

(** An armed timer fires: it leaves the table (its callback,
    [authenticationHelper.refreshAccessToken()], belongs to a collaborator). *)
Definition fire (h : Z) (w : World) : World :=
  with_armed (delete h (armed w)) w.

Definition parse (o : option JSONText) : Async Json :=
  match o with
  | Some t =>
      match JSON_parse t with
      | inr j => ret j
      | inl e => throw e
      end
  | None => throw SyntaxError
  end.

(** [refreshTimer !== -1] *)
Definition is_not_minus_one (j : Json) : bool :=
  match j with
  | JNum n => negb (n =? -1)
  | _ => true
  end.

(** [if (timer)] on the optional parameter [timer?: number]: an omitted
    argument and the number 0 are falsy. *)
Definition truthy_timer (timer : option Z) : bool :=
  match timer with
  | Some h => negb (h =? 0)
  | None => false
  end.

Section Helper.

(** The key of the timer handle in the temporary data, imported from
    [@asgardeo/auth-js]. *)
Variable REFRESH_TOKEN_TIMER : string.

(** [refreshAccessTokenAutomatically], lines 31-48. *)
Definition refreshAccessTokenAutomatically : Async unit :=
  let* sessionData := getSessionData in
  if truthy_opt (refresh_token sessionData) then
    let expiryTime := parseInt (expires_in sessionData) in
    let time := if le expiryTime (Int 10) then expiryTime else sub expiryTime (Int 10) in
    let* timer := setTimeout (mul time (Int 1000)) in
    setTemporaryDataParameter REFRESH_TOKEN_TIMER (JSON_stringify (JNum timer))
  else ret tt.

(** [getRefreshTimeoutTimer], lines 50-58. *)
Definition getRefreshTimeoutTimer : Async Json :=
  let* stored := getTemporaryDataParameter REFRESH_TOKEN_TIMER in
  if truthy_opt_text stored then
    let* again := getTemporaryDataParameter REFRESH_TOKEN_TIMER in
    parse again
  else ret (JNum (-1)).

(** [clearRefreshTokenTimeout], lines 61-73. *)
Definition clearRefreshTokenTimeout (timer : option Z) : Async unit :=
  if truthy_timer timer then
    clearTimeout (JNum (default 0 timer))
  else
    let* refreshTimer := getRefreshTimeoutTimer in
    if is_not_minus_one refreshTimer then clearTimeout refreshTimer
    else ret tt.

End Helper.

(** A world in which nothing has happened yet. *)
Definition fresh (s : SessionData) : World :=
  {| session := s;
     temporary_data := ∅;
     armed := ∅;
     next_handle := 1;
     trace := [] |}.

Definition session_of (expiry : string) (refresh : option string) : SessionData :=
  {| access_token := "at";
     id_token := "idt";
     expires_in := expiry;
     scope := "openid";
     refresh_token := refresh;
     token_type := "Bearer";
     session_state := "ss" |}.

Definition is_ClearTimeout (c : Call) : bool :=
  match c with
  | ClearTimeout _ => true
  | _ => false
  end.

(** Every armed refresh timer is the one whose handle is persisted; handles
    are the positive numbers [setTimeout] gives out. *)
Definition persisted_timer_only (key : string) (w : World) : Prop :=
  0 < next_handle w /\
  forall h d, armed w !! h = Some d ->
    0 < h /\ temporary_data w !! key = Some (JSON_stringify (JNum h)).

(** The worlds a client reaches when it never schedules a refresh without
    cancelling first: timers fire, the session data is replaced by newer
    tokens, other keys of the temporary data are written, timers are
    cancelled (with or without an explicit handle), and
    [refreshAccessTokenAutomatically] runs only right after
    [clearRefreshTokenTimeout()]. *)
Inductive cancels_first (key : string) : World -> Prop :=
| cf_fresh s :
    cancels_first key (fresh s)
| cf_fire h w :
    cancels_first key w -> cancels_first key (fire h w)
| cf_session s w :
    cancels_first key w -> cancels_first key (with_session s w)
| cf_other_key k v w :
    k <> key -> cancels_first key w ->
    cancels_first key (with_temporary_data (<[k := v]> (temporary_data w)) w)
| cf_cancel timer w :
    cancels_first key w ->
    cancels_first key (snd (clearRefreshTokenTimeout key timer w))
| cf_restart w :
    cancels_first key w ->
    cancels_first key
      (snd (refreshAccessTokenAutomatically key
              (snd (clearRefreshTokenTimeout key None w)))).

End SPAHelper.

(** ** [clients/web-worker-client.ts]: the data that crosses the channel *)

Module Models.
Import JS.

Inductive ResponseMode :=
| query
| form_post.

Record Endpoints := {
  checkSessionIframe : option string;
  authorizationEndpoint : option string;
  tokenEndpoint : option string
}.

(** [AuthClientConfig<WebWorkerClientConfig>] as the client reads it.  Every
    field is optional here, so the same record is a [Partial<...>]. *)
Record Config := {
  clientID : option string;
  signInRedirectURL : option string;
  responseMode : option ResponseMode;
  enablePKCE : option bool;
  enableOIDCSessionManagement : option bool;
  checkSessionInterval : option Z;
  sessionRefreshInterval : option Z;
  requestTimeout : option Z;
  endpoints : option Endpoints
}.

(** [new AsgardeoSPAException(code, name, method, message, description)]. *)
Record AsgardeoSPAException := {
  code : string;
  name : string;
  method : string;
  message : string;
  description : string
}.

Record Blob := {
  blob_type : string;
  blob_bytes : list Byte.byte
}.

(** [ResponseMessage<string>]: what the worker posts back on the port. *)
Record ResponseMessage := {
  success : bool;
  data : option JSONText;
  blob : option Blob;
  error : option JSONText
}.

(** What a call resolves with: the parsed data, or the parsed object with
    its [data] property set to the blob. *)
Inductive Response :=
| Plain (j : Json)
| WithBlob (j : Json) (b : Blob).

(** What a promise of the client is rejected with. *)
Inductive Reason :=
| Exc (e : AsgardeoSPAException)
| Remote (error : Json)
| Thrown (e : Exception).

(** A promise settles once: [resolve] and [reject] on a settled promise do
    nothing. *)
Inductive Promise (A : Type) :=
| Pending
| Fulfilled (v : A)
| Rejected (r : Reason).
Arguments Pending {A}.
Arguments Fulfilled {A} v.
Arguments Rejected {A} r.

Definition resolve {A} (v : A) (p : Promise A) : Promise A :=
  match p with
  | Pending => Fulfilled v
  | _ => p
  end.

Definition reject {A} (r : Reason) (p : Promise A) : Promise A :=
  match p with
  | Pending => Rejected r
  | _ => p
  end.

(** [ms / 1000] converted to a string, for an integral number of
    milliseconds (below 2^53 in size, where the division is exact to the
    digits printed): the integer part, then the thousandths without trailing
    zeros when there are any. *)
Definition thousandths (n : Z) : string :=
  let d1 := n / 100 in
  let d2 := (n / 10) mod 10 in
  let d3 := n mod 10 in
  if negb (d3 =? 0) then pretty d1 +:+ pretty d2 +:+ pretty d3
  else if negb (d2 =? 0) then pretty d1 +:+ pretty d2
  else pretty d1.

Definition seconds_to_string (ms : Z) : string :=
  let a := Z.abs ms in
  (if ms <? 0 then "-" else "") +:+ pretty (a / 1000) +:+
  (if a mod 1000 =? 0 then "" else "." +:+ thousandths (a mod 1000)).

End Models.

(** ** [communicate], lines 117-152 *)

Module Channel.
Import JS Models.

(** What happens during one call, in order. *)
Inductive Step (T : Type) :=
| PostMessage (message : T)
| SetTimeout (delay : Z)
| ClearTimeout
| TimerFired
| Resolve (v : Response)
| Reject (r : Reason)
| Uncaught (e : Exception).
Arguments PostMessage {T} message.
Arguments SetTimeout {T} delay.
Arguments ClearTimeout {T}.
Arguments TimerFired {T}.
Arguments Resolve {T} v.
Arguments Reject {T} r.
Arguments Uncaught {T} e.

(** One call: the returned promise, whether the call's timer is still armed,
    and the steps so far. *)
Record Call (T : Type) := {
  promise : Promise Response;
  timer : bool;
  steps : list (Step T)
}.
Arguments promise {T} c.
Arguments timer {T} c.
Arguments steps {T} c.

(** [_requestTimeout], line 93. *)
Definition _requestTimeout (config : Config) : Z :=
  default 60000 (requestTimeout config).

Definition timeout_exception (config : Config) : AsgardeoSPAException :=
  {| code := "WEB_WORKER_CLIENT-COM-TO-01";
     name := "web-worker-client";
     method := "communicate";
     message := "Operation timed out.";
     description :=
       "No response was received from the web worker for " +:+
       seconds_to_string (_requestTimeout config) +:+
       " since dispatching the request" |}.

(** [responseData.data = blob] in a module (strict mode): only an object
    takes the property. *)
Definition assign_data (responseData : Json) (b : Blob) : Exception + Response :=
  match responseData with
  | JObj _ | JArr _ => inr (WithBlob responseData b)
  | _ => inl TypeError
  end.

(** The body of the [onmessage] handler after [clearTimeout], lines 140-149:
    what it does to the promise, or the exception that escapes it.  The
    event's [data] may be null. *)
Inductive Outcome :=
| Resolves (v : Response)
| Rejects (r : Reason)
| Throws (e : Exception).

Definition parse_or_null (o : option JSONText) : Exception + Json :=
  match o with
  | Some t => if truthy_text t then JSON_parse t else inr JNull
  | None => inr JNull
  end.

Definition respond (data : option ResponseMessage) : Outcome :=
  match data with
  | Some d =>
      if success d then
        match parse_or_null (Models.data d) with
        | inr responseData =>
            match blob d with
            | Some b =>
                match assign_data responseData b with
                | inr v => Resolves v
                | inl e => Throws e
                end
            | None => Resolves (Plain responseData)
            end
        | inl e => Throws e
        end
      else
        match parse_or_null (error d) with
        | inr e => Rejects (Remote e)
        | inl e => Throws e
        end
  | None => Throws TypeError
  end.

Definition onmessage {T} (data : option ResponseMessage) (c : Call T) : Call T :=
  match respond data with
  | Resolves v =>
      {| promise := resolve v (promise c);
         timer := false;
         steps := steps c ++ [ClearTimeout; Resolve v] |}
  | Rejects r =>
      {| promise := reject r (promise c);
         timer := false;
         steps := steps c ++ [ClearTimeout; Reject r] |}
  | Throws e =>
      {| promise := promise c;
         timer := false;
         steps := steps c ++ [ClearTimeout; Uncaught e] |}
  end.

(** The timer's callback, lines 123-135; a cleared timer does not fire. *)
Definition timeout {T} (config : Config) (c : Call T) : Call T :=
  if timer c then
    {| promise := reject (Exc (timeout_exception config)) (promise c);
       timer := false;
       steps := steps c ++ [TimerFired; Reject (Exc (timeout_exception config))] |}
  else c.

Definition deliver {T} (c : Call T) (arrival : Z * option ResponseMessage) : Call T :=
  onmessage (snd arrival) c.

(** [setTimeout(handler, ms)] keeps its delay in a 32-bit signed integer: a
    value from 0 to 2^31 - 1 is waited for as it is.  A value outside that
    range is not waited for (Node substitutes 1 ms, a browser takes the
    value modulo 2^32 and 0 for a negative one): the timer is then due at
    once here, and what is proved about the deadline below is proved for
    values within the range. *)
Definition MAX_DELAY : Z := 2147483647.

Definition setTimeout_delay (ms : Z) : Z :=
  if (0 <=? ms) && (ms <=? MAX_DELAY) then ms else 0.

(** One call of [communicate] and what follows: the message is posted, the
    timer is armed with [_requestTimeout], and the messages the port
    receives are handled in their order of arrival ([arrivals]:
    milliseconds since the call, and the event's data); the timer fires
    after the messages that arrive before its delay is over. *)
Definition communicate {T} (config : Config) (message : T)
    (arrivals : list (Z * option ResponseMessage)) : Call T :=
  let deadline := setTimeout_delay (_requestTimeout config) in
  let early := List.filter (fun a => fst a <? deadline) arrivals in
  let late := List.filter (fun a => negb (fst a <? deadline)) arrivals in
  let posted :=
    {| promise := Pending;
       timer := true;
       steps := [PostMessage message; SetTimeout (_requestTimeout config)] |} in
  fold_left deliver late (timeout config (fold_left deliver early posted)).

Definition is_TimerFired {T} (s : Step T) : bool :=
  match s with
  | TimerFired => true
  | _ => false
  end.

Definition is_settling {T} (s : Step T) : bool :=
  match s with
  | Resolve _ | Reject _ => true
  | _ => false
  end.

(** Once the handler has run, the timer is cleared for good: no later
    message and no deadline makes it fire, and the promise is never rejected
    with an exception of the client. *)
Definition cleared {T} (config : Config) (message : T) (c : Call T) : Prop :=
  timer c = false /\
  (forall e, promise c <> Rejected (Exc e)) /\
  exists tail,
    steps c =
      ([PostMessage message; SetTimeout (_requestTimeout config); ClearTimeout] ++ tail)%list /\
    existsb is_TimerFired tail = false.

Definition config_of (timeout_ms : option Z) : Config :=
  {| clientID := Some "client";
     signInRedirectURL := Some "https://app.example/";
     responseMode := None;
     enablePKCE := Some true;
     enableOIDCSessionManagement := None;
     checkSessionInterval := None;
     sessionRefreshInterval := None;
     requestTimeout := timeout_ms;
     endpoints := None |}.

End Channel.

(** ** [requestAccessToken], [getAuthorizationURL], [updateConfig] *)

Module Client.
Import JS Models.

Record BasicUserInfo := {
  allowedScopes : string;
  displayName : string;
  email : string;
  sessionState : string;
  sub : string;
  tenantDomain : string;
  username : string
}.

Record GetAuthURLConfig := {
  prompt : option string;
  param_state : option string
}.

Record AuthorizationResponse := {
  authorizationURL : string;
  pkce : option string
}.

(** [AuthorizationInfo]: [{ code, pkce, sessionState, state }]. *)
Record AuthorizationInfo := {
  info_code : string;
  info_pkce : option string;
  info_sessionState : string;
  info_state : string
}.

(** The messages the modelled functions post to the worker. *)
Inductive Message :=
| GET_CONFIG_DATA
| GET_AUTH_URL (params : option GetAuthURLConfig)
| REQUEST_ACCESS_TOKEN (info : AuthorizationInfo)
| GET_SIGN_OUT_URL
| START_AUTO_REFRESH_TOKEN
| UPDATE_CONFIG (config : Config).

(** How the promise of one [communicate] call ends, with the value read at
    the type the caller gives it ([communicate<T, R>]): resolved, rejected,
    or never settled. *)
Inductive Settled (A : Type) :=
| Resolved (a : A)
| Failed (r : Reason)
| Never.
Arguments Resolved {A} a.
Arguments Failed {A} r.
Arguments Never {A}.

(** The worker, seen from the client: how the round trip of each message
    ends. *)
Record Worker := {
  on_GET_CONFIG_DATA : Settled Config;
  on_GET_AUTH_URL : option GetAuthURLConfig -> Settled AuthorizationResponse;
  on_REQUEST_ACCESS_TOKEN : AuthorizationInfo -> Settled BasicUserInfo;
  on_GET_SIGN_OUT_URL : Settled string;
  on_START_AUTO_REFRESH_TOKEN : Settled unit;
  on_UPDATE_CONFIG : Config -> Settled unit
}.

(** What the client does to its surroundings, in order. *)
Inductive Event :=
| Sent (m : Message)
| SetPKCE (key verifier : string)
| GetPKCE (key : string)
| RemovePKCE (key : string)
| SetSignOutURL (url : string)
| CheckSession
| ResetSessionManagement.

(** The page-side state the modelled functions touch: the storage
    [SPAUtils] keeps PKCE verifiers and the sign-out URL in, and the
    events so far. *)
Record Page := {
  pkce_store : gmap string string;
  sign_out_url : option string;
  events : list Event
}.

Definition log (e : Event) (p : Page) : Page :=
  {| pkce_store := pkce_store p;
     sign_out_url := sign_out_url p;
     events := events p ++ [e] |}.

(** A promise-returning function of the client. *)
Definition Task (A : Type) : Type := Page -> Settled A * Page.

Definition ret {A} (a : A) : Task A := fun p => (Resolved a, p).

Definition fail {A} (r : Reason) : Task A := fun p => (Failed r, p).

(** [await m] / [m.then(k)]: a rejection skips [k] and is passed on (every
    [.catch] of the modelled functions re-rejects with the same error); a
    promise that never settles never runs [k]. *)
Definition bind {A B} (m : Task A) (k : A -> Task B) : Task B :=
  fun p =>
    match m p with
    | (Resolved a, p') => k a p'
    | (Failed r, p') => (Failed r, p')
    | (Never, p') => (Never, p')
    end.

Notation "'await' x ':=' m 'in' k" := (bind m (fun x => k))
  (at level 10, x name, m at level 100, k at level 200).

(** A call whose promise is dropped: what it does at once is done, how it
    ends is not looked at. *)
Definition detached {A} (m : Task A) : Task unit :=
  fun p => (Resolved tt, snd (m p)).

Definition communicate {A} (m : Message) (ending : Settled A) : Task A :=
  fun p => (ending, log (Sent m) p).

(** Modelled from the spec: the [SPAUtils] storage helpers [setPKCE],
    [getPKCE], [removePKCE] and [setSignOutURL] are not among the sources.
    The spec has the verifier stored under the correlation key, looked up by
    that key, removed after being read, and absent on a later lookup: a
    key/value store. *)
Definition setPKCE (key verifier : string) : Task unit :=
  fun p =>
    (Resolved tt,
     log (SetPKCE key verifier)
       {| pkce_store := <[key := verifier]> (pkce_store p);
          sign_out_url := sign_out_url p;
          events := events p |}).

Definition getPKCE (key : string) : Task (option string) :=
  fun p => (Resolved (pkce_store p !! key), log (GetPKCE key) p).

Definition removePKCE (key : string) : Task unit :=
  fun p =>
    (Resolved tt,
     log (RemovePKCE key)
       {| pkce_store := delete key (pkce_store p);
          sign_out_url := sign_out_url p;
          events := events p |}).

Definition setSignOutURL (url : string) : Task unit :=
  fun p =>
    (Resolved tt,
     log (SetSignOutURL url)
       {| pkce_store := pkce_store p;
          sign_out_url := Some url;
          events := events p |}).

(** [{ ...existingConfig, ...newConfig }]: a property of the new
    configuration replaces the existing one as a whole. *)
Definition spread {A} (existing new : option A) : option A :=
  match new with
  | Some _ => new
  | None => existing
  end.

Definition merge (existing new : Config) : Config :=
  {| clientID := spread (clientID existing) (clientID new);
     signInRedirectURL := spread (signInRedirectURL existing) (signInRedirectURL new);
     responseMode := spread (responseMode existing) (responseMode new);
     enablePKCE := spread (enablePKCE existing) (enablePKCE new);
     enableOIDCSessionManagement :=
       spread (enableOIDCSessionManagement existing) (enableOIDCSessionManagement new);
     checkSessionInterval := spread (checkSessionInterval existing) (checkSessionInterval new);
     sessionRefreshInterval :=
       spread (sessionRefreshInterval existing) (sessionRefreshInterval new);
     requestTimeout := spread (requestTimeout existing) (requestTimeout new);
     endpoints := spread (endpoints existing) (endpoints new) |}.

(** [c.endpoints && c.endpoints.checkSessionIframe] as a value: the URL when
    both are truthy. *)
Definition iframe_url (c : Config) : option string :=
  match endpoints c with
  | Some e =>
      match checkSessionIframe e with
      | Some url => if truthy url then Some url else None
      | None => None
      end
  | None => None
  end.

(** [isCheckSessionIframeDifferent], lines 804-812. *)
Definition isCheckSessionIframeDifferent (existingConfig newConfig : Config) : bool :=
  negb
    match iframe_url existingConfig with
    | Some existing_url =>
        match iframe_url newConfig with
        | Some new_url => String.eqb existing_url new_url
        | None => false
        end
    | None => false
    end.

Section WithLibrary.

(** From [@asgardeo/auth-js]: [AuthenticationUtils.extractPKCEKeyFromStateParam]. *)
Variable extractPKCEKeyFromStateParam : string -> string.

(** [new URL(url).searchParams.get(STATE)]: [None] when [url] is no URL (the
    constructor throws), otherwise the parameter or null. *)
Variable state_param : string -> option (option string).

(** The closure's [config], the argument of [WebWorkerClient]. *)
Variable config : Config.

Variable worker : Worker.

(** [getConfigData], lines 700-712. *)
Definition getConfigData : Task Config :=
  communicate GET_CONFIG_DATA (on_GET_CONFIG_DATA worker).

(** [startAutoRefreshToken], lines 332-338. *)
Definition startAutoRefreshToken : Task unit :=
  communicate START_AUTO_REFRESH_TOKEN (on_START_AUTO_REFRESH_TOKEN worker).

(** [checkSession], lines 340-353, is only ever called without [await]; its
    body (two round trips, then [_sessionManagementHelper.initialize]) runs
    on its own.  The call is one event. *)
Definition checkSession : Task unit :=
  fun p => (Resolved tt, log CheckSession p).

(** [_sessionManagementHelper.reset()]. *)
Definition reset : Task unit :=
  fun p => (Resolved tt, log ResetSessionManagement p).

(** [getAuthorizationURL], lines 456-473. *)
Definition getAuthorizationURL (params : option GetAuthURLConfig) : Task AuthorizationResponse :=
  await response := communicate (GET_AUTH_URL params) (on_GET_AUTH_URL worker params) in
  if truthy_opt (pkce response) && truthy_flag (enablePKCE config) then
    match state_param (authorizationURL response) with
    | Some found =>
        let pkceKey := extractPKCEKeyFromStateParam (default "" found) in
        await _ := setPKCE pkceKey (default "" (pkce response)) in
        ret response
    | None => fail (Thrown TypeError)
    end
  else ret response.

(** [requestAccessToken], lines 475-523.  Here [config] is the one the
    worker reports. *)
Definition requestAccessToken
    (resolvedAuthorizationCode resolvedSessionState resolvedState : string)
    : Task BasicUserInfo :=
  await config := getConfigData in
  let pkceKey := extractPKCEKeyFromStateParam resolvedState in
  await verifier :=
    (if truthy_flag (enablePKCE config) then getPKCE pkceKey else ret None) in
  let message :=
    REQUEST_ACCESS_TOKEN
      {| info_code := resolvedAuthorizationCode;
         info_pkce := verifier;
         info_sessionState := resolvedSessionState;
         info_state := resolvedState |} in
  await _ := (if truthy_flag (enablePKCE config) then removePKCE pkceKey else ret tt) in
  await response :=
    communicate message
      (on_REQUEST_ACCESS_TOKEN worker
         {| info_code := resolvedAuthorizationCode;
            info_pkce := verifier;
            info_sessionState := resolvedSessionState;
            info_state := resolvedState |}) in
  await url := communicate GET_SIGN_OUT_URL (on_GET_SIGN_OUT_URL worker) in
  await _ := setSignOutURL url in
  await _ :=
    (if truthy_flag (enableOIDCSessionManagement config) then detached checkSession
     else ret tt) in
  await _ := detached startAutoRefreshToken in
  ret response.

(** The token request [requestAccessToken] builds on a page, under the
    configuration the worker reports. *)
Definition token_request (reported : Config) (p : Page)
    (code session_state state : string) : AuthorizationInfo :=
  {| info_code := code;
     info_pkce :=
       if truthy_flag (enablePKCE reported)
       then pkce_store p !! extractPKCEKeyFromStateParam state
       else None;
     info_sessionState := session_state;
     info_state := state |}.

(** The page when the token request is posted. *)
Definition page_at_token_request (reported : Config) (p : Page)
    (code session_state state : string) : Page :=
  let key := extractPKCEKeyFromStateParam state in
  log (Sent (REQUEST_ACCESS_TOKEN (token_request reported p code session_state state)))
    (if truthy_flag (enablePKCE reported) then
       log (RemovePKCE key)
         {| pkce_store := delete key (pkce_store (log (GetPKCE key) (log (Sent GET_CONFIG_DATA) p)));
            sign_out_url := sign_out_url p;
            events := events (log (GetPKCE key) (log (Sent GET_CONFIG_DATA) p)) |}
     else log (Sent GET_CONFIG_DATA) p).

(** [updateConfig], lines 802-828. *)
Definition updateConfig (newConfig : Config) : Task unit :=
  await existingConfig := getConfigData in
  let different := isCheckSessionIframeDifferent existingConfig newConfig in
  let config := merge existingConfig newConfig in
  await _ := communicate (UPDATE_CONFIG config) (on_UPDATE_CONFIG worker config) in
  if truthy_flag (enableOIDCSessionManagement config) && different then
    await _ := reset in
    detached checkSession
  else ret tt.

End WithLibrary.

Definition blank_page : Page :=
  {| pkce_store := ∅; sign_out_url := None; events := [] |}.

Definition is_follow_up (e : Event) : bool :=
  match e with
  | SetSignOutURL _ | CheckSession | Sent START_AUTO_REFRESH_TOKEN => true
  | _ => false
  end.

Definition is_liveness_restart (e : Event) : bool :=
  match e with
  | ResetSessionManagement | CheckSession => true
  | _ => false
  end.

End Client.

(** ** [trySignInSilently]: the host-role wait, lines 416-447 *)

Module SilentSignIn.
Import JS Models Client.

(** [e.data] of a window message event: [Message<AuthorizationInfo | null>],
    or null. *)
Inductive MessageType :=
| CHECK_SESSION_SIGNED_IN
| CHECK_SESSION_SIGNED_OUT
| OtherType (t : string).

Record WindowMessage := {
  type : MessageType;
  payload : option AuthorizationInfo
}.

(** [BasicUserInfo | boolean] *)
Inductive Result :=
| UserInfo (u : BasicUserInfo)
| Bool (b : bool).

Inductive Step :=
| SetTimeout (delay : Z)
| AddEventListener
| RemoveEventListener
| ClearTimeout
| TimerFired
| RequestAccessToken (info : AuthorizationInfo)
| Resolve (r : Result)
| Reject (r : Reason).

(** The wait: the returned promise, whether the 10-second timer is armed,
    whether [listenToPromptNoneIFrame] is registered on the window, the
    code exchanges under way (when each settles, and how), and the steps so
    far. *)
Record Wait := {
  promise : Promise Result;
  timer : bool;
  listening : bool;
  in_flight : list (Z * Settled BasicUserInfo);
  steps : list Step
}.

Definition ceiling : Z := 10000.

(** The executor of the promise, lines 417-419 and 446. *)
Definition start : Wait :=
  {| promise := Pending;
     timer := true;
     listening := true;
     in_flight := [];
     steps := [SetTimeout ceiling; AddEventListener] |}.

(** The timer's callback: [resolve(false)], nothing else. *)
Definition timer_fires (w : Wait) : Wait :=
  if timer w then
    {| promise := resolve (Bool false) (promise w);
       timer := false;
       listening := listening w;
       in_flight := in_flight w;
       steps := steps w ++ [TimerFired; Resolve (Bool false)] |}
  else w.

Definition timer_due (now : Z) (w : Wait) : Wait :=
  if ceiling <=? now then timer_fires w else w.

(** The [.then], [.catch] and [.finally] callbacks on the exchange's promise,
    lines 432-442. *)
Definition exchange_settles (ending : Settled BasicUserInfo) (w : Wait) : Wait :=
  match ending with
  | Resolved response =>
      {| promise := resolve (UserInfo response) (promise w);
         timer := false;
         listening := false;
         in_flight := in_flight w;
         steps := steps w ++ [RemoveEventListener; Resolve (UserInfo response); ClearTimeout] |}
  | Failed error =>
      {| promise := reject error (promise w);
         timer := false;
         listening := false;
         in_flight := in_flight w;
         steps := steps w ++ [RemoveEventListener; Reject error; ClearTimeout] |}
  | Never => w
  end.

Definition with_in_flight (queue : list (Z * Settled BasicUserInfo)) (w : Wait) : Wait :=
  {| promise := promise w;
     timer := timer w;
     listening := listening w;
     in_flight := queue;
     steps := steps w |}.

(** The exchanges that settle up to [now], in the order of their times; the
    timer fires in between when its time has come. *)
Fixpoint settle_until (now : Z) (queue : list (Z * Settled BasicUserInfo)) (w : Wait)
    : list (Z * Settled BasicUserInfo) * Wait :=
  match queue with
  | (at_time, ending) :: rest =>
      if at_time <=? now
      then settle_until now rest (exchange_settles ending (timer_due at_time w))
      else (queue, w)
  | [] => ([], w)
  end.

Definition advance (now : Z) (w : Wait) : Wait :=
  let '(queue, w') := settle_until now (in_flight w) w in
  timer_due now (with_in_flight queue w').

Fixpoint enqueue (at_time : Z) (ending : Settled BasicUserInfo)
    (queue : list (Z * Settled BasicUserInfo)) : list (Z * Settled BasicUserInfo) :=
  match queue with
  | (t, e) :: rest =>
      if t <=? at_time then (t, e) :: enqueue at_time ending rest
      else (at_time, ending) :: queue
  | [] => [(at_time, ending)]
  end.

Definition signed_out (data : option WindowMessage) : bool :=
  match data with
  | Some m => match type m with CHECK_SESSION_SIGNED_OUT => true | _ => false end
  | None => false
  end.

(** [data?.type == CHECK_SESSION_SIGNED_IN && data?.data?.code] *)
Definition signed_in_with_code (data : option WindowMessage) : option AuthorizationInfo :=
  match data with
  | Some m =>
      match type m, payload m with
      | CHECK_SESSION_SIGNED_IN, Some info =>
          if truthy (info_code info) then Some info else None
      | _, _ => None
      end
  | None => None
  end.

Section Wait.

(** [requestAccessToken(code, sessionState, state)] as the wait sees it:
    called at a time with the signal's payload, its promise settles some
    milliseconds later, in some way. *)
Variable exchange : Z -> AuthorizationInfo -> Z * Settled BasicUserInfo.

(** [listenToPromptNoneIFrame], lines 421-444. *)
Definition listenToPromptNoneIFrame (now : Z) (data : option WindowMessage) (w : Wait) : Wait :=
  let w1 :=
    if signed_out data then
      {| promise := resolve (Bool false) (promise w);
         timer := false;
         listening := false;
         in_flight := in_flight w;
         steps := steps w ++ [RemoveEventListener; ClearTimeout; Resolve (Bool false)] |}
    else w in
  match signed_in_with_code data with
  | Some info =>
      let '(latency, ending) := exchange now info in
      {| promise := promise w1;
         timer := timer w1;
         listening := listening w1;
         in_flight := enqueue (now + latency) ending (in_flight w1);
         steps := steps w1 ++ [RequestAccessToken info] |}
  | None => w1
  end.

(** A message event on the window at time [now]: what was due before it
    happens first; the listener runs if it is still registered. *)
Definition dispatch (w : Wait) (event : Z * option WindowMessage) : Wait :=
  let w' := advance (fst event) w in
  if listening w' then listenToPromptNoneIFrame (fst event) (snd event) w' else w'.

(** After the last message: every exchange under way settles, and the timer
    fires if it is still armed. *)
Fixpoint settle_all (queue : list (Z * Settled BasicUserInfo)) (w : Wait) : Wait :=
  match queue with
  | (at_time, ending) :: rest =>
      settle_all rest (exchange_settles ending (timer_due at_time w))
  | [] => w
  end.

Definition drain (w : Wait) : Wait :=
  timer_fires (with_in_flight [] (settle_all (in_flight w) w)).

(** The wait from the moment the iframe's [src] is set: [events] are the
    message events on the window, with their times in milliseconds since
    then, in order. *)
Definition wait (events : list (Z * option WindowMessage)) : Wait :=
  drain (fold_left dispatch events start).

End Wait.

(** A message that starts or ends nothing: neither signed-out nor signed-in
    with a code. *)
Definition is_signal (data : option WindowMessage) : bool :=
  signed_out data || bool_decide (is_Some (signed_in_with_code data)).

Definition count_RemoveEventListener (l : list Step) : nat :=
  length (List.filter (fun s => match s with RemoveEventListener => true | _ => false end) l).

Definition is_TimerFired (s : Step) : bool :=
  match s with
  | TimerFired => true
  | _ => false
  end.

(** The listener is gone and the timer cleared: nothing moves any more. *)
Definition at_rest (w : Wait) : Prop :=
  timer w = false /\ listening w = false /\ in_flight w = [].

(** One exchange is under way and settles at [due]. *)
Definition exchanging (info : AuthorizationInfo) (due : Z) (ending : Settled BasicUserInfo)
    : Wait :=
  {| promise := Pending;
     timer := true;
     listening := true;
     in_flight := [(due, ending)];
     steps := [SetTimeout ceiling; AddEventListener; RequestAccessToken info] |}.

Definition exchanged (info : AuthorizationInfo) (ending : Settled BasicUserInfo) : Wait :=
  with_in_flight []
    (exchange_settles ending
       {| promise := Pending;
          timer := true;
          listening := true;
          in_flight := [];
          steps := [SetTimeout ceiling; AddEventListener; RequestAccessToken info] |}).

Definition signedOut : option WindowMessage :=
  Some {| type := CHECK_SESSION_SIGNED_OUT; payload := None |}.

Definition signedIn (info : AuthorizationInfo) : option WindowMessage :=
  Some {| type := CHECK_SESSION_SIGNED_IN; payload := Some info |}.

End SilentSignIn.

(** ** Sample data for the closed instances *)

Module Samples.
Import JS Models.

Module Helper.
Import SPAHelper.

Definition timer_key : string := "refresh_token_timer".

Definition hour_session : SessionData := session_of "3600" (Some "rt").

(** A world with timer 7 armed and persisted, one with the sentinel
    persisted, and one with nothing persisted. *)
Definition armed_world : World :=
  {| session := hour_session;
     temporary_data := {[ timer_key := JSON_stringify (JNum 7) ]};
     armed := {[ 7 := Int 3590000 ]};
     next_handle := 8;
     trace := [] |}.

Definition sentinel_world : World :=
  {| session := hour_session;
     temporary_data := {[ timer_key := JSON_stringify (JNum (-1)) ]};
     armed := ∅;
     next_handle := 8;
     trace := [] |}.

End Helper.

Definition sample_blob : Blob :=
  {| blob_type := "application/pdf"; blob_bytes := [Byte.x25; Byte.x50; Byte.x44; Byte.x46] |}.

Definition ok_message : option ResponseMessage :=
  Some {| success := true;
          data := Some (JSON_stringify (JObj [("status", JNum 200)]));
          blob := None;
          error := None |}.

Import Client.

Definition extract_key (state : string) : string := "pkce_code_verifier_" +:+ state.

Definition state_of_url (url : string) : option (option string) := Some (Some "request_0").

Definition user : BasicUserInfo :=
  {| allowedScopes := "openid";
     displayName := "Ada";
     email := "ada@example.org";
     sessionState := "ss";
     sub := "ada";
     tenantDomain := "carbon.super";
     username := "ada" |}.

Definition config_with (session_management : option bool) (iframe : option string) : Config :=
  {| clientID := Some "client";
     signInRedirectURL := Some "https://app.example/";
     responseMode := None;
     enablePKCE := Some true;
     enableOIDCSessionManagement := session_management;
     checkSessionInterval := None;
     sessionRefreshInterval := None;
     requestTimeout := None;
     endpoints :=
       match iframe with
       | Some url =>
           Some {| checkSessionIframe := Some url;
                   authorizationEndpoint := None;
                   tokenEndpoint := None |}
       | None => None
       end |}.

Definition partial_config (iframe : option string) : Config :=
  {| clientID := None;
     signInRedirectURL := None;
     responseMode := None;
     enablePKCE := None;
     enableOIDCSessionManagement := None;
     checkSessionInterval := None;
     sessionRefreshInterval := None;
     requestTimeout := None;
     endpoints :=
       match iframe with
       | Some url =>
           Some {| checkSessionIframe := Some url;
                   authorizationEndpoint := None;
                   tokenEndpoint := None |}
       | None => None
       end |}.

(** A worker that reports [reported] and answers the sign-out URL round
    trip with [sign_out]. *)
Definition worker_with (reported : Config) (sign_out : Settled string) : Worker :=
  {| on_GET_CONFIG_DATA := Resolved reported;
     on_GET_AUTH_URL := fun _ =>
       Resolved {| authorizationURL := "https://idp.example/authorize?state=request_0";
                   pkce := Some "verifier" |};
     on_REQUEST_ACCESS_TOKEN := fun _ => Resolved user;
     on_GET_SIGN_OUT_URL := sign_out;
     on_START_AUTO_REFRESH_TOKEN := Resolved tt;
     on_UPDATE_CONFIG := fun _ => Resolved tt |}.

Definition rejection : Reason := Remote (JObj [("code", JStr "WORKER_CORE-SO-NF")]).

Import SilentSignIn.

Definition signal_payload : AuthorizationInfo :=
  {| info_code := "code";
     info_pkce := None;
     info_sessionState := "ss";
     info_state := "request_0" |}.

(** The exchange is [requestAccessToken] against a worker; it takes
    [latency] milliseconds. *)
Definition exchange_taking (latency : Z) (worker : Worker)
    (now : Z) (info : AuthorizationInfo) : Z * Settled BasicUserInfo :=
  (latency,
   fst (requestAccessToken extract_key worker
          (info_code info) (info_sessionState info) (info_state info) blank_page)).

Definition good_worker : Worker :=
  worker_with (config_with None None) (Resolved "https://idp.example/logout").

Definition bad_worker : Worker :=
  worker_with (config_with None None) (Failed rejection).

End Samples.

(** ** Sequences of calls on the helper *)

Module SPAHelperUse.
Import JS SPAHelper.

(** [setTimeout] never hands out a handle twice: every armed handle is a
    positive number below the next one. *)
Definition handles_fresh (w : World) : Prop :=
  0 < next_handle w /\
  forall h d, armed w !! h = Some d -> 0 < h < next_handle w.

(** A handle is persisted. *)
Definition handle_persisted (key : string) (w : World) : Prop :=
  0 < next_handle w /\
  exists h, 0 < h /\ temporary_data w !! key = Some (JSON_stringify (JNum h)).

Section Use.
Variable REFRESH_TOKEN_TIMER : string.

(** [n] calls of [refreshAccessTokenAutomatically] in a row. *)
Definition schedule_times (n : nat) (w : World) : World :=
  Nat.iter n (fun w => snd (refreshAccessTokenAutomatically REFRESH_TOKEN_TIMER w)) w.

(** One thing that happens to the helper's world: a call of one of its
    three methods (with any argument), a timer firing, or new session
    data. *)
Inductive helper_step : World -> World -> Prop :=
| step_schedule w :
    helper_step w (snd (refreshAccessTokenAutomatically REFRESH_TOKEN_TIMER w))
| step_cancel timer w :
    helper_step w (snd (clearRefreshTokenTimeout REFRESH_TOKEN_TIMER timer w))
| step_lookup w :
    helper_step w (snd (getRefreshTimeoutTimer REFRESH_TOKEN_TIMER w))
| step_fire h w :
    helper_step w (fire h w)
| step_session s w :
    helper_step w (with_session s w).

End Use.
End SPAHelperUse.

(** ** More sample data, and the order on waits *)

Module MoreSamples.
Import JS Models Client SilentSignIn Samples.

Definition not_json : option ResponseMessage :=
  Some {| success := true; data := Some (NotJSON "<html>"); blob := None; error := None |}.

Definition refusing_worker (existing : Config) : Worker :=
  {| on_GET_CONFIG_DATA := Resolved existing;
     on_GET_AUTH_URL := fun _ => Failed rejection;
     on_REQUEST_ACCESS_TOKEN := fun _ => Failed rejection;
     on_GET_SIGN_OUT_URL := Failed rejection;
     on_START_AUTO_REFRESH_TOKEN := Failed rejection;
     on_UPDATE_CONFIG := fun _ => Failed rejection |}.

Definition ping : option WindowMessage :=
  Some {| type := OtherType "ping"; payload := None |}.

(** A later state of a wait: the steps so far are still there. *)
Definition extends (w w' : Wait) : Prop := exists tail, steps w' = (steps w ++ tail)%list.

End MoreSamples.

(** ** [clients/web-worker-client.ts]: the rest of the client

    The functions of [WebWorkerClient] besides the ones above, over the
    whole state of one client instance: the storage [SPAUtils] keeps, the
    three variables of the closure ([httpClientHandlers],
    [_isHttpHandlerEnabled], [_getSignOutURLFromSessionStorage]), the page's
    URL and its prompt-none iframe.  Everything that leaves the client goes
    into one ordered list. *)

Module Host.
Import JS Models Client.

(** A callback slot holds one of the no-op functions [initialize] installs
    or a function of the application. *)
Inductive Callback :=
| NoOp
| App (id : nat).

(** [HttpClient]: the four handlers. *)
Record HttpClient := {
  requestErrorCallback : Callback;
  requestFinishCallback : Callback;
  requestStartCallback : Callback;
  requestSuccessCallback : Callback
}.

(** [SPACustomGrantConfig], as far as the client reads it. *)
Record CustomGrant := {
  grant_id : string;
  preventSignOutURLUpdate : option bool;
  grant_data : Json
}.

(** [FetchResponse | BasicUserInfo] *)
Inductive GrantResult :=
| Fetched (r : Response)
| SignedInAs (u : BasicUserInfo).

(** [window.location.href] as a URL: what stands before the query, and the
    query's parameters in order. *)
Record Location := {
  path : string;
  searchParams : list (string * string)
}.

Definition searchParams_get (key : string) (l : Location) : option string :=
  match List.find (fun kv => String.eqb (fst kv) key) (searchParams l) with
  | Some kv => Some (snd kv)
  | None => None
  end.

Definition searchParams_delete (key : string) (l : Location) : Location :=
  {| path := path l;
     searchParams := List.filter (fun kv => negb (String.eqb (fst kv) key)) (searchParams l) |}.

(** The arguments of [_sessionManagementHelper.initialize] that are data. *)
Record SessionManagementArgs := {
  sm_clientID : option string;
  sm_checkSessionIframe : string;
  sm_checkSessionInterval : Z;
  sm_sessionRefreshInterval : Z;
  sm_signInRedirectURL : option string
}.

Inductive HostMessage :=
| Core (m : Message)
| INIT (config : Config)
| HTTP_REQUEST (config : Json)
| HTTP_REQUEST_ALL (configs : list Json)
| ENABLE_HTTP_HANDLER
| DISABLE_HTTP_HANDLER
| REQUEST_CUSTOM_GRANT (requestParams : CustomGrant)
| SIGN_OUT
| REVOKE_ACCESS_TOKEN
| IS_AUTHENTICATED
| GET_BASIC_USER_INFO
| GET_DECODED_ID_TOKEN
| GET_ID_TOKEN
| GET_OIDC_SERVICE_ENDPOINTS
| REFRESH_ACCESS_TOKEN
| SET_SESSION_STATE (sessionState : option string).

(** The worker seen from the client, for the messages above.  Its answers
    are taken not to change during one call. *)
Record HostWorker := {
  core : Worker;
  on_INIT : Config -> Settled unit;
  on_HTTP_REQUEST : Json -> Settled Response;
  on_HTTP_REQUEST_ALL : list Json -> Settled (list Response);
  on_ENABLE_HTTP_HANDLER : Settled unit;
  on_DISABLE_HTTP_HANDLER : Settled unit;
  on_REQUEST_CUSTOM_GRANT : CustomGrant -> Settled GrantResult;
  on_SIGN_OUT : Settled string;
  on_REVOKE_ACCESS_TOKEN : Settled bool;
  on_IS_AUTHENTICATED : Settled bool;
  on_GET_BASIC_USER_INFO : Settled BasicUserInfo;
  on_GET_DECODED_ID_TOKEN : Settled Json;
  on_GET_ID_TOKEN : Settled string;
  on_GET_OIDC_SERVICE_ENDPOINTS : Settled Endpoints;
  on_REFRESH_ACCESS_TOKEN : Settled BasicUserInfo;
  on_SET_SESSION_STATE : option string -> Settled unit
}.

Inductive Invocation :=
| Error_callback (c : Callback) (error : Reason)
| Finish_callback (c : Callback)
| Start_callback (c : Callback)
| Success_callback (c : Callback) (response : Json).

Inductive HostEvent :=
| Posted (m : HostMessage)
| OnPage (e : Event)
| Invoked (i : Invocation)
| UncaughtException (e : Exception)
| Navigated (url : string)
| PushedState (url : Location)
| WaitedTillPageRedirect
| ReceivedPromptNoneResponse
| RemovedAuthorizationCode
| ReadSignOutURL
| IframeSrcSet (url : string)
| SessionManagementInitialized (args : SessionManagementArgs).

Record Host := {
  verifiers : gmap string string;
  signOutURL : option string;
  httpClientHandlers : option HttpClient;
  _isHttpHandlerEnabled : bool;
  _getSignOutURLFromSessionStorage : bool;
  worker_onmessage : bool;
  location : Location;
  promptNoneIFrame : option string;
  happened : list HostEvent
}.

(** The client right after [WebWorkerClient(config)] returns, lines 89-95. *)
Definition created (l : Location) (iframe : option string) : Host :=
  {| verifiers := ∅;
     signOutURL := None;
     httpClientHandlers := None;
     _isHttpHandlerEnabled := true;
     _getSignOutURLFromSessionStorage := false;
     worker_onmessage := false;
     location := l;
     promptNoneIFrame := iframe;
     happened := [] |}.

Definition note (e : HostEvent) (h : Host) : Host :=
  {| verifiers := verifiers h;
     signOutURL := signOutURL h;
     httpClientHandlers := httpClientHandlers h;
     _isHttpHandlerEnabled := _isHttpHandlerEnabled h;
     _getSignOutURLFromSessionStorage := _getSignOutURLFromSessionStorage h;
     worker_onmessage := worker_onmessage h;
     location := location h;
     promptNoneIFrame := promptNoneIFrame h;
     happened := happened h ++ [e] |}.

Definition with_handlers (hc : option HttpClient) (h : Host) : Host :=
  {| verifiers := verifiers h;
     signOutURL := signOutURL h;
     httpClientHandlers := hc;
     _isHttpHandlerEnabled := _isHttpHandlerEnabled h;
     _getSignOutURLFromSessionStorage := _getSignOutURLFromSessionStorage h;
     worker_onmessage := worker_onmessage h;
     location := location h;
     promptNoneIFrame := promptNoneIFrame h;
     happened := happened h |}.

Definition with_http_handler_enabled (b : bool) (h : Host) : Host :=
  {| verifiers := verifiers h;
     signOutURL := signOutURL h;
     httpClientHandlers := httpClientHandlers h;
     _isHttpHandlerEnabled := b;
     _getSignOutURLFromSessionStorage := _getSignOutURLFromSessionStorage h;
     worker_onmessage := worker_onmessage h;
     location := location h;
     promptNoneIFrame := promptNoneIFrame h;
     happened := happened h |}.

Definition with_sign_out_url_from_storage (b : bool) (h : Host) : Host :=
  {| verifiers := verifiers h;
     signOutURL := signOutURL h;
     httpClientHandlers := httpClientHandlers h;
     _isHttpHandlerEnabled := _isHttpHandlerEnabled h;
     _getSignOutURLFromSessionStorage := b;
     worker_onmessage := worker_onmessage h;
     location := location h;
     promptNoneIFrame := promptNoneIFrame h;
     happened := happened h |}.

Definition with_worker_onmessage (h : Host) : Host :=
  {| verifiers := verifiers h;
     signOutURL := signOutURL h;
     httpClientHandlers := httpClientHandlers h;
     _isHttpHandlerEnabled := _isHttpHandlerEnabled h;
     _getSignOutURLFromSessionStorage := _getSignOutURLFromSessionStorage h;
     worker_onmessage := true;
     location := location h;
     promptNoneIFrame := promptNoneIFrame h;
     happened := happened h |}.

Definition with_location (l : Location) (h : Host) : Host :=
  {| verifiers := verifiers h;
     signOutURL := signOutURL h;
     httpClientHandlers := httpClientHandlers h;
     _isHttpHandlerEnabled := _isHttpHandlerEnabled h;
     _getSignOutURLFromSessionStorage := _getSignOutURLFromSessionStorage h;
     worker_onmessage := worker_onmessage h;
     location := l;
     promptNoneIFrame := promptNoneIFrame h;
     happened := happened h |}.

Definition with_iframe_src (url : string) (h : Host) : Host :=
  {| verifiers := verifiers h;
     signOutURL := signOutURL h;
     httpClientHandlers := httpClientHandlers h;
     _isHttpHandlerEnabled := _isHttpHandlerEnabled h;
     _getSignOutURLFromSessionStorage := _getSignOutURLFromSessionStorage h;
     worker_onmessage := worker_onmessage h;
     location := location h;
     promptNoneIFrame := Some url;
     happened := happened h |}.

(** A promise-returning function of the client, over the whole state. *)
Definition Op (A : Type) : Type := Host -> Settled A * Host.

Definition ret {A} (a : A) : Op A := fun h => (Resolved a, h).

Definition fail {A} (r : Reason) : Op A := fun h => (Failed r, h).

Definition bind {A B} (m : Op A) (k : A -> Op B) : Op B :=
  fun h =>
    match m h with
    | (Resolved a, h') => k a h'
    | (Failed r, h') => (Failed r, h')
    | (Never, h') => (Never, h')
    end.

Notation "'await' x '<-' m 'in' k" := (bind m (fun x => k))
  (at level 10, x name, m at level 100, k at level 200).

Definition act (e : HostEvent) : Op unit :=
  fun h => (Resolved tt, note e h).

(** [communicate] as the callers see it: the message is posted, and the
    promise ends as the worker has it end. *)
Definition communicate {A} (m : HostMessage) (ending : Settled A) : Op A :=
  fun h => (ending, note (Posted m) h).

(** The functions modelled on a [Page] run on the storage of the client;
    what they do is entered in the client's list. *)
Definition translate (e : Event) : HostEvent :=
  match e with
  | Sent m => Posted (Core m)
  | _ => OnPage e
  end.

Definition page_of (h : Host) : Page :=
  {| pkce_store := verifiers h; sign_out_url := signOutURL h; events := [] |}.

Definition lift {A} (m : Task A) : Op A :=
  fun h =>
    let '(ending, p) := m (page_of h) in
    (ending,
     {| verifiers := pkce_store p;
        signOutURL := sign_out_url p;
        httpClientHandlers := httpClientHandlers h;
        _isHttpHandlerEnabled := _isHttpHandlerEnabled h;
        _getSignOutURLFromSessionStorage := _getSignOutURLFromSessionStorage h;
        worker_onmessage := worker_onmessage h;
        location := location h;
        promptNoneIFrame := promptNoneIFrame h;
        happened := happened h ++ List.map translate (events p) |}).

(** What surrounds one client instance and is not its own code. *)
Record Environment := {
  (** the argument of [WebWorkerClient] *)
  config : Config;
  worker : HostWorker;
  (** from [@asgardeo/auth-js] and the URL API *)
  extractPKCEKeyFromStateParam : string -> string;
  state_param : string -> option (option string);
  with_response_mode_query : string -> string;
  (** how a function of the application ends when called: it returns
      ([Resolved]), throws or rejects ([Failed]), or does not come back *)
  callback_ends : nat -> Settled unit;
  (** [_sessionManagementHelper.receivePromptNoneResponse] *)
  receivePromptNoneResponse_ends : Settled bool;
  (** [SPAUtils.isInitializedSilentSignIn()] *)
  isInitializedSilentSignIn : bool;
  (** what [SPAUtils.getSignOutURL()] returns when no URL is stored *)
  no_sign_out_url : string;
  (** the names of the query parameters and the reserved state *)
  ERROR : string;
  ERROR_DESCRIPTION : string;
  AUTHORIZATION_CODE : string;
  SESSION_STATE : string;
  STATE : string;
  SILENT_SIGN_IN_STATE : string;
  (** [requestAccessToken] as the silent sign-in wait sees it *)
  exchange : Z -> AuthorizationInfo -> Z * Settled BasicUserInfo
}.

Definition empty_user_info : BasicUserInfo :=
  {| allowedScopes := "";
     displayName := "";
     email := "";
     sessionState := "";
     sub := "";
     tenantDomain := "";
     username := "" |}.

Definition default_handlers : HttpClient :=
  {| requestErrorCallback := NoOp;
     requestFinishCallback := NoOp;
     requestStartCallback := NoOp;
     requestSuccessCallback := NoOp |}.

(** Messages the worker pushes on its own (no port): [worker.onmessage]. *)
Inductive Notification :=
| REQUEST_FINISH
| REQUEST_START
| REQUEST_SUCCESS (data : option JSONText)
| OtherNotification (type : string).

Section Client.
Variable env : Environment.

Definition ends (c : Callback) : Settled unit :=
  match c with
  | NoOp => Resolved tt
  | App id => callback_ends env id
  end.

Definition invoke (i : Invocation) (c : Callback) : Op unit :=
  fun h => (ends c, note (Invoked i) h).

(** The round trips that only pass the worker's answer on (each [.then]
    resolves with the response, each [.catch] rejects with the error). *)
Definition getConfigData : Op Config :=
  lift (Client.getConfigData (core (worker env))).

Definition getOIDCServiceEndpoints : Op Endpoints :=
  communicate GET_OIDC_SERVICE_ENDPOINTS (on_GET_OIDC_SERVICE_ENDPOINTS (worker env)).

Definition getBasicUserInfo : Op BasicUserInfo :=
  communicate GET_BASIC_USER_INFO (on_GET_BASIC_USER_INFO (worker env)).

Definition getDecodedIDToken : Op Json :=
  communicate GET_DECODED_ID_TOKEN (on_GET_DECODED_ID_TOKEN (worker env)).

Definition getIDToken : Op string :=
  communicate GET_ID_TOKEN (on_GET_ID_TOKEN (worker env)).

Definition isAuthenticated : Op bool :=
  communicate IS_AUTHENTICATED (on_IS_AUTHENTICATED (worker env)).

Definition refreshAccessToken : Op BasicUserInfo :=
  communicate REFRESH_ACCESS_TOKEN (on_REFRESH_ACCESS_TOKEN (worker env)).

Definition setSessionState (sessionState : option string) : Op unit :=
  communicate (SET_SESSION_STATE sessionState) (on_SET_SESSION_STATE (worker env) sessionState).

Definition startAutoRefreshToken : Op unit :=
  lift (Client.startAutoRefreshToken (core (worker env))).

(** Modelled from the spec: [SPAUtils.getSignOutURL], [waitTillPageRedirect]
    and [removeAuthorizationCode] are not among the sources.  The spec has a
    cached sign-out URL, a wait for the redirect to complete (an event
    here), and the code cleared from the URL once consumed: the code
    parameter is taken off the location. *)
Definition getSignOutURL : Op string :=
  fun h => (Resolved (default (no_sign_out_url env) (signOutURL h)), note ReadSignOutURL h).

Definition waitTillPageRedirect : Op unit := act WaitedTillPageRedirect.

Definition removeAuthorizationCode : Op unit :=
  fun h =>
    (Resolved tt,
     note RemovedAuthorizationCode
       (with_location (searchParams_delete (AUTHORIZATION_CODE env) (location h)) h)).

(** [_sessionManagementHelper.receivePromptNoneResponse(...)] *)
Definition receivePromptNoneResponse : Op bool :=
  fun h => (receivePromptNoneResponse_ends env, note ReceivedPromptNoneResponse h).

(** The first argument of [SessionManagementHelper], lines 98-110: the
    sign-out URL from the worker, the stored one when that fails. *)
Definition signOutURLProvider : Op string :=
  fun h =>
    match communicate SIGN_OUT (on_SIGN_OUT (worker env)) h with
    | (Failed _, h') => getSignOutURL h'
    | settled => settled
    end.

(** [requestCustomGrant], lines 162-179. *)
Definition requestCustomGrant (requestParams : CustomGrant) : Op GrantResult :=
  await response <-
    communicate (REQUEST_CUSTOM_GRANT requestParams)
      (on_REQUEST_CUSTOM_GRANT (worker env) requestParams) in
  fun h =>
    (Resolved response,
     if truthy_flag (preventSignOutURLUpdate requestParams)
     then with_sign_out_url_from_storage true h else h).

(** The [.catch] of [httpRequest] and [httpRequestAll], lines 199-210 and
    232-243.  Reading a property of [httpClientHandlers] throws when
    [initialize] has not run.  The error callback is awaited; the finish
    callback is only called, so that for it [Failed] is a throw. *)
Definition http_failed {A} (error : Reason) : Op A :=
  fun h =>
    if _isHttpHandlerEnabled h then
      match httpClientHandlers h with
      | Some handlers =>
          (await _ <-
             invoke (Error_callback (requestErrorCallback handlers) error)
               (requestErrorCallback handlers) in
           await _ <-
             invoke (Finish_callback (requestFinishCallback handlers))
               (requestFinishCallback handlers) in
           fail error) h
      | None => (Failed (Thrown TypeError), h)
      end
    else (Failed error, h).

(** [httpRequest], lines 189-211. *)
Definition httpRequest (request : Json) : Op Response :=
  fun h =>
    match communicate (HTTP_REQUEST request) (on_HTTP_REQUEST (worker env) request) h with
    | (Failed error, h') => http_failed error h'
    | settled => settled
    end.

(** [httpRequestAll], lines 222-244. *)
Definition httpRequestAll (requests : list Json) : Op (list Response) :=
  fun h =>
    match
      communicate (HTTP_REQUEST_ALL requests) (on_HTTP_REQUEST_ALL (worker env) requests) h
    with
    | (Failed error, h') => http_failed error h'
    | settled => settled
    end.

(** [enableHttpHandler], lines 246-259, and [disableHttpHandler], 261-274. *)
Definition enableHttpHandler : Op bool :=
  await _ <- communicate ENABLE_HTTP_HANDLER (on_ENABLE_HTTP_HANDLER (worker env)) in
  fun h => (Resolved true, with_http_handler_enabled true h).

Definition disableHttpHandler : Op bool :=
  await _ <- communicate DISABLE_HTTP_HANDLER (on_DISABLE_HTTP_HANDLER (worker env)) in
  fun h => (Resolved true, with_http_handler_enabled false h).

(** [initialize], lines 284-321. *)
Definition initialize : Op bool :=
  fun h =>
    let h1 :=
      match httpClientHandlers h with
      | Some _ => h
      | None => with_handlers (Some default_handlers) h
      end in
    (await _ <- communicate (INIT (config env)) (on_INIT (worker env) (config env)) in
     ret true) (with_worker_onmessage h1).

(** The handler [initialize] puts on [worker.onmessage], lines 294-307.  An
    exception in it (from [JSON.parse]) is nobody's rejection. *)
Definition on_notification (n : Notification) (h : Host) : Host :=
  if worker_onmessage h then
    match httpClientHandlers h with
    | Some handlers =>
        match n with
        | REQUEST_FINISH =>
            note (Invoked (Finish_callback (requestFinishCallback handlers))) h
        | REQUEST_START =>
            note (Invoked (Start_callback (requestStartCallback handlers))) h
        | REQUEST_SUCCESS data =>
            match Channel.parse_or_null data with
            | inr response =>
                note (Invoked (Success_callback (requestSuccessCallback handlers) response)) h
            | inl e => note (UncaughtException e) h
            end
        | OtherNotification _ => h
        end
    | None => h
    end
  else h.

(** The four setters, lines 778-800.  The argument is [None] when it is not
    a function; assigning to a property of [httpClientHandlers] throws when
    [initialize] has not run. *)
Definition set_handler (update : Callback -> HttpClient -> HttpClient)
    (callback : option Callback) (h : Host) : Exception + Host :=
  match callback with
  | Some c =>
      match httpClientHandlers h with
      | Some handlers => inr (with_handlers (Some (update c handlers)) h)
      | None => inl TypeError
      end
  | None => inr h
  end.

Definition setHttpRequestSuccessCallback : option Callback -> Host -> Exception + Host :=
  set_handler (fun c handlers =>
    {| requestErrorCallback := requestErrorCallback handlers;
       requestFinishCallback := requestFinishCallback handlers;
       requestStartCallback := requestStartCallback handlers;
       requestSuccessCallback := c |}).

Definition setHttpRequestErrorCallback : option Callback -> Host -> Exception + Host :=
  set_handler (fun c handlers =>
    {| requestErrorCallback := c;
       requestFinishCallback := requestFinishCallback handlers;
       requestStartCallback := requestStartCallback handlers;
       requestSuccessCallback := requestSuccessCallback handlers |}).

Definition setHttpRequestStartCallback : option Callback -> Host -> Exception + Host :=
  set_handler (fun c handlers =>
    {| requestErrorCallback := requestErrorCallback handlers;
       requestFinishCallback := requestFinishCallback handlers;
       requestStartCallback := c;
       requestSuccessCallback := requestSuccessCallback handlers |}).

Definition setHttpRequestFinishCallback : option Callback -> Host -> Exception + Host :=
  set_handler (fun c handlers =>
    {| requestErrorCallback := requestErrorCallback handlers;
       requestFinishCallback := c;
       requestStartCallback := requestStartCallback handlers;
       requestSuccessCallback := requestSuccessCallback handlers |}).

(** [checkSession], lines 340-353, with its body.  Where it is called
    (without [await]) the call is the one event [CheckSession], as above. *)
Definition checkSession : Op unit :=
  await oidcEndpoints <- getOIDCServiceEndpoints in
  await config <- getConfigData in
  act (SessionManagementInitialized
         {| sm_clientID := clientID config;
            sm_checkSessionIframe := default "" (checkSessionIframe oidcEndpoints);
            sm_checkSessionInterval := default 3 (checkSessionInterval config);
            sm_sessionRefreshInterval := default 300 (sessionRefreshInterval config);
            sm_signInRedirectURL := signInRedirectURL config |}).

(** [revokeAccessToken], lines 671-684. *)
Definition revokeAccessToken : Op bool :=
  await response <- communicate REVOKE_ACCESS_TOKEN (on_REVOKE_ACCESS_TOKEN (worker env)) in
  await _ <- act (OnPage ResetSessionManagement) in
  ret response.

(** [signOut], lines 634-664. *)
Definition signOut : Op bool :=
  await response <- isAuthenticated in
  fun h =>
    if response && negb (_getSignOutURLFromSessionStorage h) then
      (await url <- communicate SIGN_OUT (on_SIGN_OUT (worker env)) in
       await _ <- act (Navigated url) in
       await _ <- waitTillPageRedirect in
       ret true) h
    else
      (await url <- getSignOutURL in
       await _ <- act (Navigated url) in
       await _ <- waitTillPageRedirect in
       ret true) h.

(** [requestAccessToken] and [getAuthorizationURL], as modelled above. *)
Definition requestAccessToken (code session_state state : string) : Op BasicUserInfo :=
  lift (Client.requestAccessToken (extractPKCEKeyFromStateParam env) (core (worker env))
          code session_state state).

Definition getAuthorizationURL (params : option GetAuthURLConfig) : Op AuthorizationResponse :=
  lift (Client.getAuthorizationURL (extractPKCEKeyFromStateParam env) (state_param env)
          (config env) (core (worker env)) params).

(** [signIn], lines 530-627. *)
Definition signIn (params : option GetAuthURLConfig)
    (authorizationCode sessionState state : option string) : Op BasicUserInfo :=
  await config <- getConfigData in
  await shouldStopContinue <- receivePromptNoneResponse in
  if shouldStopContinue then ret empty_user_info
  else fun h =>
    let error := searchParams_get (ERROR env) (location h) in
    let errorDescription := searchParams_get (ERROR_DESCRIPTION env) (location h) in
    if truthy_opt error then
      let url :=
        searchParams_delete (ERROR_DESCRIPTION env)
          (searchParams_delete (ERROR env) (location h)) in
      (Failed (Exc {| code := "WEB_WORKER_CLIENT-SI-BE";
                      name := "web-worker-client";
                      method := "signIn";
                      message := default "" error;
                      description := default "" errorDescription |}),
       note (PushedState url) (with_location url h))
    else
      (await authenticated <- isAuthenticated in
       if authenticated then
         await _ <- startAutoRefreshToken in
         await _ <-
           (if truthy_flag (enableOIDCSessionManagement config)
            then act (OnPage CheckSession) else ret tt) in
         getBasicUserInfo
       else fun h =>
         let form_post_code :=
           match responseMode config with
           | Some form_post => truthy_opt authorizationCode
           | _ => false
           end in
         let resolved :=
           if form_post_code then
             ret (default "" authorizationCode, default "" sessionState, default "" state)
           else
             let from_url :=
               (default "" (searchParams_get (AUTHORIZATION_CODE env) (location h)),
                default "" (searchParams_get (SESSION_STATE env) (location h)),
                default "" (searchParams_get (STATE env) (location h))) in
             await _ <- removeAuthorizationCode in
             ret from_url in
         (await codes <- resolved in
          let '(resolvedAuthorizationCode, resolvedSessionState, resolvedState) := codes in
          if truthy resolvedAuthorizationCode then
            requestAccessToken resolvedAuthorizationCode resolvedSessionState resolvedState
          else
            await response <- getAuthorizationURL params in
            await _ <- act (Navigated (authorizationURL response)) in
            await _ <- waitTillPageRedirect in
            ret empty_user_info) h) h.

(** [trySignInSilently], lines 362-448, up to the wait: what it ends with
    when there is no wait, or the state in which the wait begins. *)
Inductive Preparation :=
| Ended (ending : Settled SilentSignIn.Result)
| Waiting.

Definition silent_params : GetAuthURLConfig :=
  {| prompt := Some "none"; param_state := Some (SILENT_SIGN_IN_STATE env) |}.

Definition prepareSilentSignIn : Host -> Preparation * Host :=
  fun h =>
    match getConfigData h with
    | (Resolved config, h1) =>
        if isInitializedSilentSignIn env then
          match receivePromptNoneResponse h1 with
          | (Resolved _, h2) => (Ended (Resolved (SilentSignIn.UserInfo empty_user_info)), h2)
          | (Failed r, h2) => (Ended (Failed r), h2)
          | (Never, h2) => (Ended Never, h2)
          end
        else
          match
            lift (Client.communicate (GET_AUTH_URL (Some silent_params))
                    (on_GET_AUTH_URL (core (worker env)) (Some silent_params))) h1
          with
          | (Resolved response, h2) =>
              match state_param env (authorizationURL response) with
              | Some found =>
                  let pkceKey := extractPKCEKeyFromStateParam env (default "" found) in
                  let h3 :=
                    if truthy_opt (pkce response) && truthy_flag (enablePKCE config)
                    then snd (lift (setPKCE pkceKey (default "" (pkce response))) h2)
                    else h2 in
                  let url := with_response_mode_query env (authorizationURL response) in
                  match promptNoneIFrame h3 with
                  | Some _ => (Waiting, note (IframeSrcSet url) (with_iframe_src url h3))
                  | None => (Ended (Failed (Thrown TypeError)), h3)
                  end
              | None => (Ended (Failed (Thrown TypeError)), h2)
              end
          | (Failed r, h2) => (Ended (Failed r), h2)
          | (Never, h2) => (Ended Never, h2)
          end
    | (Failed r, h1) => (Ended (Failed r), h1)
    | (Never, h1) => (Ended Never, h1)
    end.

Definition settled_of {A} (p : Promise A) : Settled A :=
  match p with
  | Pending => Never
  | Fulfilled v => Resolved v
  | Rejected r => Failed r
  end.

(** [trySignInSilently]: how its promise ends, the state of the client when
    the preparation is over, and the wait when there is one.  [messages] are
    the message events on the window after the iframe's [src] is set. *)
Definition trySignInSilently (messages : list (Z * option SilentSignIn.WindowMessage))
    (h : Host) : Settled SilentSignIn.Result * Host * option SilentSignIn.Wait :=
  match prepareSilentSignIn h with
  | (Ended ending, h') => (ending, h', None)
  | (Waiting, h') =>
      let w := SilentSignIn.wait (exchange env) messages in
      (settled_of (SilentSignIn.promise w), h', Some w)
  end.

(** [updateConfig], as modelled above. *)
Definition updateConfig (newConfig : Config) : Op unit :=
  lift (Client.updateConfig (core (worker env)) newConfig).

End Client.

(** What can happen to one client instance: a call of one of its functions
    (those it returns, and those it hands to the session management helper
    or calls from its listeners), or a notification from the worker. *)
Inductive Call :=
| Call_initialize
| Call_httpRequest (request : Json)
| Call_httpRequestAll (requests : list Json)
| Call_enableHttpHandler
| Call_disableHttpHandler
| Call_requestCustomGrant (requestParams : CustomGrant)
| Call_signIn (params : option GetAuthURLConfig)
    (authorizationCode sessionState state : option string)
| Call_trySignInSilently (messages : list (Z * option SilentSignIn.WindowMessage))
| Call_requestAccessToken (code session_state state : string)
| Call_getAuthorizationURL (params : option GetAuthURLConfig)
| Call_signOut
| Call_revokeAccessToken
| Call_getOIDCServiceEndpoints
| Call_getConfigData
| Call_getBasicUserInfo
| Call_getDecodedIDToken
| Call_getIDToken
| Call_isAuthenticated
| Call_refreshAccessToken
| Call_setSessionState (sessionState : option string)
| Call_startAutoRefreshToken
| Call_updateConfig (newConfig : Config)
| Call_checkSession
| Call_signOutURLProvider
| Call_setHttpRequestSuccessCallback (callback : option Callback)
| Call_setHttpRequestErrorCallback (callback : option Callback)
| Call_setHttpRequestStartCallback (callback : option Callback)
| Call_setHttpRequestFinishCallback (callback : option Callback)
| Call_notification (n : Notification).

Definition after_setter (r : Exception + Host) (h : Host) : Host :=
  match r with
  | inr h' => h'
  | inl _ => h
  end.

(** The client after one call, in surroundings [env]. *)
Definition perform (env : Environment) (c : Call) (h : Host) : Host :=
  match c with
  | Call_initialize => snd (initialize env h)
  | Call_httpRequest request => snd (httpRequest env request h)
  | Call_httpRequestAll requests => snd (httpRequestAll env requests h)
  | Call_enableHttpHandler => snd (enableHttpHandler env h)
  | Call_disableHttpHandler => snd (disableHttpHandler env h)
  | Call_requestCustomGrant requestParams => snd (requestCustomGrant env requestParams h)
  | Call_signIn params authorizationCode sessionState state =>
      snd (signIn env params authorizationCode sessionState state h)
  | Call_trySignInSilently messages => snd (fst (trySignInSilently env messages h))
  | Call_requestAccessToken code session_state state =>
      snd (requestAccessToken env code session_state state h)
  | Call_getAuthorizationURL params => snd (getAuthorizationURL env params h)
  | Call_signOut => snd (signOut env h)
  | Call_revokeAccessToken => snd (revokeAccessToken env h)
  | Call_getOIDCServiceEndpoints => snd (getOIDCServiceEndpoints env h)
  | Call_getConfigData => snd (getConfigData env h)
  | Call_getBasicUserInfo => snd (getBasicUserInfo env h)
  | Call_getDecodedIDToken => snd (getDecodedIDToken env h)
  | Call_getIDToken => snd (getIDToken env h)
  | Call_isAuthenticated => snd (isAuthenticated env h)
  | Call_refreshAccessToken => snd (refreshAccessToken env h)
  | Call_setSessionState sessionState => snd (setSessionState env sessionState h)
  | Call_startAutoRefreshToken => snd (startAutoRefreshToken env h)
  | Call_updateConfig newConfig => snd (updateConfig env newConfig h)
  | Call_checkSession => snd (checkSession env h)
  | Call_signOutURLProvider => snd (signOutURLProvider env h)
  | Call_setHttpRequestSuccessCallback callback =>
      after_setter (setHttpRequestSuccessCallback callback h) h
  | Call_setHttpRequestErrorCallback callback =>
      after_setter (setHttpRequestErrorCallback callback h) h
  | Call_setHttpRequestStartCallback callback =>
      after_setter (setHttpRequestStartCallback callback h) h
  | Call_setHttpRequestFinishCallback callback =>
      after_setter (setHttpRequestFinishCallback callback h) h
  | Call_notification n => on_notification n h
  end.

(** Calls one after the other, each in its own surroundings (the worker's
    answers and the callbacks' endings may differ from call to call). *)
Definition calls (cs : list (Environment * Call)) (h : Host) : Host :=
  fold_left (fun h' ec => perform (fst ec) (snd ec) h') cs h.

(** What a call leaves in place. *)
Definition kept (h h' : Host) : Prop :=
  (_getSignOutURLFromSessionStorage h = true -> _getSignOutURLFromSessionStorage h' = true)
  /\ (is_Some (httpClientHandlers h) -> is_Some (httpClientHandlers h'))
  /\ (worker_onmessage h = true -> worker_onmessage h' = true).

(** The switch of the HTTP handlers is as it was. *)
Definition same_switch (h h' : Host) : Prop :=
  _isHttpHandlerEnabled h' = _isHttpHandlerEnabled h.

(** A relation between the client before and after that the steps common
    to all functions respect. *)
Record neutral (R : Host -> Host -> Prop) : Prop := {
  neutral_refl : forall h, R h h;
  neutral_trans : forall h1 h2 h3, R h1 h2 -> R h2 h3 -> R h1 h3;
  neutral_note : forall e h, R h (note e h);
  neutral_lift : forall A (m : Task A) h, R h (snd (lift m h));
  neutral_location : forall l h, R h (with_location l h);
  neutral_iframe : forall url h, R h (with_iframe_src url h)
}.

Definition keeps (R : Host -> Host -> Prop) {A} (m : Op A) : Prop :=
  forall h, R h (snd (m h)).

Definition is_switch (c : Call) : bool :=
  match c with
  | Call_enableHttpHandler | Call_disableHttpHandler => true
  | _ => false
  end.

End Host.

(** ** Sample surroundings of the client *)

Module HostSamples.
Import JS Models Client Host Samples MoreSamples.

Definition answer {A} (willing : bool) (a : A) : Settled A :=
  if willing then Resolved a else Failed rejection.

Definition no_endpoints : Endpoints :=
  {| checkSessionIframe := None; authorizationEndpoint := None; tokenEndpoint := None |}.

(** A worker in front of [core]: [authenticated] and [http] are its answers
    to [IS_AUTHENTICATED] and to the HTTP requests; the other round trips
    all succeed or are all refused. *)
Definition worker_of (authenticated : Settled bool) (http : Settled Response)
    (willing : bool) (core : Worker) : HostWorker :=
  {| core := core;
     on_INIT := fun _ => answer willing tt;
     on_HTTP_REQUEST := fun _ => http;
     on_HTTP_REQUEST_ALL := fun requests =>
       match http with
       | Resolved r => Resolved (List.map (fun _ => r) requests)
       | Failed e => Failed e
       | Never => Never
       end;
     on_ENABLE_HTTP_HANDLER := answer willing tt;
     on_DISABLE_HTTP_HANDLER := answer willing tt;
     on_REQUEST_CUSTOM_GRANT := fun _ => answer willing (SignedInAs user);
     on_SIGN_OUT := answer willing "https://idp.example/logout";
     on_REVOKE_ACCESS_TOKEN := answer willing true;
     on_IS_AUTHENTICATED := authenticated;
     on_GET_BASIC_USER_INFO := answer willing user;
     on_GET_DECODED_ID_TOKEN := answer willing (JObj [("sub", JStr "ada")]);
     on_GET_ID_TOKEN := answer willing "id_token";
     on_GET_OIDC_SERVICE_ENDPOINTS := answer willing no_endpoints;
     on_REFRESH_ACCESS_TOKEN := answer willing user;
     on_SET_SESSION_STATE := fun _ => answer willing tt |}.

(** The surroundings of a client in the host page whose
    [receivePromptNoneResponse] lets [signIn] go on.  The application's
    callback 0 returns, every other one throws. *)
Definition env_of (authenticated : Settled bool) (http : Settled Response)
    (willing : bool) (core : Worker) : Environment :=
  {| config := config_with None None;
     worker := worker_of authenticated http willing core;
     extractPKCEKeyFromStateParam := extract_key;
     state_param := state_of_url;
     with_response_mode_query := fun url => url +:+ "&response_mode=query";
     callback_ends := fun id =>
       match id with
       | O => Resolved tt
       | S _ => Failed rejection
       end;
     receivePromptNoneResponse_ends := Resolved false;
     isInitializedSilentSignIn := false;
     no_sign_out_url := "";
     ERROR := "error";
     ERROR_DESCRIPTION := "error_description";
     AUTHORIZATION_CODE := "code";
     SESSION_STATE := "session_state";
     STATE := "state";
     SILENT_SIGN_IN_STATE := "silentSignIn";
     exchange := exchange_taking 100 core |}.

Definition http_ok : Settled Response := Resolved (Plain (JObj [("status", JNum 200)])).

Definition plain_page : Location :=
  {| path := "https://app.example/"; searchParams := [] |}.

Definition error_page : Location :=
  {| path := "https://app.example/";
     searchParams :=
       [("tab", "1"); ("error", "access_denied");
        ("error_description", "the user said no")] |}.

Definition code_page : Location :=
  {| path := "https://app.example/";
     searchParams := [("code", "abc"); ("session_state", "ss"); ("state", "request_0")] |}.

Definition fresh_host : Host := created plain_page (Some "about:blank").

(** The client after [initialize]. *)
Definition ready_host : Host :=
  snd (initialize (env_of (Resolved true) http_ok true good_worker) fresh_host).

Definition keeping_grant : CustomGrant :=
  {| grant_id := "account-switch";
     preventSignOutURLUpdate := Some true;
     grant_data := JNull |}.

End HostSamples.


(* ===================================================================== *)
(** * Part II. Properties                                                 *)
(* ===================================================================== *)

(** ** The refresh-timer helper *)

Module SPAHelperFacts.
Import JS SPAHelper.

Example parseInt_samples :
  parseInt "100" = Int 100 /\ parseInt "5" = Int 5 /\
  parseInt "  -42px" = Int (-42) /\ parseInt "0x1F" = Int 31 /\
  parseInt "abc" = NaN /\ parseInt "" = NaN.
Proof. repeat split; reflexivity. Qed.

Section Facts.
Variable KEY : string.

(** The three methods in closed form. *)
Lemma refreshAccessTokenAutomatically_eq (w : World) :
  refreshAccessTokenAutomatically KEY w =
    if truthy_opt (refresh_token (session w)) then
      let expiryTime := parseInt (expires_in (session w)) in
      let time := if le expiryTime (Int 10) then expiryTime else sub expiryTime (Int 10) in
      let h := next_handle w in
      (Returned tt,
       {| session := session w;
          temporary_data := <[KEY := JSON_stringify (JNum h)]> (temporary_data w);
          armed := <[h := mul time (Int 1000)]> (armed w);
          next_handle := h + 1;
          trace := trace w ++ [GetSessionData; SetTimeout h (mul time (Int 1000));
                               SetTemporaryDataParameter KEY (JSON_stringify (JNum h))] |})
    else (Returned tt, record GetSessionData w).
Proof.
  unfold refreshAccessTokenAutomatically, bind, getSessionData.
  cbn [session record].
  destruct (truthy_opt (refresh_token (session w))); [|reflexivity].
  unfold setTimeout, setTemporaryDataParameter, record, with_temporary_data,
    with_next_handle, with_armed.
  cbn. rewrite <- !app_assoc. reflexivity.
Qed.

Lemma getRefreshTimeoutTimer_eq (w : World) :
  getRefreshTimeoutTimer KEY w =
    match temporary_data w !! KEY with
    | Some (Encodes j) =>
        (Returned j,
         record (GetTemporaryDataParameter KEY) (record (GetTemporaryDataParameter KEY) w))
    | Some (NotJSON raw) =>
        if truthy raw then
          (Threw SyntaxError,
           record (GetTemporaryDataParameter KEY) (record (GetTemporaryDataParameter KEY) w))
        else (Returned (JNum (-1)), record (GetTemporaryDataParameter KEY) w)
    | None => (Returned (JNum (-1)), record (GetTemporaryDataParameter KEY) w)
    end.
Proof.
  unfold getRefreshTimeoutTimer, bind, getTemporaryDataParameter.
  cbn [temporary_data record].
  destruct (temporary_data w !! KEY) as [[j|raw]|] eqn:E; cbn; try reflexivity.
  - rewrite E. reflexivity.
  - destruct (truthy raw); [|reflexivity]. cbn. rewrite E. reflexivity.
Qed.

Lemma clearRefreshTokenTimeout_eq (timer : option Z) (w : World) :
  clearRefreshTokenTimeout KEY timer w =
    if truthy_timer timer then clearTimeout (JNum (default 0 timer)) w
    else
      match getRefreshTimeoutTimer KEY w with
      | (Returned j, w') =>
          if is_not_minus_one j then clearTimeout j w' else (Returned tt, w')
      | (Threw e, w') => (Threw e, w')
      end.
Proof.
  unfold clearRefreshTokenTimeout, bind.
  destruct (truthy_timer timer); [reflexivity|].
  destruct (getRefreshTimeoutTimer KEY w) as [[j|e] w']; [|reflexivity].
  destruct (is_not_minus_one j); reflexivity.
Qed.

(** C3. With a refresh token in the session data, one timer is armed whose
    delay is the lifetime in seconds when that is at most 10 and the
    lifetime minus 10 otherwise (in milliseconds: times 1000), and its handle
    is persisted under the timer key; a lifetime of 100 gives 90 seconds and
    a lifetime of 5 gives 5 seconds.  Without a refresh token no timer is
    armed and nothing is persisted: only the session data was read. *)
Theorem refreshAccessTokenAutomatically_schedules (w : World) :
  (forall e : Z,
      truthy_opt (refresh_token (session w)) = true ->
      parseInt (expires_in (session w)) = Int e ->
      let seconds := if e <=? 10 then e else e - 10 in
      let h := next_handle w in
      refreshAccessTokenAutomatically KEY w =
        (Returned tt,
         {| session := session w;
            temporary_data := <[KEY := JSON_stringify (JNum h)]> (temporary_data w);
            armed := <[h := Int (seconds * 1000)]> (armed w);
            next_handle := h + 1;
            trace := trace w ++ [GetSessionData; SetTimeout h (Int (seconds * 1000));
                                 SetTemporaryDataParameter KEY (JSON_stringify (JNum h))] |}))
  /\ (truthy_opt (refresh_token (session w)) = false ->
      refreshAccessTokenAutomatically KEY w = (Returned tt, record GetSessionData w))
  /\ armed (snd (refreshAccessTokenAutomatically KEY (fresh (session_of "100" (Some "rt")))))
       = {[ 1 := Int 90000 ]}
  /\ armed (snd (refreshAccessTokenAutomatically KEY (fresh (session_of "5" (Some "rt")))))
       = {[ 1 := Int 5000 ]}.
Proof.
  split_and!.
  - intros e Hrt He seconds h.
    rewrite refreshAccessTokenAutomatically_eq, Hrt, He.
    cbn [le sub mul]. subst seconds h.
    destruct (e <=? 10); reflexivity.
  - intros Hrt. rewrite refreshAccessTokenAutomatically_eq, Hrt. reflexivity.
  - rewrite refreshAccessTokenAutomatically_eq. reflexivity.
  - rewrite refreshAccessTokenAutomatically_eq. reflexivity.
Qed.

(** C9. A handle passed explicitly (handles are the non-zero numbers
    [setTimeout] returns) is cancelled at once and the store is not read.
    Without an argument the persisted handle is read and cancelled; the
    persisted sentinel -1, or no persisted value, leads to no [clearTimeout]
    call and to a normal return.  [getRefreshTimeoutTimer] returns the
    persisted handle, and -1 when nothing is persisted. *)
Theorem clearRefreshTokenTimeout_cancels (w : World) :
  (forall h : Z, h <> 0 ->
      clearRefreshTokenTimeout KEY (Some h) w =
        (Returned tt, record (ClearTimeout (JNum h)) (with_armed (delete h (armed w)) w)))
  /\ (forall h : Z,
        temporary_data w !! KEY = Some (JSON_stringify (JNum h)) -> h <> -1 ->
        clearRefreshTokenTimeout KEY None w =
          (Returned tt,
           record (ClearTimeout (JNum h))
             (with_armed (delete h (armed w))
                (record (GetTemporaryDataParameter KEY)
                   (record (GetTemporaryDataParameter KEY) w)))))
  /\ (temporary_data w !! KEY = Some (JSON_stringify (JNum (-1))) ->
        clearRefreshTokenTimeout KEY None w =
          (Returned tt,
           record (GetTemporaryDataParameter KEY) (record (GetTemporaryDataParameter KEY) w)))
  /\ (temporary_data w !! KEY = None ->
        clearRefreshTokenTimeout KEY None w =
          (Returned tt, record (GetTemporaryDataParameter KEY) w))
  /\ (forall h : Z,
        temporary_data w !! KEY = Some (JSON_stringify (JNum h)) ->
        fst (getRefreshTimeoutTimer KEY w) = Returned (JNum h))
  /\ (temporary_data w !! KEY = None ->
        fst (getRefreshTimeoutTimer KEY w) = Returned (JNum (-1))).
Proof.
  split_and!.
  - intros h Hh. rewrite clearRefreshTokenTimeout_eq. cbn [truthy_timer].
    apply Z.eqb_neq in Hh. rewrite Hh. reflexivity.
  - intros h Hs Hh. rewrite clearRefreshTokenTimeout_eq, getRefreshTimeoutTimer_eq, Hs.
    cbn. apply Z.eqb_neq in Hh. rewrite Hh. reflexivity.
  - intros Hs. rewrite clearRefreshTokenTimeout_eq, getRefreshTimeoutTimer_eq, Hs.
    reflexivity.
  - intros Hs. rewrite clearRefreshTokenTimeout_eq, getRefreshTimeoutTimer_eq, Hs.
    reflexivity.
  - intros h Hs. rewrite getRefreshTimeoutTimer_eq, Hs. reflexivity.
  - intros Hs. rewrite getRefreshTimeoutTimer_eq, Hs. reflexivity.
Qed.

(** The argument 0 is no handle to the code: it is treated like an omitted
    argument and the persisted handle is cancelled instead. *)
Lemma clearRefreshTokenTimeout_zero (w : World) :
  clearRefreshTokenTimeout KEY (Some 0) w = clearRefreshTokenTimeout KEY None w.
Proof. rewrite !clearRefreshTokenTimeout_eq. reflexivity. Qed.

(** *** At most one refresh timer *)

Lemma persisted_timer_only_size (w : World) :
  persisted_timer_only KEY w -> (size (armed w) <= 1)%nat.
Proof.
  intros [_ Hinv].
  destruct (map_choose_or_empty (armed w)) as [(h & d & Hh)|Hempty].
  - assert (armed w = {[ h := d ]}) as ->.
    { apply map_eq. intros k. destruct (decide (k = h)) as [->|Hne].
      - rewrite lookup_singleton_eq. exact Hh.
      - rewrite lookup_singleton_ne by congruence.
        destruct (armed w !! k) as [d'|] eqn:Hk; [|reflexivity].
        destruct (Hinv _ _ Hh) as [_ E1]. destruct (Hinv _ _ Hk) as [_ E2].
        rewrite E1 in E2. unfold JSON_stringify in E2. congruence. }
    rewrite map_size_singleton. lia.
  - rewrite Hempty, map_size_empty. lia.
Qed.

Lemma persisted_timer_only_fresh (s : SessionData) :
  persisted_timer_only KEY (fresh s).
Proof.
  split; [cbn; lia|]. intros h d. cbn. rewrite lookup_empty. discriminate.
Qed.

Lemma persisted_timer_only_fire (h : Z) (w : World) :
  persisted_timer_only KEY w -> persisted_timer_only KEY (fire h w).
Proof.
  intros [Hn Hinv]. split; [exact Hn|]. intros k d. cbn.
  intros Hk. apply lookup_delete_Some in Hk as [_ Hk]. exact (Hinv _ _ Hk).
Qed.

Lemma persisted_timer_only_session (s : SessionData) (w : World) :
  persisted_timer_only KEY w -> persisted_timer_only KEY (with_session s w).
Proof. intros H. exact H. Qed.

(** Under the invariant, [clearRefreshTokenTimeout()] leaves no refresh
    timer armed, whatever it finds in the store. *)
Lemma clearRefreshTokenTimeout_disarms (w : World) :
  persisted_timer_only KEY w ->
  let w1 := snd (clearRefreshTokenTimeout KEY None w) in
  armed w1 = ∅ /\ 0 < next_handle w1.
Proof.
  intros [Hn Hinv] w1. subst w1.
  rewrite clearRefreshTokenTimeout_eq, getRefreshTimeoutTimer_eq. cbn [truthy_timer].
  assert (Hnone : forall t, temporary_data w !! KEY = t ->
            (forall h, t <> Some (JSON_stringify (JNum h)) \/ h <= 0) -> armed w = ∅).
  { intros t Ht Hno. apply map_empty. intros k.
    destruct (armed w !! k) as [d|] eqn:Hk; [|reflexivity].
    destruct (Hinv _ _ Hk) as [Hpos E]. destruct (Hno k) as [Hc|Hc]; [congruence|lia]. }
  destruct (temporary_data w !! KEY) as [[j|raw]|] eqn:E.
  - destruct (is_not_minus_one j) eqn:Hj.
    + cbn. split; [|exact Hn]. destruct j as [|b|h|s|l|l]; cbn;
        try (apply (Hnone _ eq_refl); intros h'; left; unfold JSON_stringify; congruence).
      apply map_empty. intros k. destruct (decide (k = h)) as [->|Hne].
      * apply lookup_delete_eq.
      * rewrite lookup_delete_ne by congruence.
        destruct (armed w !! k) as [d|] eqn:Hk; [|reflexivity].
        destruct (Hinv _ _ Hk) as [_ E'].
        unfold JSON_stringify in E'. congruence.
    + cbn. split; [|exact Hn]. destruct j as [|b|h|s|l|l]; try discriminate.
      cbn in Hj. apply negb_false_iff, Z.eqb_eq in Hj. subst h.
      apply (Hnone _ eq_refl). intros h'.
      destruct (decide (h' = -1)) as [->|Hne]; [right; lia|].
      left. unfold JSON_stringify. congruence.
  - assert (armed w = ∅) as Hempty.
    { apply (Hnone _ eq_refl). intros h'. left. unfold JSON_stringify. congruence. }
    destruct (truthy raw); cbn; auto.
  - assert (armed w = ∅) as Hempty.
    { apply (Hnone _ eq_refl). intros h'. left. congruence. }
    cbn; auto.
Qed.

Lemma refreshAccessTokenAutomatically_persists (w : World) :
  armed w = ∅ -> 0 < next_handle w ->
  persisted_timer_only KEY (snd (refreshAccessTokenAutomatically KEY w)).
Proof.
  intros Hempty Hn. rewrite refreshAccessTokenAutomatically_eq.
  destruct (truthy_opt (refresh_token (session w))); cbn.
  - split; cbn; [lia|]. intros h d. rewrite Hempty.
    intros Hh. apply lookup_insert_Some in Hh as [[<- _]|[_ Hh]].
    + split; [lia|]. apply lookup_insert_eq.
    + rewrite lookup_empty in Hh. discriminate.
  - split; cbn; [exact Hn|]. intros h d. rewrite Hempty, lookup_empty. discriminate.
Qed.

Lemma persisted_timer_only_other_key (k : string) (v : JSONText) (w : World) :
  k <> KEY -> persisted_timer_only KEY w ->
  persisted_timer_only KEY (with_temporary_data (<[k := v]> (temporary_data w)) w).
Proof.
  intros Hk [Hn Hinv]. split; [exact Hn|]. intros h d Hh. cbn in *.
  destruct (Hinv _ _ Hh) as [Hpos Hs]. split; [exact Hpos|].
  rewrite lookup_insert_ne by exact Hk. exact Hs.
Qed.

Lemma persisted_timer_only_cancel (timer : option Z) (w : World) :
  persisted_timer_only KEY w ->
  persisted_timer_only KEY (snd (clearRefreshTokenTimeout KEY timer w)).
Proof.
  intros Hw. destruct (truthy_timer timer) eqn:Ht.
  - rewrite clearRefreshTokenTimeout_eq, Ht. destruct Hw as [Hn Hinv].
    split; [exact Hn|]. intros k d. cbn.
    intros Hk. apply lookup_delete_Some in Hk as [_ Hk]. exact (Hinv _ _ Hk).
  - assert (clearRefreshTokenTimeout KEY timer w = clearRefreshTokenTimeout KEY None w) as ->.
    { rewrite !clearRefreshTokenTimeout_eq, Ht. reflexivity. }
    destruct (clearRefreshTokenTimeout_disarms w Hw) as [Hempty Hn].
    split; [exact Hn|]. intros k d. rewrite Hempty, lookup_empty. discriminate.
Qed.

Lemma cancels_first_invariant (w : World) :
  cancels_first KEY w -> persisted_timer_only KEY w.
Proof.
  induction 1 as [s|h w _ IH|s w _ IH|k v w Hk _ IH|timer w _ IH|w _ IH].
  - apply persisted_timer_only_fresh.
  - apply persisted_timer_only_fire, IH.
  - apply persisted_timer_only_session, IH.
  - apply persisted_timer_only_other_key; assumption.
  - apply persisted_timer_only_cancel, IH.
  - destruct (clearRefreshTokenTimeout_disarms w IH) as [Hempty Hn].
    apply refreshAccessTokenAutomatically_persists; assumption.
Qed.

(** C4, as the code has it.  [refreshAccessTokenAutomatically] cancels
    nothing itself.  In every world reached by a client that calls it only
    right after [clearRefreshTokenTimeout()] (no explicit handle), at most one
    refresh timer is armed, and an armed one is the timer whose handle is
    persisted. *)
Theorem one_refresh_timer_when_cancelled_first (w : World) :
  cancels_first KEY w ->
  (size (armed w) <= 1)%nat /\
  (forall h d, armed w !! h = Some d ->
     temporary_data w !! KEY = Some (JSON_stringify (JNum h))).
Proof.
  intros Hw. apply cancels_first_invariant in Hw. split.
  - apply persisted_timer_only_size, Hw.
  - intros h d Hh. destruct Hw as [_ Hinv]. apply (Hinv _ _ Hh).
Qed.

End Facts.
End SPAHelperFacts.

(** ** Promises *)

Module PromiseFacts.
Import Models.

Lemma resolve_settled {A} (v : A) (p : Promise A) :
  p <> Pending -> resolve v p = p.
Proof. intros Hp. destruct p; [destruct Hp| |]; reflexivity. Qed.

Lemma reject_settled {A} (r : Reason) (p : Promise A) :
  p <> Pending -> reject r p = p.
Proof. intros Hp. destruct p; [destruct Hp| |]; reflexivity. Qed.

End PromiseFacts.

(** ** The correlated channel *)

Module ChannelFacts.
Import JS Models Channel PromiseFacts.

Section Calls.
Context {T : Type}.
Implicit Types (c : Call T) (arrivals : list (Z * option ResponseMessage)).

(** A settled promise stays as it is, whatever arrives later. *)
Lemma onmessage_settled data c :
  promise c <> Pending -> promise (onmessage data c) = promise c.
Proof.
  intros Hp. unfold onmessage.
  destruct (respond data); cbn; auto using resolve_settled, reject_settled.
Qed.

Lemma deliver_all_settled arrivals c :
  promise c <> Pending -> promise (fold_left deliver arrivals c) = promise c.
Proof.
  revert c. induction arrivals as [|a l IH]; intros c Hp; [reflexivity|].
  cbn [fold_left]. rewrite IH; unfold deliver.
  - apply onmessage_settled, Hp.
  - rewrite onmessage_settled; assumption.
Qed.

Lemma no_early_arrival (deadline : Z) arrivals :
  Forall (fun a => deadline <= fst a) arrivals ->
  List.filter (fun a => fst a <? deadline) arrivals = [].
Proof.
  induction 1 as [|a l Ha _ IH]; [reflexivity|].
  cbn [List.filter]. apply Z.ltb_ge in Ha. rewrite Ha. exact IH.
Qed.

Lemma respond_not_exception data (p : Promise Response) :
  (forall e, p <> Rejected (Exc e)) ->
  forall e,
    match respond data with
    | Resolves v => resolve v p
    | Rejects r => reject r p
    | Throws _ => p
    end <> Rejected (Exc e).
Proof.
  intros Hp e. unfold respond.
  destruct data as [d|]; [|apply Hp].
  destruct (success d).
  - destruct (parse_or_null (data d)) as [x|j]; [apply Hp|].
    destruct (blob d) as [b|].
    + destruct (assign_data j b) as [x|v]; [apply Hp|].
      destruct p; cbn; first [discriminate | apply Hp].
    + destruct p; cbn; first [discriminate | apply Hp].
  - destruct (parse_or_null (error d)) as [x|j]; [apply Hp|].
    destruct p; cbn; first [discriminate | apply Hp].
Qed.

Lemma onmessage_cleared config message data c :
  cleared config message c -> cleared config message (onmessage data c).
Proof.
  intros (Ht & Hp & tail & Hs & Hf).
  pose proof (respond_not_exception data (promise c) Hp) as Hr.
  unfold onmessage. destruct (respond data) as [v|r|x]; cbn.
  all: split; [reflexivity|]; split; [exact Hr|].
  all: eexists; rewrite Hs, <- app_assoc; split; [reflexivity|].
  all: rewrite existsb_app, Hf; reflexivity.
Qed.

Lemma deliver_all_cleared config message arrivals c :
  cleared config message c -> cleared config message (fold_left deliver arrivals c).
Proof.
  revert c. induction arrivals as [|a l IH]; intros c Hc; [exact Hc|].
  cbn [fold_left]. apply IH. unfold deliver. apply onmessage_cleared, Hc.
Qed.

Lemma timeout_cleared config message c :
  cleared config message c -> timeout config c = c.
Proof. intros (Ht & _). unfold timeout. rewrite Ht. reflexivity. Qed.

(** Within the range of a timer's delay, the delay is the value given. *)
Lemma setTimeout_delay_in_range (ms : Z) :
  0 <= ms <= MAX_DELAY -> setTimeout_delay ms = ms.
Proof.
  intros [Hlo Hhi]. unfold setTimeout_delay.
  apply Z.leb_le in Hlo. apply Z.leb_le in Hhi. rewrite Hlo, Hhi. reflexivity.
Qed.

Lemma default_timeout_in_range config :
  requestTimeout config = None -> 0 <= _requestTimeout config <= MAX_DELAY.
Proof. unfold _requestTimeout, MAX_DELAY. intros ->. cbn. lia. Qed.

(** C1. The deadline is [config.requestTimeout], 60000 ms when that is
    absent; it is a delay [setTimeout] can wait for (from 0 to 2^31 - 1 ms),
    as the default is.  When no message arrives before the deadline the
    promise is rejected with the timeout exception, whose description
    carries the deadline in seconds ([_requestTimeout / 1000]).  When a
    message arrives first, [clearTimeout] is the step right after arming the
    timer, before anything settles: the timer never fires in that call and
    the promise is never rejected with the timeout exception. *)
Theorem communicate_timeout (config : Config) (message : T) arrivals :
  (requestTimeout config = None ->
   _requestTimeout config = 60000 /\ 0 <= _requestTimeout config <= MAX_DELAY)
  /\ (forall ms, requestTimeout config = Some ms -> _requestTimeout config = ms)
  /\ (0 <= _requestTimeout config <= MAX_DELAY ->
      Forall (fun a => _requestTimeout config <= fst a) arrivals ->
        promise (communicate config message arrivals) =
          Rejected (Exc (timeout_exception config)) /\
        Models.message (timeout_exception config) = "Operation timed out." /\
        description (timeout_exception config) =
          "No response was received from the web worker for " +:+
          seconds_to_string (_requestTimeout config) +:+
          " since dispatching the request")
  /\ (0 <= _requestTimeout config <= MAX_DELAY ->
      forall t data rest,
        arrivals = (t, data) :: rest -> t < _requestTimeout config ->
        (forall e, promise (communicate config message arrivals) <> Rejected (Exc e)) /\
        exists tail,
          steps (communicate config message arrivals) =
            ([PostMessage message; SetTimeout (_requestTimeout config); ClearTimeout]
               ++ tail)%list /\
          existsb is_TimerFired tail = false).
Proof.
  split_and!.
  - intros Hnone. split; [|apply default_timeout_in_range, Hnone].
    unfold _requestTimeout. rewrite Hnone. reflexivity.
  - unfold _requestTimeout. intros ms ->. reflexivity.
  - intros Hrange Hlate. split; [|split; reflexivity].
    unfold communicate. rewrite (setTimeout_delay_in_range _ Hrange).
    rewrite (no_early_arrival _ _ Hlate). cbn [fold_left].
    rewrite deliver_all_settled; unfold timeout; cbn; [reflexivity|discriminate].
  - intros Hrange t data rest -> Ht.
    unfold communicate. rewrite (setTimeout_delay_in_range _ Hrange).
    cbn [List.filter fst].
    apply Z.ltb_lt in Ht. rewrite Ht. cbn [fold_left].
    set (posted := {| promise := Pending; timer := true; steps := _ |}).
    assert (Hc : cleared config message (deliver posted (t, data))).
    { unfold deliver, onmessage. cbn [snd].
      pose proof (respond_not_exception data (@Pending Response)) as Hr.
      destruct (respond data) as [v|r|x]; cbn.
      all: split; [reflexivity|]; split; [apply Hr; discriminate|].
      all: eexists; split; [reflexivity|reflexivity]. }
    pose proof (deliver_all_cleared config message
                  (List.filter (fun a => fst a <? _requestTimeout config) rest) _ Hc) as Hc1.
    rewrite (timeout_cleared _ _ _ Hc1).
    pose proof (deliver_all_cleared config message
                  (List.filter (fun a => negb (fst a <? _requestTimeout config)) rest) _ Hc1)
      as (_ & Hp & Hs).
    split; assumption.
Qed.

(** The first message decides: when its handler completes, the promise is
    settled by it and stays so, whatever arrives afterwards. *)
Lemma communicate_first_message (config : Config) (message : T) t data rest :
  0 <= _requestTimeout config <= MAX_DELAY ->
  t < _requestTimeout config ->
  (forall v, respond data = Resolves v ->
     promise (communicate config message ((t, data) :: rest)) = Fulfilled v) /\
  (forall r, respond data = Rejects r ->
     promise (communicate config message ((t, data) :: rest)) = Rejected r).
Proof.
  intros Hrange Ht.
  assert (Hrun : forall p, p <> Pending ->
            promise (deliver {| promise := Pending; timer := true;
                                steps := [PostMessage message;
                                          SetTimeout (_requestTimeout config)] |}
                       (t, data)) = p ->
            promise (communicate config message ((t, data) :: rest)) = p).
  { intros p Hp Hfirst. unfold communicate.
    rewrite (setTimeout_delay_in_range _ Hrange). cbn [List.filter fst].
    apply Z.ltb_lt in Ht. rewrite Ht. cbn [fold_left].
    set (first := deliver _ (t, data)) in *.
    assert (Hc : cleared config message first).
    { subst first. unfold deliver, onmessage. cbn [snd].
      pose proof (respond_not_exception data (@Pending Response)) as Hr.
      destruct (respond data) as [v|r|x]; cbn.
      all: split; [reflexivity|]; split; [apply Hr; discriminate|].
      all: eexists; split; reflexivity. }
    pose proof (deliver_all_cleared config message
                  (List.filter (fun a => fst a <? _requestTimeout config) rest) _ Hc) as Hc1.
    rewrite (timeout_cleared _ _ _ Hc1).
    rewrite !deliver_all_settled; try congruence.
    rewrite deliver_all_settled; congruence. }
  split.
  - intros v Hv. apply Hrun; [discriminate|].
    unfold deliver, onmessage. cbn [snd]. rewrite Hv. reflexivity.
  - intros r Hr. apply Hrun; [discriminate|].
    unfold deliver, onmessage. cbn [snd]. rewrite Hr. reflexivity.
Qed.

(** The first response, when it arrives before the deadline (a delay
    [setTimeout] can wait for) and its handler runs to the end: on success
    the promise resolves with the parsed data (null when there is none),
    with the blob attached when there is one; on failure it is rejected with
    the parsed error (null when there is none).  Nothing that arrives later
    and no timer changes that. *)
Theorem communicate_first_response (config : Config) (message : T) t
    (d : ResponseMessage) rest :
  0 <= _requestTimeout config <= MAX_DELAY ->
  t < _requestTimeout config ->
  (success d = true ->
   forall j, parse_or_null (data d) = inr j ->
     (blob d = None ->
      promise (communicate config message ((t, Some d) :: rest)) = Fulfilled (Plain j)) /\
     (forall b, blob d = Some b -> (exists l, j = JObj l) \/ (exists l, j = JArr l) ->
      promise (communicate config message ((t, Some d) :: rest)) = Fulfilled (WithBlob j b)))
  /\ (success d = false ->
      forall j, parse_or_null (error d) = inr j ->
        promise (communicate config message ((t, Some d) :: rest)) = Rejected (Remote j))
  /\ parse_or_null None = inr JNull.
Proof.
  intros Hrange Ht.
  destruct (communicate_first_message config message t (Some d) rest Hrange Ht)
    as [Hres Hrej].
  split_and!.
  - intros Hs j Hj. split.
    + intros Hb. apply Hres. unfold respond. rewrite Hs, Hj, Hb. reflexivity.
    + intros b Hb Hobj. apply Hres. unfold respond. rewrite Hs, Hj, Hb.
      destruct Hobj as [[l ->]|[l ->]]; reflexivity.
  - intros Hs j Hj. apply Hrej. unfold respond. rewrite Hs, Hj. reflexivity.
  - reflexivity.
Qed.

(** C2, at the input on which the code departs from it: a success message
    that carries a blob and no data.  [responseData] is null, the assignment
    of the blob throws after the timer has been cleared, and neither
    [resolve] nor [reject] is ever called: the promise stays pending. *)
Theorem communicate_blob_without_data (message : T) (b : Blob) :
  communicate (config_of None) message
    [(5, Some {| success := true; data := None; blob := Some b; error := None |})] =
  {| promise := Pending;
     timer := false;
     steps := [PostMessage message; SetTimeout 60000; ClearTimeout; Uncaught TypeError] |}
  /\ existsb is_settling
       (steps (communicate (config_of None) message
                 [(5, Some {| success := true; data := None; blob := Some b;
                              error := None |})])) = false.
Proof. split; reflexivity. Qed.

End Calls.
End ChannelFacts.

(** ** The silent sign-in wait *)

Module SilentSignInFacts.
Import JS Models Client SilentSignIn PromiseFacts.

Lemma with_in_flight_same (w : Wait) : with_in_flight (in_flight w) w = w.
Proof. destruct w; reflexivity. Qed.

Lemma signed_out_not_signed_in data :
  signed_out data = true -> signed_in_with_code data = None.
Proof.
  destruct data as [[ty pl]|]; cbn; [|reflexivity].
  destruct ty; try discriminate. reflexivity.
Qed.

Lemma signed_in_not_signed_out data info :
  signed_in_with_code data = Some info -> signed_out data = false.
Proof.
  destruct data as [[ty pl]|]; cbn; [|reflexivity].
  destruct ty; try discriminate. reflexivity.
Qed.

Lemma not_signal data :
  is_signal data = false -> signed_out data = false /\ signed_in_with_code data = None.
Proof.
  unfold is_signal. intros H. apply orb_false_iff in H as [Ho Hi]. split; [exact Ho|].
  apply bool_decide_eq_false in Hi.
  destruct (signed_in_with_code data); [destruct Hi; eauto|reflexivity].
Qed.

Section Runs.
Variable exchange : Z -> AuthorizationInfo -> Z * Settled BasicUserInfo.

#[local] Abbreviation listener := (listenToPromptNoneIFrame exchange).
#[local] Abbreviation dispatch := (SilentSignIn.dispatch exchange).
#[local] Abbreviation wait := (SilentSignIn.wait exchange).
#[local] Abbreviation drain := (SilentSignIn.drain).

Lemma listener_not_signal now data w :
  is_signal data = false -> listener now data w = w.
Proof.
  intros H. apply not_signal in H as [Ho Hi].
  unfold listenToPromptNoneIFrame. rewrite Ho, Hi. reflexivity.
Qed.

(** *** A settled promise stays as it is *)

Lemma timer_fires_settled w :
  promise w <> Pending -> promise (timer_fires w) = promise w.
Proof.
  intros Hp. unfold timer_fires. destruct (timer w); [|reflexivity].
  cbn. apply resolve_settled, Hp.
Qed.

Lemma timer_due_settled now w :
  promise w <> Pending -> promise (timer_due now w) = promise w.
Proof.
  intros Hp. unfold timer_due. destruct (ceiling <=? now); [|reflexivity].
  apply timer_fires_settled, Hp.
Qed.

Lemma exchange_settles_settled ending w :
  promise w <> Pending -> promise (exchange_settles ending w) = promise w.
Proof.
  intros Hp. destruct ending; cbn; auto using resolve_settled, reject_settled.
Qed.

Lemma settle_until_settled now queue w :
  promise w <> Pending -> promise (snd (settle_until now queue w)) = promise w.
Proof.
  revert w. induction queue as [|[t e] q IH]; intros w Hp; [reflexivity|].
  cbn [settle_until]. destruct (t <=? now); [|reflexivity].
  rewrite IH; rewrite exchange_settles_settled; rewrite ?timer_due_settled; auto.
Qed.

Lemma advance_settled now w :
  promise w <> Pending -> promise (advance now w) = promise w.
Proof.
  intros Hp. unfold advance.
  pose proof (settle_until_settled now (in_flight w) w Hp) as H.
  destruct (settle_until now (in_flight w) w) as [q w']. cbn [snd] in H.
  rewrite timer_due_settled; cbn; congruence.
Qed.

Lemma listener_settled now data w :
  promise w <> Pending -> promise (listener now data w) = promise w.
Proof.
  intros Hp. unfold listenToPromptNoneIFrame.
  destruct (signed_in_with_code data) as [info|].
  - destruct (exchange now info) as [latency ending]. cbn.
    destruct (signed_out data); cbn; auto using resolve_settled.
  - destruct (signed_out data); cbn; auto using resolve_settled.
Qed.

Lemma dispatch_settled w event :
  promise w <> Pending -> promise (dispatch w event) = promise w.
Proof.
  intros Hp. unfold SilentSignIn.dispatch.
  pose proof (advance_settled (fst event) w Hp) as Ha.
  destruct (listening (advance (fst event) w)); [|exact Ha].
  rewrite listener_settled; congruence.
Qed.

Lemma dispatch_all_settled events w :
  promise w <> Pending -> promise (fold_left dispatch events w) = promise w.
Proof.
  revert w. induction events as [|ev l IH]; intros w Hp; [reflexivity|].
  cbn [fold_left]. rewrite IH; rewrite dispatch_settled; auto.
Qed.

Lemma settle_all_settled queue w :
  promise w <> Pending -> promise (settle_all queue w) = promise w.
Proof.
  revert w. induction queue as [|[t e] q IH]; intros w Hp; [reflexivity|].
  cbn [settle_all].
  rewrite IH; rewrite exchange_settles_settled; rewrite ?timer_due_settled; auto.
Qed.

Lemma drain_settled w :
  promise w <> Pending -> promise (drain w) = promise w.
Proof.
  intros Hp. unfold SilentSignIn.drain.
  rewrite timer_fires_settled; cbn; rewrite settle_all_settled; auto.
Qed.

(** *** The three states the wait rests in *)

(** Nothing has happened: the timer is armed, the listener registered, no
    exchange is under way. *)
Lemma dispatch_start t data :
  t < ceiling -> is_signal data = false -> dispatch start (t, data) = start.
Proof.
  intros Ht Hd. unfold SilentSignIn.dispatch, advance, timer_due. cbn.
  apply Z.leb_gt in Ht. rewrite Ht. cbn. apply listener_not_signal, Hd.
Qed.

Lemma dispatch_all_start events :
  Forall (fun ev => fst ev < ceiling /\ is_signal (snd ev) = false) events ->
  fold_left dispatch events start = start.
Proof.
  induction 1 as [|[t d] l [Ht Hd] _ IH]; [reflexivity|].
  cbn [fold_left]. cbn in Ht, Hd. rewrite dispatch_start by assumption. exact IH.
Qed.

Lemma dispatch_at_rest w event : at_rest w -> dispatch w event = w.
Proof.
  intros (Ht & Hl & Hq). unfold SilentSignIn.dispatch, advance.
  rewrite Hq. cbn [settle_until]. rewrite <- Hq, with_in_flight_same.
  unfold timer_due, timer_fires. rewrite Ht.
  destruct (ceiling <=? fst event); rewrite Hl; reflexivity.
Qed.

Lemma dispatch_all_at_rest events w :
  at_rest w -> fold_left dispatch events w = w.
Proof.
  intros Hw. induction events as [|ev l IH]; [reflexivity|].
  cbn [fold_left]. rewrite dispatch_at_rest by exact Hw. exact IH.
Qed.

Lemma drain_at_rest w : at_rest w -> drain w = w.
Proof.
  intros (Ht & Hl & Hq). unfold SilentSignIn.drain. rewrite Hq. cbn [settle_all].
  rewrite <- Hq, with_in_flight_same. unfold timer_fires. rewrite Ht. reflexivity.
Qed.

Lemma dispatch_exchanging info due ending t data :
  due < ceiling -> ending <> Never ->
  (t < due -> is_signal data = false) ->
  dispatch (exchanging info due ending) (t, data) =
    if due <=? t then exchanged info ending else exchanging info due ending.
Proof.
  intros Hdue Hending Hdata.
  assert (Hidle : timer_due due (exchanging info due ending) = exchanging info due ending).
  { unfold timer_due. apply Z.leb_gt in Hdue. rewrite Hdue. reflexivity. }
  unfold SilentSignIn.dispatch, advance. cbn [fst snd].
  change (in_flight (exchanging info due ending)) with [(due, ending)].
  cbn [settle_until].
  destruct (due <=? t) eqn:Ht.
  - rewrite Hidle.
    destruct ending as [u|r|]; [| |congruence]; cbn [exchange_settles settle_until].
    + unfold timer_due, timer_fires. cbn. destruct (ceiling <=? t); reflexivity.
    + unfold timer_due, timer_fires. cbn. destruct (ceiling <=? t); reflexivity.
  - apply Z.leb_gt in Ht.
    unfold timer_due. assert ((ceiling <=? t) = false) as -> by (apply Z.leb_gt; lia).
    cbn. apply listener_not_signal. apply Hdata. exact Ht.
Qed.

Lemma exchanged_at_rest info ending :
  ending <> Never -> at_rest (exchanged info ending).
Proof. intros H. destruct ending; [| |congruence]; repeat split. Qed.

Lemma dispatch_all_exchanging info due ending events :
  due < ceiling -> ending <> Never ->
  Forall (fun ev => fst ev < due -> is_signal (snd ev) = false) events ->
  drain (fold_left dispatch events (exchanging info due ending)) = exchanged info ending.
Proof.
  intros Hdue Hending. induction 1 as [|[t d] l Hev _ IH].
  - cbn [fold_left]. unfold SilentSignIn.drain. cbn [in_flight exchanging settle_all].
    unfold timer_due. apply Z.leb_gt in Hdue. rewrite Hdue.
    destruct ending as [u|r|]; [| |congruence]; reflexivity.
  - cbn [fold_left]. rewrite dispatch_exchanging by assumption.
    destruct (due <=? t); [|exact IH].
    rewrite dispatch_all_at_rest by (apply exchanged_at_rest, Hending).
    apply drain_at_rest, exchanged_at_rest, Hending.
Qed.

(** The wait where it ends as documented.  (1) Without a signal before the
    ceiling of 10000 ms the promise resolves to false.  (2) A signed-out signal before
    the ceiling (the first signal) removes the listener, clears the timer and
    resolves false at once; nothing happens afterwards.  (3) A signed-in
    signal with a code before the ceiling (the first signal) starts the code
    exchange; the timer stays armed until the exchange settles.  When the
    exchange settles before the ceiling and before any other signal, the
    promise resolves with its user info or is rejected with its error. *)
Theorem trySignInSilently_wait (events : list (Z * option WindowMessage)) :
  (Forall (fun ev => fst ev < ceiling -> is_signal (snd ev) = false) events ->
     promise (wait events) = Fulfilled (Bool false))
  /\ (forall pre t data post,
        events = (pre ++ (t, data) :: post)%list ->
        Forall (fun ev => fst ev < ceiling /\ is_signal (snd ev) = false) pre ->
        t < ceiling -> signed_out data = true ->
        wait events =
          {| promise := Fulfilled (Bool false);
             timer := false;
             listening := false;
             in_flight := [];
             steps := [SetTimeout ceiling; AddEventListener;
                       RemoveEventListener; ClearTimeout; Resolve (Bool false)] |})
  /\ (forall pre t data post info latency ending,
        events = (pre ++ (t, data) :: post)%list ->
        Forall (fun ev => fst ev < ceiling /\ is_signal (snd ev) = false) pre ->
        t < ceiling -> signed_in_with_code data = Some info ->
        exchange t info = (latency, ending) ->
        t + latency < ceiling ->
        Forall (fun ev => fst ev < t + latency -> is_signal (snd ev) = false) post ->
        (forall response, ending = Resolved response ->
           wait events =
             {| promise := Fulfilled (UserInfo response);
                timer := false;
                listening := false;
                in_flight := [];
                steps := [SetTimeout ceiling; AddEventListener; RequestAccessToken info;
                          RemoveEventListener; Resolve (UserInfo response); ClearTimeout] |})
        /\ (forall error, ending = Failed error ->
           wait events =
             {| promise := Rejected error;
                timer := false;
                listening := false;
                in_flight := [];
                steps := [SetTimeout ceiling; AddEventListener; RequestAccessToken info;
                          RemoveEventListener; Reject error; ClearTimeout] |})).
Proof.
  split_and!.
  - (* no signal before the ceiling *)
    intros Hev. unfold SilentSignIn.wait.
    assert (Hinv : forall l w,
              Forall (fun ev => fst ev < ceiling -> is_signal (snd ev) = false) l ->
              promise w = Fulfilled (Bool false) \/ w = start ->
              promise (drain (fold_left dispatch l w)) = Fulfilled (Bool false)).
    { induction l as [|[t d] l IH]; intros w Hl Hw.
      - cbn [fold_left]. destruct Hw as [Hw| ->]; [|reflexivity].
        rewrite drain_settled; congruence.
      - apply Forall_cons in Hl as [Hhd Hl]. cbn [fold_left]. apply IH; [exact Hl|].
        destruct Hw as [Hw| ->].
        + left. rewrite dispatch_settled; congruence.
        + cbn in Hhd. destruct (Z.lt_ge_cases t ceiling) as [Ht|Ht].
          * right. apply dispatch_start; auto.
          * left. unfold SilentSignIn.dispatch, advance, timer_due.
            cbn [fst snd in_flight start settle_until].
            apply Z.leb_le in Ht. rewrite Ht.
            set (w1 := timer_fires _).
            assert (Hw1 : promise w1 = Fulfilled (Bool false)) by reflexivity.
            destruct (listening w1); [|exact Hw1].
            rewrite listener_settled; congruence. }
    apply Hinv; auto.
  - (* signed out *)
    intros pre t data post -> Hpre Ht Hout. unfold SilentSignIn.wait.
    rewrite fold_left_app. cbn [fold_left]. rewrite (dispatch_all_start _ Hpre).
    set (w1 := dispatch start (t, data)).
    assert (Hw1 : w1 =
              {| promise := Fulfilled (Bool false);
                 timer := false;
                 listening := false;
                 in_flight := [];
                 steps := [SetTimeout ceiling; AddEventListener;
                           RemoveEventListener; ClearTimeout; Resolve (Bool false)] |}).
    { subst w1. unfold SilentSignIn.dispatch, advance, timer_due.
      cbn [fst snd in_flight start settle_until].
      apply Z.leb_gt in Ht. rewrite Ht. cbn.
      unfold listenToPromptNoneIFrame.
      rewrite Hout, (signed_out_not_signed_in _ Hout). reflexivity. }
    rewrite Hw1.
    rewrite dispatch_all_at_rest by (repeat split). apply drain_at_rest. repeat split.
  - (* signed in with a code *)
    intros pre t data post info latency ending -> Hpre Ht Hin Hex Hdue Hpost.
    assert (Hrun : ending <> Never ->
              wait (pre ++ (t, data) :: post) = exchanged info ending).
    { intros Hending. unfold SilentSignIn.wait.
      rewrite fold_left_app. cbn [fold_left]. rewrite (dispatch_all_start _ Hpre).
      assert (dispatch start (t, data) = exchanging info (t + latency) ending) as ->.
      { unfold SilentSignIn.dispatch, advance, timer_due.
        cbn [fst snd in_flight start settle_until].
        apply Z.leb_gt in Ht. rewrite Ht. cbn.
        unfold listenToPromptNoneIFrame.
        rewrite (signed_in_not_signed_out _ _ Hin), Hin, Hex. reflexivity. }
      apply dispatch_all_exchanging; assumption. }
    split.
    + intros response ->. rewrite Hrun by discriminate. reflexivity.
    + intros error ->. rewrite Hrun by discriminate. reflexivity.
Qed.

(** C5, where the code departs from it: the signed-in signal with a code
    arrives before the ceiling (it is the first signal, and the last
    message), and the code exchange it starts settles only after the
    ceiling.  The signal does not clear the timer ([clearTimeout] is in the
    [.finally] of the exchange), so the timer fires while the exchange is
    under way and resolves the promise to false.  The user info of a
    successful exchange, and the error of a failed one, come too late for
    the promise: the caller is told that no session is active. *)
Theorem trySignInSilently_slow_exchange (pre : list (Z * option WindowMessage)) (t : Z)
    (data : option WindowMessage) (info : AuthorizationInfo) (latency : Z)
    (ending : Settled BasicUserInfo) :
  Forall (fun ev => fst ev < ceiling /\ is_signal (snd ev) = false) pre ->
  t < ceiling -> signed_in_with_code data = Some info ->
  exchange t info = (latency, ending) ->
  ceiling < t + latency ->
  (forall response, ending = Resolved response ->
     wait (pre ++ [(t, data)]) =
       {| promise := Fulfilled (Bool false);
          timer := false;
          listening := false;
          in_flight := [];
          steps := [SetTimeout ceiling; AddEventListener; RequestAccessToken info;
                    TimerFired; Resolve (Bool false);
                    RemoveEventListener; Resolve (UserInfo response); ClearTimeout] |})
  /\ (forall error, ending = Failed error ->
     wait (pre ++ [(t, data)]) =
       {| promise := Fulfilled (Bool false);
          timer := false;
          listening := false;
          in_flight := [];
          steps := [SetTimeout ceiling; AddEventListener; RequestAccessToken info;
                    TimerFired; Resolve (Bool false);
                    RemoveEventListener; Reject error; ClearTimeout] |}).
Proof.
  intros Hpre Ht Hin Hex Hslow.
  assert (Hrun : wait (pre ++ [(t, data)]) =
                 drain (exchanging info (t + latency) ending)).
  { unfold SilentSignIn.wait. rewrite fold_left_app. cbn [fold_left].
    rewrite (dispatch_all_start _ Hpre). f_equal.
    unfold SilentSignIn.dispatch, advance, timer_due.
    cbn [fst snd in_flight start settle_until].
    apply Z.leb_gt in Ht. rewrite Ht. cbn.
    unfold listenToPromptNoneIFrame.
    rewrite (signed_in_not_signed_out _ _ Hin), Hin, Hex. reflexivity. }
  assert (Hdue : (ceiling <=? t + latency) = true) by (apply Z.leb_le; lia).
  rewrite Hrun. unfold SilentSignIn.drain. cbn [in_flight exchanging settle_all].
  unfold timer_due. rewrite Hdue.
  split.
  - intros response ->. reflexivity.
  - intros error ->. reflexivity.
Qed.

(** C6, at the input on which the code departs from it: no message at all.
    The timer's callback resolves the promise and does nothing else:
    [removeEventListener] is never called and the listener is still
    registered after the promise has settled. *)
Theorem trySignInSilently_timeout_keeps_listener :
  wait [] =
    {| promise := Fulfilled (Bool false);
       timer := false;
       listening := true;
       in_flight := [];
       steps := [SetTimeout ceiling; AddEventListener; TimerFired; Resolve (Bool false)] |}
  /\ count_RemoveEventListener (steps (wait [])) = 0%nat.
Proof. split; reflexivity. Qed.

End Runs.
End SilentSignInFacts.

(** ** The code exchange, the authorization URL and the configuration *)

Module ClientFacts.
Import JS Models Client.

Section Calls.
Variable extractPKCEKeyFromStateParam : string -> string.
Variable state_param : string -> option (option string).
Variable config : Config.
Variable worker : Worker.

#[local] Abbreviation getAuthorizationURL :=
  (Client.getAuthorizationURL extractPKCEKeyFromStateParam state_param config worker).
#[local] Abbreviation requestAccessToken :=
  (Client.requestAccessToken extractPKCEKeyFromStateParam worker).
#[local] Abbreviation updateConfig := (Client.updateConfig worker).
#[local] Abbreviation token_request := (Client.token_request extractPKCEKeyFromStateParam).
#[local] Abbreviation page_at_token_request :=
  (Client.page_at_token_request extractPKCEKeyFromStateParam).

(** [requestAccessToken] in closed form. *)
Lemma requestAccessToken_eq (code session_state state : string) (p : Page) :
  requestAccessToken code session_state state p =
    match on_GET_CONFIG_DATA worker with
    | Resolved reported =>
        let info := token_request reported p code session_state state in
        let p1 := page_at_token_request reported p code session_state state in
        match on_REQUEST_ACCESS_TOKEN worker info with
        | Resolved response =>
            match on_GET_SIGN_OUT_URL worker with
            | Resolved url =>
                let p2 :=
                  log (SetSignOutURL url)
                    {| pkce_store := pkce_store p1;
                       sign_out_url := Some url;
                       events := events (log (Sent GET_SIGN_OUT_URL) p1) |} in
                let p3 :=
                  if truthy_flag (enableOIDCSessionManagement reported)
                  then log CheckSession p2 else p2 in
                (Resolved response, log (Sent START_AUTO_REFRESH_TOKEN) p3)
            | Failed r => (Failed r, log (Sent GET_SIGN_OUT_URL) p1)
            | Never => (Never, log (Sent GET_SIGN_OUT_URL) p1)
            end
        | Failed r => (Failed r, p1)
        | Never => (Never, p1)
        end
    | Failed r => (Failed r, log (Sent GET_CONFIG_DATA) p)
    | Never => (Never, log (Sent GET_CONFIG_DATA) p)
    end.
Proof.
  unfold Client.requestAccessToken, bind, getConfigData, communicate.
  destruct (on_GET_CONFIG_DATA worker) as [reported|r|]; try reflexivity.
  cbn zeta. unfold page_at_token_request, token_request.
  destruct (truthy_flag (enablePKCE reported)); cbn.
  - destruct (on_REQUEST_ACCESS_TOKEN worker _) as [response|r|]; try reflexivity.
    destruct (on_GET_SIGN_OUT_URL worker) as [url|r|]; try reflexivity.
    destruct (truthy_flag (enableOIDCSessionManagement reported)); reflexivity.
  - destruct (on_REQUEST_ACCESS_TOKEN worker _) as [response|r|]; try reflexivity.
    destruct (on_GET_SIGN_OUT_URL worker) as [url|r|]; try reflexivity.
    destruct (truthy_flag (enableOIDCSessionManagement reported)); reflexivity.
Qed.

Lemma page_at_token_request_events (reported : Config) (p : Page)
    (code session_state state : string) :
  let key := extractPKCEKeyFromStateParam state in
  events (page_at_token_request reported p code session_state state) =
    (events p ++
     (if truthy_flag (enablePKCE reported)
      then [Sent GET_CONFIG_DATA; GetPKCE key; RemovePKCE key]
      else [Sent GET_CONFIG_DATA]) ++
     [Sent (REQUEST_ACCESS_TOKEN (token_request reported p code session_state state))])%list.
Proof.
  unfold page_at_token_request.
  destruct (truthy_flag (enablePKCE reported)); cbn; rewrite <- !app_assoc; reflexivity.
Qed.

Lemma page_at_token_request_store (reported : Config) (p : Page)
    (code session_state state : string) :
  pkce_store (page_at_token_request reported p code session_state state) =
    if truthy_flag (enablePKCE reported)
    then delete (extractPKCEKeyFromStateParam state) (pkce_store p)
    else pkce_store p.
Proof.
  unfold page_at_token_request.
  destruct (truthy_flag (enablePKCE reported)); reflexivity.
Qed.

(** Whatever the round trips do afterwards, the store of verifiers is the
    one the token request left. *)
Lemma requestAccessToken_store (code session_state state : string) (p : Page)
    (reported : Config) :
  on_GET_CONFIG_DATA worker = Resolved reported ->
  pkce_store (snd (requestAccessToken code session_state state p)) =
    pkce_store (page_at_token_request reported p code session_state state).
Proof.
  intros Hc. rewrite requestAccessToken_eq, Hc. cbn zeta.
  destruct (on_REQUEST_ACCESS_TOKEN worker _) as [response|r|]; try reflexivity.
  destruct (on_GET_SIGN_OUT_URL worker) as [url|r|]; try reflexivity.
  destruct (truthy_flag (enableOIDCSessionManagement reported)); reflexivity.
Qed.

Lemma requestAccessToken_events (code session_state state : string) (p : Page)
    (reported : Config) :
  on_GET_CONFIG_DATA worker = Resolved reported ->
  exists rest,
    events (snd (requestAccessToken code session_state state p)) =
      (events (page_at_token_request reported p code session_state state) ++ rest)%list.
Proof.
  intros Hc. rewrite requestAccessToken_eq, Hc. cbn zeta.
  set (p1 := page_at_token_request reported p code session_state state).
  destruct (on_REQUEST_ACCESS_TOKEN worker _) as [response|r|];
    try (exists []; rewrite app_nil_r; reflexivity).
  destruct (on_GET_SIGN_OUT_URL worker) as [url|r|];
    try (eexists; reflexivity).
  destruct (truthy_flag (enableOIDCSessionManagement reported)); cbn [snd log events];
    rewrite <- ?app_assoc; eexists; reflexivity.
Qed.

(** C7.  When the response to [getAuthorizationURL] carries a verifier and
    PKCE is enabled, the verifier is stored under the key extracted from the
    URL's [state] parameter.  In the code exchange (with PKCE enabled in the
    configuration the worker reports), a verifier stored under the key of the
    returned [state] is read by that key, sent in the token request, and
    removed before the request is posted: afterwards a lookup under the key
    finds nothing.  Together: the verifier stored for an authorization URL
    is the one sent when the code comes back with that URL's [state], and
    it is gone afterwards. *)
Theorem pkce_verifier_single_use :
  (forall params p response verifier found,
      on_GET_AUTH_URL worker params = Resolved response ->
      pkce response = Some verifier -> truthy verifier = true ->
      truthy_flag (enablePKCE config) = true ->
      state_param (authorizationURL response) = Some found ->
      let key := extractPKCEKeyFromStateParam (default "" found) in
      fst (getAuthorizationURL params p) = Resolved response /\
      pkce_store (snd (getAuthorizationURL params p)) = <[key := verifier]> (pkce_store p) /\
      fst (getPKCE key (snd (getAuthorizationURL params p))) = Resolved (Some verifier))
  /\ (forall code session_state state p reported verifier,
        on_GET_CONFIG_DATA worker = Resolved reported ->
        truthy_flag (enablePKCE reported) = true ->
        let key := extractPKCEKeyFromStateParam state in
        pkce_store p !! key = Some verifier ->
        let p' := snd (requestAccessToken code session_state state p) in
        (exists rest,
           events p' =
             (events p ++
              [Sent GET_CONFIG_DATA; GetPKCE key; RemovePKCE key;
               Sent (REQUEST_ACCESS_TOKEN
                       {| info_code := code;
                          info_pkce := Some verifier;
                          info_sessionState := session_state;
                          info_state := state |})] ++ rest)%list) /\
        pkce_store p' = delete key (pkce_store p) /\
        fst (getPKCE key p') = Resolved None)
  /\ (forall params p response verifier found code session_state reported,
        on_GET_AUTH_URL worker params = Resolved response ->
        pkce response = Some verifier -> truthy verifier = true ->
        truthy_flag (enablePKCE config) = true ->
        state_param (authorizationURL response) = Some (Some found) ->
        on_GET_CONFIG_DATA worker = Resolved reported ->
        truthy_flag (enablePKCE reported) = true ->
        let key := extractPKCEKeyFromStateParam found in
        let p1 := snd (getAuthorizationURL params p) in
        let p2 := snd (requestAccessToken code session_state found p1) in
        pkce_store p1 !! key = Some verifier /\
        In (Sent (REQUEST_ACCESS_TOKEN
                    {| info_code := code;
                       info_pkce := Some verifier;
                       info_sessionState := session_state;
                       info_state := found |}))
           (events p2) /\
        pkce_store p2 !! key = None).
Proof.
  assert (Hstored : forall params p response verifier found,
            on_GET_AUTH_URL worker params = Resolved response ->
            pkce response = Some verifier -> truthy verifier = true ->
            truthy_flag (enablePKCE config) = true ->
            state_param (authorizationURL response) = Some found ->
            getAuthorizationURL params p =
              (Resolved response,
               log (SetPKCE (extractPKCEKeyFromStateParam (default "" found)) verifier)
                 {| pkce_store :=
                      <[extractPKCEKeyFromStateParam (default "" found) := verifier]>
                        (pkce_store p);
                    sign_out_url := sign_out_url p;
                    events := events (log (Sent (GET_AUTH_URL params)) p) |})).
  { intros params p response verifier found Hr Hv Ht Hc Hs.
    unfold Client.getAuthorizationURL, bind, communicate.
    rewrite Hr, Hv, Hc, Hs. cbn [truthy_opt]. rewrite Ht. reflexivity. }
  assert (Hused : forall code session_state state p reported verifier,
            on_GET_CONFIG_DATA worker = Resolved reported ->
            truthy_flag (enablePKCE reported) = true ->
            pkce_store p !! extractPKCEKeyFromStateParam state = Some verifier ->
            (exists rest,
               events (snd (requestAccessToken code session_state state p)) =
                 (events p ++
                  [Sent GET_CONFIG_DATA; GetPKCE (extractPKCEKeyFromStateParam state);
                   RemovePKCE (extractPKCEKeyFromStateParam state);
                   Sent (REQUEST_ACCESS_TOKEN
                           {| info_code := code;
                              info_pkce := Some verifier;
                              info_sessionState := session_state;
                              info_state := state |})] ++ rest)%list) /\
            pkce_store (snd (requestAccessToken code session_state state p)) =
              delete (extractPKCEKeyFromStateParam state) (pkce_store p)).
  { intros code session_state state p reported verifier Hc Hon Hv. split.
    - destruct (requestAccessToken_events code session_state state p reported Hc)
        as [rest Hrest].
      exists rest. rewrite Hrest, page_at_token_request_events.
      unfold Client.token_request. rewrite Hon, Hv.
      rewrite <- !app_assoc. reflexivity.
    - rewrite (requestAccessToken_store _ _ _ _ _ Hc).
      rewrite page_at_token_request_store, Hon. reflexivity. }
  split_and!.
  - intros params p response verifier found Hr Hv Ht Hc Hs key.
    rewrite (Hstored _ p _ _ _ Hr Hv Ht Hc Hs). cbn.
    split_and!; try reflexivity.
    fold key. rewrite lookup_insert_eq. reflexivity.
  - intros code session_state state p reported verifier Hc Hon key Hv p'.
    destruct (Hused code session_state state p reported verifier Hc Hon Hv)
      as [Hev Hstore].
    split_and!; [exact Hev|exact Hstore|].
    cbn. subst p'. rewrite Hstore. fold key. rewrite lookup_delete_eq. reflexivity.
  - intros params p response verifier found code session_state reported
      Hr Hv Ht Hc Hs Hrep Hon key p1 p2.
    assert (Hp1 : pkce_store p1 !! key = Some verifier).
    { subst p1. rewrite (Hstored _ p _ _ _ Hr Hv Ht Hc Hs). cbn.
      apply lookup_insert_eq. }
    destruct (Hused code session_state found p1 reported verifier Hrep Hon Hp1)
      as [[rest Hev] Hstore].
    split_and!; [exact Hp1| |].
    + subst p2. rewrite Hev. apply in_or_app. right. apply in_or_app. left.
      cbn. auto.
    + subst p2. rewrite Hstore. apply lookup_delete_eq.
Qed.

(** C10.  A token exchange that succeeds does not make the call succeed:
    when the round trip for the sign-out URL fails, the promise is rejected
    with that failure, and no sign-out URL is stored, no session check is
    started and no automatic refresh is requested.  In every run, one of
    these three happens only if the round trip for the sign-out URL (and so
    the token exchange before it) resolved. *)
Theorem requestAccessToken_needs_sign_out_url
    (code session_state state : string) (p : Page) :
  (forall reported response error,
      on_GET_CONFIG_DATA worker = Resolved reported ->
      on_REQUEST_ACCESS_TOKEN worker (token_request reported p code session_state state)
        = Resolved response ->
      on_GET_SIGN_OUT_URL worker = Failed error ->
      fst (requestAccessToken code session_state state p) = Failed error /\
      sign_out_url (snd (requestAccessToken code session_state state p)) = sign_out_url p /\
      exists new,
        events (snd (requestAccessToken code session_state state p)) =
          (events p ++ new)%list /\
        existsb is_follow_up new = false)
  /\ (exists new,
        events (snd (requestAccessToken code session_state state p)) =
          (events p ++ new)%list /\
        (existsb is_follow_up new = true ->
         exists reported response url,
           on_GET_CONFIG_DATA worker = Resolved reported /\
           on_REQUEST_ACCESS_TOKEN worker (token_request reported p code session_state state)
             = Resolved response /\
           on_GET_SIGN_OUT_URL worker = Resolved url /\
           fst (requestAccessToken code session_state state p) = Resolved response /\
           sign_out_url (snd (requestAccessToken code session_state state p)) = Some url)).
Proof.
  split.
  - intros reported response error Hc Ht Hs.
    rewrite requestAccessToken_eq, Hc. cbn zeta. rewrite Ht, Hs.
    split_and!; try reflexivity.
    + unfold page_at_token_request.
      destruct (truthy_flag (enablePKCE reported)); reflexivity.
    + cbn [snd log events]. rewrite page_at_token_request_events.
      eexists. rewrite <- !app_assoc. split; [reflexivity|].
      destruct (truthy_flag (enablePKCE reported)); reflexivity.
  - rewrite requestAccessToken_eq.
    destruct (on_GET_CONFIG_DATA worker) as [reported|r|].
    2,3: exists [Sent GET_CONFIG_DATA]; split; [reflexivity|discriminate].
    cbn zeta.
    destruct (on_REQUEST_ACCESS_TOKEN worker _) as [response|r|] eqn:Ht.
    2,3: cbn [snd]; rewrite page_at_token_request_events; eexists;
         split; [reflexivity|];
         destruct (truthy_flag (enablePKCE reported)); discriminate.
    destruct (on_GET_SIGN_OUT_URL worker) as [url|r|] eqn:Hs.
    2,3: cbn [snd log events]; rewrite page_at_token_request_events; eexists;
         rewrite <- !app_assoc; split; [reflexivity|];
         destruct (truthy_flag (enablePKCE reported)); discriminate.
    destruct (truthy_flag (enableOIDCSessionManagement reported));
      cbn [snd fst log events sign_out_url];
      rewrite page_at_token_request_events, <- !app_assoc;
      (eexists; split; [reflexivity|]);
      intros _; exists reported, response, url;
      split_and!; first [reflexivity | assumption].
Qed.

(** C8, as the code has it.  The partial configuration is merged over the
    configuration the worker reports and the merged configuration is sent.
    The liveness check is reset and started again only when OIDC session
    management is enabled in the merged configuration; with it enabled, and a
    check-session iframe URL present in both the reported and the new
    configuration, it is reset and started again exactly when the two URLs
    differ. *)
Theorem updateConfig_restarts_liveness_check (newConfig : Config) (p : Page) :
  forall existing,
    on_GET_CONFIG_DATA worker = Resolved existing ->
    on_UPDATE_CONFIG worker (merge existing newConfig) = Resolved tt ->
    exists restart : bool,
      updateConfig newConfig p =
        (Resolved tt,
         {| pkce_store := pkce_store p;
            sign_out_url := sign_out_url p;
            events :=
              events p ++
              [Sent GET_CONFIG_DATA; Sent (UPDATE_CONFIG (merge existing newConfig))] ++
              (if restart then [ResetSessionManagement; CheckSession] else []) |}) /\
      (truthy_flag (enableOIDCSessionManagement (merge existing newConfig)) = false ->
       restart = false) /\
      (truthy_flag (enableOIDCSessionManagement (merge existing newConfig)) = true ->
       forall a b,
         iframe_url existing = Some a -> iframe_url newConfig = Some b ->
         (restart = true <-> a <> b)).
Proof.
  intros existing Hc Hu.
  exists (truthy_flag (enableOIDCSessionManagement (merge existing newConfig)) &&
          isCheckSessionIframeDifferent existing newConfig).
  split_and!.
  - unfold Client.updateConfig, bind, getConfigData, communicate.
    rewrite Hc. cbn zeta. rewrite Hu.
    destruct (truthy_flag _ && _); unfold detached, checkSession, reset, log; cbn;
      rewrite <- ?app_assoc; reflexivity.
  - intros ->. reflexivity.
  - intros -> a b Ha Hb. unfold isCheckSessionIframeDifferent. rewrite Ha, Hb. cbn.
    destruct (String.eqb_spec a b) as [->|Hne]; cbn; split; congruence.
Qed.

End Calls.
End ClientFacts.

(** ** The refresh-timer helper in use *)

Module SPAHelperUseFacts.
Import JS SPAHelper SPAHelperUse SPAHelperFacts.

Section Facts.
Variable KEY : string.

Lemma getRefreshTimeoutTimer_world (w : World) :
  let w' := snd (getRefreshTimeoutTimer KEY w) in
  session w' = session w /\ temporary_data w' = temporary_data w /\
  armed w' = armed w /\ next_handle w' = next_handle w.
Proof.
  rewrite getRefreshTimeoutTimer_eq.
  destruct (temporary_data w !! KEY) as [[j|raw]|]; [| |repeat split].
  - repeat split.
  - destruct (truthy raw); repeat split.
Qed.

(** [clearRefreshTokenTimeout], with or without a handle, only ever disarms:
    it writes nothing to the store, arms nothing, leaves every timer but at
    most one as it was. *)
Theorem clearRefreshTokenTimeout_only_disarms (timer : option Z) (w : World) :
  let w' := snd (clearRefreshTokenTimeout KEY timer w) in
  session w' = session w /\
  temporary_data w' = temporary_data w /\
  next_handle w' = next_handle w /\
  armed w' ⊆ armed w /\
  (size (armed w) <= S (size (armed w')))%nat.
Proof.
  assert (Hdis : forall j (m : gmap Z Number),
            disarm j m ⊆ m /\ (size m <= S (size (disarm j m)))%nat).
  { intros j m. destruct j as [|b|h|s|l|l]; cbn; try (split; [reflexivity|lia]).
    split; [apply delete_subseteq|]. rewrite map_size_delete.
    destruct (m !! h); cbn; lia. }
  rewrite clearRefreshTokenTimeout_eq.
  destruct (truthy_timer timer).
  - unfold clearTimeout.
    cbn [snd record with_armed session temporary_data next_handle armed].
    split_and!; try reflexivity; apply Hdis.
  - pose proof (getRefreshTimeoutTimer_world w) as (Hs & Ht & Ha & Hn).
    destruct (getRefreshTimeoutTimer KEY w) as [[j|e] w1]; cbn [snd] in *.
    + destruct (is_not_minus_one j); unfold clearTimeout;
        cbn [snd record with_armed session temporary_data next_handle armed];
        rewrite ?Hs, ?Ht, ?Hn, ?Ha.
      * split_and!; try reflexivity; apply Hdis.
      * split_and!; try reflexivity. lia.
    + rewrite Hs, Ht, Hn, Ha. split_and!; try reflexivity. lia.
Qed.

(** Scheduling, looking up and cancelling compose: the handle
    [getRefreshTimeoutTimer] returns after a scheduling is the handle of the
    timer just armed, and [clearRefreshTokenTimeout()] then disarms exactly
    that timer, leaving the timers that were armed before. *)
Theorem schedule_lookup_cancel (w : World) :
  truthy_opt (refresh_token (session w)) = true ->
  0 < next_handle w ->
  armed w !! next_handle w = None ->
  let w1 := snd (refreshAccessTokenAutomatically KEY w) in
  is_Some (armed w1 !! next_handle w) /\
  fst (getRefreshTimeoutTimer KEY w1) = Returned (JNum (next_handle w)) /\
  fst (clearRefreshTokenTimeout KEY None w1) = Returned tt /\
  armed (snd (clearRefreshTokenTimeout KEY None w1)) = armed w.
Proof.
  intros Hrt Hpos Hfree w1.
  assert (Hw1 : temporary_data w1 !! KEY = Some (Encodes (JNum (next_handle w))) /\
                armed w1 = <[next_handle w := mul
                    (if le (parseInt (expires_in (session w))) (Int 10)
                     then parseInt (expires_in (session w))
                     else sub (parseInt (expires_in (session w))) (Int 10)) (Int 1000)]>
                  (armed w)).
  { subst w1. rewrite refreshAccessTokenAutomatically_eq, Hrt. cbn.
    split; [apply lookup_insert_eq|reflexivity]. }
  destruct Hw1 as [Hstored Harmed].
  assert (Hne : is_not_minus_one (JNum (next_handle w)) = true).
  { cbn. apply negb_true_iff, Z.eqb_neq. lia. }
  split_and!.
  - rewrite Harmed, lookup_insert_eq. eauto.
  - rewrite getRefreshTimeoutTimer_eq, Hstored. reflexivity.
  - rewrite clearRefreshTokenTimeout_eq, getRefreshTimeoutTimer_eq, Hstored.
    cbn [truthy_timer]. rewrite Hne. reflexivity.
  - rewrite clearRefreshTokenTimeout_eq, getRefreshTimeoutTimer_eq, Hstored.
    cbn [truthy_timer]. rewrite Hne. cbn. rewrite Harmed.
    apply delete_insert_id, Hfree.
Qed.

Lemma schedule_fresh (w : World) :
  handles_fresh w ->
  truthy_opt (refresh_token (session w)) = true ->
  handles_fresh (snd (refreshAccessTokenAutomatically KEY w)) /\
  session (snd (refreshAccessTokenAutomatically KEY w)) = session w /\
  size (armed (snd (refreshAccessTokenAutomatically KEY w))) = S (size (armed w)).
Proof.
  intros [Hpos Hfresh] Hrt.
  rewrite refreshAccessTokenAutomatically_eq, Hrt. cbn.
  assert (Hfree : armed w !! next_handle w = None).
  { destruct (armed w !! next_handle w) as [d|] eqn:E; [|reflexivity].
    apply Hfresh in E. lia. }
  split_and!.
  - split; cbn; [lia|]. intros h d Hh.
    apply lookup_insert_Some in Hh as [[<- _]|[_ Hh]]; [lia|].
    apply Hfresh in Hh. lia.
  - reflexivity.
  - apply map_size_insert_None, Hfree.
Qed.

(** Every [refreshAccessTokenAutomatically] with a refresh token in the
    session arms one more timer: [n] calls in a row leave [n] more timers
    armed than before, none is replaced. *)
Theorem schedules_accumulate (n : nat) (w : World) :
  handles_fresh w ->
  truthy_opt (refresh_token (session w)) = true ->
  size (armed (schedule_times KEY n w)) = (size (armed w) + n)%nat.
Proof.
  intros Hf Hrt.
  assert (H : handles_fresh (schedule_times KEY n w) /\
              session (schedule_times KEY n w) = session w /\
              size (armed (schedule_times KEY n w)) = (size (armed w) + n)%nat).
  { induction n as [|n (IHf & IHs & IHn)].
    - cbn. split_and!; [exact Hf|reflexivity|lia].
    - unfold schedule_times in *. cbn [Nat.iter].
      destruct (schedule_fresh _ IHf) as (Hf' & Hs' & Hn'); [rewrite IHs; exact Hrt|].
      split_and!; [exact Hf'|etransitivity; [exact Hs'|exact IHs]|].
      etransitivity; [exact Hn'|]. rewrite IHn. lia. }
  apply H.
Qed.

Lemma helper_step_persisted (w w' : World) :
  helper_step KEY w w' -> handle_persisted KEY w -> handle_persisted KEY w'.
Proof.
  intros Hstep (Hpos & h & Hh & Hstored). destruct Hstep as [w|timer w|w|k w|s w].
  - rewrite refreshAccessTokenAutomatically_eq.
    destruct (truthy_opt (refresh_token (session w))); cbn.
    + split; cbn; [lia|]. exists (next_handle w). split; [lia|]. apply lookup_insert_eq.
    + split; [exact Hpos|]. exists h. split; assumption.
  - destruct (clearRefreshTokenTimeout_only_disarms timer w) as (_ & Ht & Hn & _).
    split; [rewrite Hn; exact Hpos|]. exists h. rewrite Ht. split; assumption.
  - destruct (getRefreshTimeoutTimer_world w) as (_ & Ht & _ & Hn).
    split; [rewrite Hn; exact Hpos|]. exists h. rewrite Ht. split; assumption.
  - split; [exact Hpos|]. exists h. split; assumption.
  - split; [exact Hpos|]. exists h. split; assumption.
Qed.

(** No method of the helper ever takes the persisted handle back: once a
    scheduling has stored a handle, [getRefreshTimeoutTimer] returns a
    (positive) handle after any further calls, cancellations and firings,
    also when no timer is armed any more, and never the sentinel -1. *)
Theorem persisted_handle_never_reset (w w' : World) :
  handle_persisted KEY w ->
  rtc (helper_step KEY) w w' ->
  exists h, 0 < h /\ fst (getRefreshTimeoutTimer KEY w') = Returned (JNum h).
Proof.
  intros Hw Hrun.
  assert (Hw' : handle_persisted KEY w').
  { induction Hrun as [|w1 w2 w3 Hstep _ IH]; [exact Hw|].
    apply IH. eapply helper_step_persisted; eassumption. }
  destruct Hw' as (_ & h & Hh & Hstored).
  exists h. split; [exact Hh|]. rewrite getRefreshTimeoutTimer_eq, Hstored. reflexivity.
Qed.

End Facts.
End SPAHelperUseFacts.

(** ** The correlated channel: when a call settles *)

Module ChannelMoreFacts.
Import JS Models Channel PromiseFacts ChannelFacts.

Section Calls.
Context {T : Type}.
Implicit Types (c : Call T) (arrivals : list (Z * option ResponseMessage)).

Lemma Forall_list_filter {A} (P : A -> Prop) (f : A -> bool) (l : list A) :
  Forall P l -> Forall P (List.filter f l).
Proof.
  induction 1 as [|a l Ha _ IH]; [constructor|].
  cbn. destruct (f a); [constructor; assumption|exact IH].
Qed.

Lemma timeout_settled config c :
  promise c <> Pending -> promise (timeout config c) = promise c.
Proof.
  intros Hp. unfold timeout. destruct (timer c); [|reflexivity].
  cbn. apply reject_settled, Hp.
Qed.

Lemma onmessage_throws data c e :
  respond data = Throws e ->
  promise (onmessage data c) = promise c /\ timer (onmessage data c) = false /\
  steps (onmessage data c) = (steps c ++ [ClearTimeout; Uncaught e])%list.
Proof. intros H. unfold onmessage. rewrite H. repeat split. Qed.

Lemma deliver_all_throw arrivals c :
  Forall (fun a => exists e, respond (snd a) = Throws e) arrivals ->
  promise (fold_left deliver arrivals c) = promise c /\
  (timer c = false -> timer (fold_left deliver arrivals c) = false) /\
  (existsb is_TimerFired (steps c) = false ->
   existsb is_TimerFired (steps (fold_left deliver arrivals c)) = false).
Proof.
  intros H. revert c. induction H as [|a l [e He] _ IH]; intros c; [auto|].
  cbn [fold_left]. unfold deliver at 2 4 6.
  destruct (onmessage_throws _ c _ He) as (Hp & Ht & Hs).
  destruct (IH (onmessage (snd a) c)) as (IHp & IHt & IHs).
  split_and!.
  - rewrite IHp. exact Hp.
  - intros _. apply IHt, Ht.
  - intros Hf. apply IHs. rewrite Hs, existsb_app, Hf. reflexivity.
Qed.

(** When no handler throws, the promise of a call is settled in the end,
    whatever arrives and whenever: by the first message before the timer
    fires, or else by the timer.  When a message arrives before the deadline
    (a delay [setTimeout] can wait for) and every handler throws, the
    promise stays pending for good: the first handler has cleared the timer,
    which never fires. *)
Theorem communicate_settles_unless_handler_throws (config : Config) (message : T)
    arrivals :
  (Forall (fun a => forall e, respond (snd a) <> Throws e) arrivals ->
   promise (communicate config message arrivals) <> Pending)
  /\ (forall t data rest,
        0 <= _requestTimeout config <= MAX_DELAY ->
        arrivals = (t, data) :: rest -> t < _requestTimeout config ->
        Forall (fun a => exists e, respond (snd a) = Throws e) arrivals ->
        promise (communicate config message arrivals) = Pending /\
        timer (communicate config message arrivals) = false /\
        existsb is_TimerFired (steps (communicate config message arrivals)) = false).
Proof.
  split.
  - intros Hok. unfold communicate.
    set (deadline := setTimeout_delay (_requestTimeout config)).
    set (posted := {| promise := Pending; timer := true; steps := _ |}).
    pose proof (Forall_list_filter _ (fun a => fst a <? deadline) _ Hok) as Hearly.
    destruct (List.filter (fun a => fst a <? deadline) arrivals)
      as [|a early]; cbn [fold_left].
    + rewrite deliver_all_settled; unfold timeout; cbn; discriminate.
    + apply Forall_cons in Hearly as [Ha _].
      assert (Hfirst : promise (deliver posted a) <> Pending).
      { unfold deliver, onmessage. destruct (respond (snd a)) as [v|r|e] eqn:E; cbn;
          [discriminate|discriminate|]. destruct (Ha e). reflexivity. }
      rewrite deliver_all_settled.
      * rewrite timeout_settled; rewrite deliver_all_settled; exact Hfirst.
      * rewrite timeout_settled; rewrite deliver_all_settled; exact Hfirst.
  - intros t data rest Hrange -> Ht Hall. unfold communicate.
    rewrite (setTimeout_delay_in_range _ Hrange). cbn [List.filter fst].
    apply Z.ltb_lt in Ht. rewrite Ht. cbn [fold_left negb].
    set (posted := {| promise := Pending; timer := true; steps := _ |}).
    apply Forall_cons in Hall as [[e He] Hrest]. cbn [snd] in He.
    destruct (onmessage_throws data posted e He) as (Hp & Htm & Hs).
    change (deliver posted (t, data)) with (onmessage data posted).
    destruct (deliver_all_throw
                (List.filter (fun a => fst a <? _requestTimeout config) rest)
                (onmessage data posted)
                (Forall_list_filter _ _ _ Hrest)) as (Hp1 & Ht1 & Hs1).
    set (c1 := fold_left deliver _ (onmessage data posted)) in *.
    assert (Htimeout : timeout config c1 = c1).
    { unfold timeout. rewrite (Ht1 Htm). reflexivity. }
    rewrite Htimeout.
    destruct (deliver_all_throw
                (List.filter (fun a => negb (fst a <? _requestTimeout config)) rest)
                c1 (Forall_list_filter _ _ _ Hrest)) as (Hp2 & Ht2 & Hs2).
    split_and!.
    + rewrite Hp2, Hp1, Hp. reflexivity.
    + apply Ht2, Ht1, Htm.
    + apply Hs2, Hs1. rewrite Hs. reflexivity.
Qed.

End Calls.
End ChannelMoreFacts.

(** ** The configuration update: the other endings *)

Module UpdateConfigFacts.
Import JS Models Client.

Section Calls.
Variable worker : Worker.

(** With session management enabled and no check-session iframe URL in the
    new (or in the reported) configuration, the liveness check is reset and
    started again; when the new configuration says nothing about the
    endpoints, the URL of the merged configuration is the reported one all
    the same. *)
Theorem updateConfig_restarts_without_url (newConfig : Config) (p : Page) (existing : Config) :
  on_GET_CONFIG_DATA worker = Resolved existing ->
  on_UPDATE_CONFIG worker (merge existing newConfig) = Resolved tt ->
  truthy_flag (enableOIDCSessionManagement (merge existing newConfig)) = true ->
  iframe_url existing = None \/ iframe_url newConfig = None ->
  events (snd (updateConfig worker newConfig p)) =
    (events p ++
     [Sent GET_CONFIG_DATA; Sent (UPDATE_CONFIG (merge existing newConfig));
      ResetSessionManagement; CheckSession])%list /\
  (endpoints newConfig = None ->
   iframe_url (merge existing newConfig) = iframe_url existing).
Proof.
  intros Hc Hu Hon Hurl. split.
  - unfold updateConfig, bind, getConfigData, communicate.
    rewrite Hc. cbn zeta. rewrite Hu, Hon.
    assert (isCheckSessionIframeDifferent existing newConfig = true) as ->.
    { unfold isCheckSessionIframeDifferent. destruct Hurl as [-> | ->]; [reflexivity|].
      destruct (iframe_url existing); reflexivity. }
    unfold detached, checkSession, reset, log. cbn. rewrite <- !app_assoc. reflexivity.
  - intros Hnone. unfold iframe_url, merge. cbn. rewrite Hnone. reflexivity.
Qed.

(** A round trip that fails ends the update there: when the configuration
    cannot be read nothing is sent, and when the worker rejects the merged
    configuration the call is rejected with the worker's error and the
    liveness check is left alone, also when the URL has changed. *)
Theorem updateConfig_failure (newConfig : Config) (p : Page) :
  (forall error,
      on_GET_CONFIG_DATA worker = Failed error ->
      updateConfig worker newConfig p = (Failed error, log (Sent GET_CONFIG_DATA) p))
  /\ (forall existing error,
        on_GET_CONFIG_DATA worker = Resolved existing ->
        on_UPDATE_CONFIG worker (merge existing newConfig) = Failed error ->
        updateConfig worker newConfig p =
          (Failed error,
           log (Sent (UPDATE_CONFIG (merge existing newConfig)))
             (log (Sent GET_CONFIG_DATA) p))).
Proof.
  split.
  - intros error Hc. unfold updateConfig, bind, getConfigData, communicate.
    rewrite Hc. reflexivity.
  - intros existing error Hc Hu. unfold updateConfig, bind, getConfigData, communicate.
    rewrite Hc. cbn zeta. rewrite Hu. reflexivity.
Qed.

End Calls.
End UpdateConfigFacts.

(** ** The silent sign-in wait: the listener *)

Module SilentSignInMoreFacts.
Import JS Models Client SilentSignIn PromiseFacts SilentSignInFacts MoreSamples.

(** The wait after the ceiling has passed without a signal. *)
Lemma timed_out_state :
  timer_fires start =
    {| promise := Fulfilled (Bool false);
       timer := false;
       listening := true;
       in_flight := [];
       steps := [SetTimeout ceiling; AddEventListener; TimerFired; Resolve (Bool false)] |}.
Proof. reflexivity. Qed.

Section Runs.
Variable exchange : Z -> AuthorizationInfo -> Z * Settled BasicUserInfo.

#[local] Abbreviation listener := (listenToPromptNoneIFrame exchange).
#[local] Abbreviation dispatch := (SilentSignIn.dispatch exchange).
#[local] Abbreviation wait := (SilentSignIn.wait exchange).
#[local] Abbreviation drain := (SilentSignIn.drain).

Lemma dispatch_timed_out t data :
  is_signal data = false -> dispatch (timer_fires start) (t, data) = timer_fires start.
Proof.
  intros Hd. unfold SilentSignIn.dispatch, advance, timer_due. cbn [fst snd].
  cbn [timer_fires start timer in_flight settle_until with_in_flight promise listening steps].
  unfold timer_fires. cbn [timer].
  destruct (ceiling <=? t); cbn [listening]; apply listener_not_signal, Hd.
Qed.

Lemma dispatch_start_any t data :
  is_signal data = false ->
  dispatch start (t, data) = if ceiling <=? t then timer_fires start else start.
Proof.
  intros Hd. unfold SilentSignIn.dispatch, advance, timer_due. cbn [fst snd].
  cbn [start in_flight settle_until with_in_flight].
  destruct (ceiling <=? t).
  - cbn. apply listener_not_signal, Hd.
  - cbn. apply listener_not_signal, Hd.
Qed.

(** Messages that are no signals leave the wait where it started, or where
    the timer left it. *)
Lemma dispatch_all_no_signal events w :
  Forall (fun ev => is_signal (snd ev) = false) events ->
  w = start \/ w = timer_fires start ->
  fold_left dispatch events w = start \/ fold_left dispatch events w = timer_fires start.
Proof.
  intros H. revert w. induction H as [|[t d] l Hd _ IH]; intros w Hw; [exact Hw|].
  cbn [fold_left]. apply IH. cbn in Hd. destruct Hw as [-> | ->].
  - rewrite dispatch_start_any by exact Hd. destruct (ceiling <=? t); auto.
  - rewrite dispatch_timed_out by exact Hd. auto.
Qed.

(** Whatever messages arrive, as long as none is a signal the wait ends by
    the timer: the promise resolves to false, [removeEventListener] was never
    called and the listener is still registered. *)
Theorem wait_without_signal_keeps_listener (events : list (Z * option WindowMessage)) :
  Forall (fun ev => is_signal (snd ev) = false) events ->
  wait events = timer_fires start /\
  listening (wait events) = true /\
  count_RemoveEventListener (steps (wait events)) = 0%nat.
Proof.
  intros H.
  assert (Hw : wait events = timer_fires start).
  { unfold SilentSignIn.wait.
    destruct (dispatch_all_no_signal events start H (or_introl eq_refl)) as [-> | ->];
      reflexivity. }
  rewrite Hw. repeat split.
Qed.

(** *** The steps only grow *)

Lemma extends_refl w : extends w w.
Proof. exists []. rewrite app_nil_r. reflexivity. Qed.

Lemma extends_trans w1 w2 w3 : extends w1 w2 -> extends w2 w3 -> extends w1 w3.
Proof.
  intros [t1 H1] [t2 H2]. exists (t1 ++ t2)%list. rewrite H2, H1, app_assoc. reflexivity.
Qed.

Lemma timer_fires_extends w : extends w (timer_fires w).
Proof.
  unfold timer_fires. destruct (timer w); [eexists; reflexivity|apply extends_refl].
Qed.

Lemma timer_due_extends now w : extends w (timer_due now w).
Proof.
  unfold timer_due. destruct (ceiling <=? now);
    [apply timer_fires_extends|apply extends_refl].
Qed.

Lemma exchange_settles_extends ending w : extends w (exchange_settles ending w).
Proof. destruct ending; cbn; [eexists; reflexivity..|apply extends_refl]. Qed.

Lemma settle_until_extends now queue w : extends w (snd (settle_until now queue w)).
Proof.
  revert w. induction queue as [|[t e] q IH]; intros w; [apply extends_refl|].
  cbn [settle_until]. destruct (t <=? now); [|apply extends_refl].
  eapply extends_trans; [|apply IH].
  eapply extends_trans; [apply timer_due_extends|apply exchange_settles_extends].
Qed.

Lemma advance_extends now w : extends w (advance now w).
Proof.
  unfold advance. pose proof (settle_until_extends now (in_flight w) w) as H.
  destruct (settle_until now (in_flight w) w) as [q w']. cbn [snd] in H.
  eapply extends_trans; [exact H|].
  eapply extends_trans; [|apply timer_due_extends].
  exists []. cbn. rewrite app_nil_r. reflexivity.
Qed.

Lemma listener_extends now data w : extends w (listener now data w).
Proof.
  unfold listenToPromptNoneIFrame.
  destruct (signed_in_with_code data) as [info|].
  - destruct (exchange now info) as [latency ending].
    destruct (signed_out data); cbn; eexists; rewrite <- ?app_assoc; reflexivity.
  - destruct (signed_out data); [eexists; reflexivity|apply extends_refl].
Qed.

Lemma dispatch_extends w event : extends w (dispatch w event).
Proof.
  unfold SilentSignIn.dispatch.
  destruct (listening (advance (fst event) w)).
  - eapply extends_trans; [apply advance_extends|apply listener_extends].
  - apply advance_extends.
Qed.

Lemma dispatch_all_extends events w : extends w (fold_left dispatch events w).
Proof.
  revert w. induction events as [|ev l IH]; intros w; [apply extends_refl|].
  cbn [fold_left]. eapply extends_trans; [apply dispatch_extends|apply IH].
Qed.

Lemma settle_all_extends queue w : extends w (settle_all queue w).
Proof.
  revert w. induction queue as [|[t e] q IH]; intros w; [apply extends_refl|].
  cbn [settle_all]. eapply extends_trans; [|apply IH].
  eapply extends_trans; [apply timer_due_extends|apply exchange_settles_extends].
Qed.

Lemma drain_extends w : extends w (drain w).
Proof.
  unfold SilentSignIn.drain.
  eapply extends_trans; [apply settle_all_extends|].
  eapply extends_trans; [|apply timer_fires_extends].
  exists []. cbn. rewrite app_nil_r. reflexivity.
Qed.

(** The listener the timer leaves behind still works: a signed-in signal
    with a code that arrives after the ceiling (no signal before it) starts a
    code exchange, although the promise has already resolved to false and
    stays so. *)
Theorem late_signal_starts_exchange
    (pre post : list (Z * option WindowMessage)) (t : Z)
    (data : option WindowMessage) (info : AuthorizationInfo) :
  Forall (fun ev => is_signal (snd ev) = false) pre ->
  ceiling <= t ->
  signed_in_with_code data = Some info ->
  promise (wait (pre ++ (t, data) :: post)) = Fulfilled (Bool false) /\
  In (RequestAccessToken info) (steps (wait (pre ++ (t, data) :: post))).
Proof.
  intros Hpre Ht Hin. unfold SilentSignIn.wait.
  rewrite fold_left_app. cbn [fold_left].
  set (w0 := fold_left dispatch pre start).
  assert (Hw1 : exists latency ending,
            dispatch w0 (t, data) =
              {| promise := Fulfilled (Bool false);
                 timer := false;
                 listening := true;
                 in_flight := [(t + latency, ending)];
                 steps := steps (timer_fires start) ++ [RequestAccessToken info] |}).
  { destruct (exchange t info) as [latency ending] eqn:Hex. exists latency, ending.
    assert (Hadv : advance t w0 = timer_fires start).
    { destruct (dispatch_all_no_signal pre start Hpre (or_introl eq_refl)) as [E|E];
        fold w0 in E; rewrite E; unfold advance, timer_due; cbn;
        apply Z.leb_le in Ht; rewrite Ht; reflexivity. }
    unfold SilentSignIn.dispatch. cbn [fst snd]. rewrite Hadv.
    cbn [listening timer_fires start timer].
    unfold listenToPromptNoneIFrame.
    rewrite (signed_in_not_signed_out _ _ Hin), Hin, Hex. reflexivity. }
  destruct Hw1 as (latency & ending & Hw1). rewrite Hw1.
  set (w1 := {| promise := Fulfilled (Bool false); timer := false; listening := true;
                in_flight := _; steps := _ |}).
  split.
  - rewrite drain_settled; rewrite dispatch_all_settled; cbn; congruence.
  - destruct (extends_trans _ _ _ (dispatch_all_extends post w1)
                (drain_extends (fold_left dispatch post w1))) as [tail Htail].
    rewrite Htail. apply in_or_app. left. apply in_or_app. right. left. reflexivity.
Qed.

(** The listener is not removed when the signal arrives, only when the
    exchange settles: a second signed-in signal with a code, while the first
    exchange is under way, starts a second exchange. *)
Theorem second_signal_second_exchange
    (t1 t2 : Z) (d1 d2 : option WindowMessage) (i1 i2 : AuthorizationInfo)
    (l1 l2 : Z) (e1 e2 : Settled BasicUserInfo) :
  t1 < ceiling -> t2 < ceiling -> t2 < t1 + l1 ->
  signed_in_with_code d1 = Some i1 -> signed_in_with_code d2 = Some i2 ->
  exchange t1 i1 = (l1, e1) -> exchange t2 i2 = (l2, e2) ->
  fold_left dispatch [(t1, d1); (t2, d2)] start =
    {| promise := Pending;
       timer := true;
       listening := true;
       in_flight := enqueue (t2 + l2) e2 [(t1 + l1, e1)];
       steps := [SetTimeout ceiling; AddEventListener;
                 RequestAccessToken i1; RequestAccessToken i2] |}.
Proof.
  intros Ht1 Ht2 Hdue Hi1 Hi2 He1 He2. cbn [fold_left].
  assert (dispatch start (t1, d1) = exchanging i1 (t1 + l1) e1) as ->.
  { unfold SilentSignIn.dispatch, advance, timer_due.
    cbn [fst snd in_flight start settle_until].
    apply Z.leb_gt in Ht1. rewrite Ht1. cbn.
    unfold listenToPromptNoneIFrame.
    rewrite (signed_in_not_signed_out _ _ Hi1), Hi1, He1. reflexivity. }
  unfold SilentSignIn.dispatch, advance. cbn [fst snd].
  change (in_flight (exchanging i1 (t1 + l1) e1)) with [(t1 + l1, e1)].
  cbn [settle_until].
  assert ((t1 + l1 <=? t2) = false) as -> by (apply Z.leb_gt; lia).
  unfold timer_due. apply Z.leb_gt in Ht2. rewrite Ht2. cbn.
  unfold listenToPromptNoneIFrame.
  rewrite (signed_in_not_signed_out _ _ Hi2), Hi2, He2. reflexivity.
Qed.

End Runs.
End SilentSignInMoreFacts.

(** ** The rest of the client *)

Module HostFacts.
Import JS Models Client Host.

Section Facts.
Variable env : Environment.

Lemma http_failed_cases {A} (error : Reason) (h : Host) :
  (_isHttpHandlerEnabled h = false -> @http_failed env A error h = (Failed error, h))
  /\ (_isHttpHandlerEnabled h = true -> httpClientHandlers h = None ->
      @http_failed env A error h = (Failed (Thrown TypeError), h))
  /\ (forall handlers,
        _isHttpHandlerEnabled h = true -> httpClientHandlers h = Some handlers ->
        ends env (requestErrorCallback handlers) = Resolved tt ->
        ends env (requestFinishCallback handlers) = Resolved tt ->
        @http_failed env A error h =
          (Failed error,
           note (Invoked (Finish_callback (requestFinishCallback handlers)))
             (note (Invoked (Error_callback (requestErrorCallback handlers) error)) h)))
  /\ (forall handlers other,
        _isHttpHandlerEnabled h = true -> httpClientHandlers h = Some handlers ->
        ends env (requestErrorCallback handlers) = Failed other ->
        @http_failed env A error h =
          (Failed other,
           note (Invoked (Error_callback (requestErrorCallback handlers) error)) h)).
Proof.
  unfold http_failed. split_and!.
  - intros ->. reflexivity.
  - intros -> ->. reflexivity.
  - intros handlers -> -> He Hf. unfold bind, invoke, fail. rewrite He.
    cbn [fst snd]. rewrite Hf. reflexivity.
  - intros handlers other -> -> He. unfold bind, invoke. rewrite He. reflexivity.
Qed.

(** [httpRequest] and [httpRequestAll].  A response is passed on and the
    client calls no handler itself.  A failure is passed on as it is when the
    handlers are switched off; otherwise the error callback is called with
    it and awaited, then the finish callback, and the same failure is
    rejected.  When the error callback itself fails, the finish callback is
    not called and the callback's failure replaces the worker's.  When
    [initialize] has not run there are no handlers to read, and the
    rejection is a [TypeError] instead of the worker's failure. *)
Theorem http_request_endings (request : Json) (requests : list Json) (h : Host) :
  (forall response,
      on_HTTP_REQUEST (worker env) request = Resolved response ->
      httpRequest env request h = (Resolved response, note (Posted (HTTP_REQUEST request)) h))
  /\ (forall error,
        on_HTTP_REQUEST (worker env) request = Failed error ->
        _isHttpHandlerEnabled h = false ->
        httpRequest env request h = (Failed error, note (Posted (HTTP_REQUEST request)) h))
  /\ (forall error,
        on_HTTP_REQUEST (worker env) request = Failed error ->
        _isHttpHandlerEnabled h = true -> httpClientHandlers h = None ->
        httpRequest env request h = (Failed (Thrown TypeError), note (Posted (HTTP_REQUEST request)) h))
  /\ (forall error handlers,
        on_HTTP_REQUEST (worker env) request = Failed error ->
        _isHttpHandlerEnabled h = true -> httpClientHandlers h = Some handlers ->
        ends env (requestErrorCallback handlers) = Resolved tt ->
        ends env (requestFinishCallback handlers) = Resolved tt ->
        httpRequest env request h =
          (Failed error,
           note (Invoked (Finish_callback (requestFinishCallback handlers)))
             (note (Invoked (Error_callback (requestErrorCallback handlers) error))
                (note (Posted (HTTP_REQUEST request)) h))))
  /\ (forall error handlers other,
        on_HTTP_REQUEST (worker env) request = Failed error ->
        _isHttpHandlerEnabled h = true -> httpClientHandlers h = Some handlers ->
        ends env (requestErrorCallback handlers) = Failed other ->
        httpRequest env request h =
          (Failed other,
           note (Invoked (Error_callback (requestErrorCallback handlers) error))
             (note (Posted (HTTP_REQUEST request)) h)))
  /\ (forall response,
      on_HTTP_REQUEST_ALL (worker env) requests = Resolved response ->
      httpRequestAll env requests h = (Resolved response, note (Posted (HTTP_REQUEST_ALL requests)) h))
  /\ (forall error,
        on_HTTP_REQUEST_ALL (worker env) requests = Failed error ->
        _isHttpHandlerEnabled h = false ->
        httpRequestAll env requests h = (Failed error, note (Posted (HTTP_REQUEST_ALL requests)) h))
  /\ (forall error,
        on_HTTP_REQUEST_ALL (worker env) requests = Failed error ->
        _isHttpHandlerEnabled h = true -> httpClientHandlers h = None ->
        httpRequestAll env requests h = (Failed (Thrown TypeError), note (Posted (HTTP_REQUEST_ALL requests)) h))
  /\ (forall error handlers,
        on_HTTP_REQUEST_ALL (worker env) requests = Failed error ->
        _isHttpHandlerEnabled h = true -> httpClientHandlers h = Some handlers ->
        ends env (requestErrorCallback handlers) = Resolved tt ->
        ends env (requestFinishCallback handlers) = Resolved tt ->
        httpRequestAll env requests h =
          (Failed error,
           note (Invoked (Finish_callback (requestFinishCallback handlers)))
             (note (Invoked (Error_callback (requestErrorCallback handlers) error))
                (note (Posted (HTTP_REQUEST_ALL requests)) h))))
  /\ (forall error handlers other,
        on_HTTP_REQUEST_ALL (worker env) requests = Failed error ->
        _isHttpHandlerEnabled h = true -> httpClientHandlers h = Some handlers ->
        ends env (requestErrorCallback handlers) = Failed other ->
        httpRequestAll env requests h =
          (Failed other,
           note (Invoked (Error_callback (requestErrorCallback handlers) error))
             (note (Posted (HTTP_REQUEST_ALL requests)) h))).
Proof.
  unfold httpRequest, httpRequestAll, communicate.
  split_and!.
  - intros response ->. reflexivity.
  - intros error -> He. apply http_failed_cases. exact He.
  - intros error -> He Hn. apply http_failed_cases; assumption.
  - intros error handlers -> He Hh H1 H2.
    apply (proj1 (proj2 (proj2 (http_failed_cases error _)))); assumption.
  - intros error handlers other -> He Hh H1.
    apply (proj2 (proj2 (proj2 (http_failed_cases error _)))); assumption.
  - intros response ->. reflexivity.
  - intros error -> He. apply http_failed_cases. exact He.
  - intros error -> He Hn. apply http_failed_cases; assumption.
  - intros error handlers -> He Hh H1 H2.
    apply (proj1 (proj2 (proj2 (http_failed_cases error _)))); assumption.
  - intros error handlers other -> He Hh H1.
    apply (proj2 (proj2 (proj2 (http_failed_cases error _)))); assumption.
Qed.

(** [enableHttpHandler] and [disableHttpHandler] switch only when their
    round trip succeeds; a failed round trip leaves the switch as it was and
    rejects.  After a successful [disableHttpHandler], a failing
    [httpRequest] calls no handler and rejects with the worker's failure,
    also when [initialize] has never run. *)
Theorem http_handler_switch (h : Host) :
  (on_DISABLE_HTTP_HANDLER (worker env) = Resolved tt ->
   disableHttpHandler env h =
     (Resolved true, with_http_handler_enabled false (note (Posted DISABLE_HTTP_HANDLER) h)))
  /\ (forall error,
        on_DISABLE_HTTP_HANDLER (worker env) = Failed error ->
        disableHttpHandler env h = (Failed error, note (Posted DISABLE_HTTP_HANDLER) h))
  /\ (on_ENABLE_HTTP_HANDLER (worker env) = Resolved tt ->
      enableHttpHandler env h =
        (Resolved true, with_http_handler_enabled true (note (Posted ENABLE_HTTP_HANDLER) h)))
  /\ (forall error,
        on_ENABLE_HTTP_HANDLER (worker env) = Failed error ->
        enableHttpHandler env h = (Failed error, note (Posted ENABLE_HTTP_HANDLER) h))
  /\ (forall request error,
        on_DISABLE_HTTP_HANDLER (worker env) = Resolved tt ->
        on_HTTP_REQUEST (worker env) request = Failed error ->
        httpRequest env request (snd (disableHttpHandler env h)) =
          (Failed error,
           note (Posted (HTTP_REQUEST request)) (snd (disableHttpHandler env h)))).
Proof.
  unfold disableHttpHandler, enableHttpHandler, bind, communicate.
  split_and!.
  - intros ->. reflexivity.
  - intros error ->. reflexivity.
  - intros ->. reflexivity.
  - intros error ->. reflexivity.
  - intros request error -> Hr. cbn [snd].
    unfold httpRequest, communicate. rewrite Hr. reflexivity.
Qed.

(** [initialize] installs the no-op handlers only when there are none:
    handlers that are there are kept.  The handlers and the notification
    handler are in place whether or not the [INIT] round trip succeeds, and
    the call resolves (to true) exactly when that round trip does. *)
Theorem initialize_installs_handlers (h : Host) :
  (httpClientHandlers h = None ->
   httpClientHandlers (snd (initialize env h)) = Some default_handlers)
  /\ (forall handlers,
        httpClientHandlers h = Some handlers ->
        httpClientHandlers (snd (initialize env h)) = Some handlers)
  /\ worker_onmessage (snd (initialize env h)) = true
  /\ (fst (initialize env h) = Resolved true <->
      on_INIT (worker env) (config env) = Resolved tt)
  /\ (forall error,
        on_INIT (worker env) (config env) = Failed error ->
        fst (initialize env h) = Failed error).
Proof.
  unfold initialize, bind, communicate, ret.
  split_and!.
  - intros ->. destruct (on_INIT _ _); reflexivity.
  - intros handlers Hh. rewrite Hh. destruct (on_INIT _ _); cbn; first [exact Hh|reflexivity].
  - destruct (httpClientHandlers h), (on_INIT _ _); reflexivity.
  - destruct (on_INIT _ _) as [[]|r|]; cbn; split; congruence.
  - intros error ->. reflexivity.
Qed.

(** The setters.  An argument that is no function changes nothing and never
    throws.  A function replaces the one slot and leaves the other three;
    before [initialize] there is nothing to assign to and the setter throws
    a [TypeError]. *)
Theorem handler_setters (callback : Callback) (h : Host) :
  setHttpRequestSuccessCallback None h = inr h
  /\ setHttpRequestErrorCallback None h = inr h
  /\ setHttpRequestStartCallback None h = inr h
  /\ setHttpRequestFinishCallback None h = inr h
  /\ (httpClientHandlers h = None ->
      setHttpRequestSuccessCallback (Some callback) h = inl TypeError /\
      setHttpRequestErrorCallback (Some callback) h = inl TypeError /\
      setHttpRequestStartCallback (Some callback) h = inl TypeError /\
      setHttpRequestFinishCallback (Some callback) h = inl TypeError)
  /\ (forall e f s u,
        httpClientHandlers h =
          Some {| requestErrorCallback := e; requestFinishCallback := f;
                  requestStartCallback := s; requestSuccessCallback := u |} ->
        setHttpRequestSuccessCallback (Some callback) h =
          inr (with_handlers
                 (Some {| requestErrorCallback := e; requestFinishCallback := f;
                          requestStartCallback := s; requestSuccessCallback := callback |}) h) /\
        setHttpRequestErrorCallback (Some callback) h =
          inr (with_handlers
                 (Some {| requestErrorCallback := callback; requestFinishCallback := f;
                          requestStartCallback := s; requestSuccessCallback := u |}) h) /\
        setHttpRequestStartCallback (Some callback) h =
          inr (with_handlers
                 (Some {| requestErrorCallback := e; requestFinishCallback := f;
                          requestStartCallback := callback; requestSuccessCallback := u |}) h) /\
        setHttpRequestFinishCallback (Some callback) h =
          inr (with_handlers
                 (Some {| requestErrorCallback := e; requestFinishCallback := callback;
                          requestStartCallback := s; requestSuccessCallback := u |}) h)).
Proof.
  unfold setHttpRequestSuccessCallback, setHttpRequestErrorCallback,
    setHttpRequestStartCallback, setHttpRequestFinishCallback, set_handler.
  split_and!; try reflexivity.
  - intros ->. repeat split.
  - intros e f s u ->. repeat split.
Qed.

(** The worker's notifications reach the handlers whatever
    [_isHttpHandlerEnabled] says: the switch is not consulted.  Before
    [initialize] nothing listens.  [REQUEST_SUCCESS] hands the parsed data to
    the success callback, null when there is none, and a data string that is
    not JSON calls no callback (the exception is nobody's). *)
Theorem notifications_ignore_switch (n : Notification) (b : bool) (h : Host) :
  on_notification n (with_http_handler_enabled b h) =
    with_http_handler_enabled b (on_notification n h)
  /\ (worker_onmessage h = false -> on_notification n h = h)
  /\ (forall handlers,
        worker_onmessage h = true -> httpClientHandlers h = Some handlers ->
        on_notification REQUEST_START h =
          note (Invoked (Start_callback (requestStartCallback handlers))) h /\
        on_notification REQUEST_FINISH h =
          note (Invoked (Finish_callback (requestFinishCallback handlers))) h /\
        on_notification (REQUEST_SUCCESS None) h =
          note (Invoked (Success_callback (requestSuccessCallback handlers) JNull)) h /\
        (forall j,
           on_notification (REQUEST_SUCCESS (Some (JSON_stringify j))) h =
             note (Invoked (Success_callback (requestSuccessCallback handlers) j)) h) /\
        (forall raw, truthy raw = true ->
           on_notification (REQUEST_SUCCESS (Some (NotJSON raw))) h =
             note (UncaughtException SyntaxError) h)).
Proof.
  split_and!.
  - unfold on_notification. cbn [worker_onmessage httpClientHandlers with_http_handler_enabled].
    destruct (worker_onmessage h); [|reflexivity].
    destruct (httpClientHandlers h) as [handlers|]; [|reflexivity].
    destruct n as [| |data|ty]; try reflexivity.
    destruct (Channel.parse_or_null data); reflexivity.
  - unfold on_notification. intros ->. reflexivity.
  - intros handlers Hw Hh. unfold on_notification. rewrite Hw, Hh.
    split_and!; try reflexivity.
    intros raw Hraw. cbn. rewrite Hraw. reflexivity.
Qed.

(** A setter and the notification that uses its slot compose: the callback
    set last is the one called, the other slots answer as before. *)
Theorem set_then_notify (callback : Callback) (h : Host) (handlers : HttpClient) :
  worker_onmessage h = true ->
  httpClientHandlers h = Some handlers ->
  exists h1,
    setHttpRequestSuccessCallback (Some callback) h = inr h1 /\
    (forall j,
       on_notification (REQUEST_SUCCESS (Some (JSON_stringify j))) h1 =
         note (Invoked (Success_callback callback j)) h1) /\
    on_notification REQUEST_START h1 =
      note (Invoked (Start_callback (requestStartCallback handlers))) h1 /\
    on_notification REQUEST_FINISH h1 =
      note (Invoked (Finish_callback (requestFinishCallback handlers))) h1.
Proof.
  intros Hw Hh. eexists. split.
  - unfold setHttpRequestSuccessCallback, set_handler. rewrite Hh. reflexivity.
  - unfold on_notification. cbn [worker_onmessage httpClientHandlers with_handlers].
    rewrite Hw. repeat split.
Qed.

(** [requestCustomGrant] sets [_getSignOutURLFromSessionStorage] when the
    grant succeeds and asks to keep the sign-out URL; it never clears it, and
    a failed grant changes nothing but the list of messages. *)
Theorem requestCustomGrant_flag (requestParams : CustomGrant) (h : Host) :
  (forall response,
      on_REQUEST_CUSTOM_GRANT (worker env) requestParams = Resolved response ->
      requestCustomGrant env requestParams h =
        (Resolved response,
         if truthy_flag (preventSignOutURLUpdate requestParams)
         then with_sign_out_url_from_storage true
                (note (Posted (REQUEST_CUSTOM_GRANT requestParams)) h)
         else note (Posted (REQUEST_CUSTOM_GRANT requestParams)) h))
  /\ (forall error,
        on_REQUEST_CUSTOM_GRANT (worker env) requestParams = Failed error ->
        requestCustomGrant env requestParams h =
          (Failed error, note (Posted (REQUEST_CUSTOM_GRANT requestParams)) h))
  /\ (_getSignOutURLFromSessionStorage h = true ->
      _getSignOutURLFromSessionStorage (snd (requestCustomGrant env requestParams h)) = true).
Proof.
  unfold requestCustomGrant, bind, communicate. split_and!.
  - intros response ->. reflexivity.
  - intros error ->. reflexivity.
  - intros Hf. destruct (on_REQUEST_CUSTOM_GRANT _ _); cbn; try exact Hf.
    destruct (truthy_flag _); cbn; [reflexivity|exact Hf].
Qed.

Lemma signOut_stored (h : Host) (authenticated : bool) :
  on_IS_AUTHENTICATED (worker env) = Resolved authenticated ->
  authenticated = false \/ _getSignOutURLFromSessionStorage h = true ->
  signOut env h =
    (Resolved true,
     note WaitedTillPageRedirect
       (note (Navigated (default (no_sign_out_url env) (signOutURL h)))
          (note ReadSignOutURL (note (Posted IS_AUTHENTICATED) h)))).
Proof.
  unfold signOut, bind, isAuthenticated, communicate.
  intros -> Hor. cbn.
  assert (authenticated && negb (_getSignOutURLFromSessionStorage h) = false) as ->.
  { destruct Hor as [-> | ->]; [reflexivity|apply andb_false_r]. }
  reflexivity.
Qed.

(** [signOut].  When [isAuthenticated] fails the call is rejected and the
    page stays.  When the user is authenticated and the flag is not set, the
    sign-out URL is asked of the worker and the page goes there; if that
    round trip fails the call is rejected and the page stays: the stored URL
    is not used then.  When the user is not authenticated, or the flag is set,
    no [SIGN_OUT] message is sent and the page goes to the stored URL. *)
Theorem signOut_paths (h : Host) :
  (forall error,
      on_IS_AUTHENTICATED (worker env) = Failed error ->
      signOut env h = (Failed error, note (Posted IS_AUTHENTICATED) h))
  /\ (forall url,
        on_IS_AUTHENTICATED (worker env) = Resolved true ->
        _getSignOutURLFromSessionStorage h = false ->
        on_SIGN_OUT (worker env) = Resolved url ->
        signOut env h =
          (Resolved true,
           note WaitedTillPageRedirect
             (note (Navigated url)
                (note (Posted SIGN_OUT) (note (Posted IS_AUTHENTICATED) h)))))
  /\ (forall error,
        on_IS_AUTHENTICATED (worker env) = Resolved true ->
        _getSignOutURLFromSessionStorage h = false ->
        on_SIGN_OUT (worker env) = Failed error ->
        signOut env h =
          (Failed error, note (Posted SIGN_OUT) (note (Posted IS_AUTHENTICATED) h)))
  /\ (forall authenticated,
        on_IS_AUTHENTICATED (worker env) = Resolved authenticated ->
        authenticated = false \/ _getSignOutURLFromSessionStorage h = true ->
        signOut env h =
          (Resolved true,
           note WaitedTillPageRedirect
             (note (Navigated (default (no_sign_out_url env) (signOutURL h)))
                (note ReadSignOutURL (note (Posted IS_AUTHENTICATED) h))))).
Proof.
  unfold signOut, bind, isAuthenticated, communicate. split_and!.
  - intros error ->. reflexivity.
  - intros url -> Hf Hs. cbn. rewrite Hf, Hs. reflexivity.
  - intros error -> Hf Hs. cbn. rewrite Hf, Hs. reflexivity.
  - intros authenticated Ha Hor. fold (isAuthenticated env). fold (signOut env).
    apply (signOut_stored h authenticated Ha Hor).
Qed.

(** The sign-out URL handed to the session management helper: the worker's
    when the round trip succeeds, the stored one when it fails.  It is never
    a rejection. *)
Theorem signOutURLProvider_never_rejects (h : Host) :
  (forall url,
      on_SIGN_OUT (worker env) = Resolved url ->
      signOutURLProvider env h = (Resolved url, note (Posted SIGN_OUT) h))
  /\ (forall error,
        on_SIGN_OUT (worker env) = Failed error ->
        signOutURLProvider env h =
          (Resolved (default (no_sign_out_url env) (signOutURL h)),
           note ReadSignOutURL (note (Posted SIGN_OUT) h)))
  /\ (forall error, fst (signOutURLProvider env h) <> Failed error).
Proof.
  unfold signOutURLProvider, communicate, getSignOutURL. split_and!.
  - intros url ->. reflexivity.
  - intros error ->. reflexivity.
  - intros error. destruct (on_SIGN_OUT (worker env)); cbn; discriminate.
Qed.

(** [revokeAccessToken] resets the session management helper exactly when
    the round trip succeeds, and passes the worker's answer on. *)
Theorem revokeAccessToken_resets (h : Host) :
  (forall response,
      on_REVOKE_ACCESS_TOKEN (worker env) = Resolved response ->
      revokeAccessToken env h =
        (Resolved response,
         note (OnPage ResetSessionManagement) (note (Posted REVOKE_ACCESS_TOKEN) h)))
  /\ (forall error,
        on_REVOKE_ACCESS_TOKEN (worker env) = Failed error ->
        revokeAccessToken env h = (Failed error, note (Posted REVOKE_ACCESS_TOKEN) h)).
Proof.
  unfold revokeAccessToken, bind, communicate. split.
  - intros response ->. reflexivity.
  - intros error ->. reflexivity.
Qed.

(** [checkSession]: the helper is initialized with the iframe URL of the
    provider's metadata (the empty string when there is none), a check
    interval of 3 and a refresh interval of 300 unless the configuration
    says otherwise.  When the metadata cannot be read the configuration is
    not asked for, and when either round trip fails the helper is not
    initialized. *)
Theorem checkSession_defaults (h : Host) :
  (forall oidcEndpoints reported,
      on_GET_OIDC_SERVICE_ENDPOINTS (worker env) = Resolved oidcEndpoints ->
      on_GET_CONFIG_DATA (core (worker env)) = Resolved reported ->
      checkSession env h =
        (Resolved tt,
         note (SessionManagementInitialized
                 {| sm_clientID := clientID reported;
                    sm_checkSessionIframe := default "" (checkSessionIframe oidcEndpoints);
                    sm_checkSessionInterval := default 3 (checkSessionInterval reported);
                    sm_sessionRefreshInterval := default 300 (sessionRefreshInterval reported);
                    sm_signInRedirectURL := signInRedirectURL reported |})
           (note (Posted (Core GET_CONFIG_DATA))
              (note (Posted GET_OIDC_SERVICE_ENDPOINTS) h))))
  /\ (forall error,
        on_GET_OIDC_SERVICE_ENDPOINTS (worker env) = Failed error ->
        checkSession env h = (Failed error, note (Posted GET_OIDC_SERVICE_ENDPOINTS) h))
  /\ (forall oidcEndpoints error,
        on_GET_OIDC_SERVICE_ENDPOINTS (worker env) = Resolved oidcEndpoints ->
        on_GET_CONFIG_DATA (core (worker env)) = Failed error ->
        checkSession env h =
          (Failed error,
           note (Posted (Core GET_CONFIG_DATA))
             (note (Posted GET_OIDC_SERVICE_ENDPOINTS) h))).
Proof.
  unfold checkSession, bind, getOIDCServiceEndpoints, communicate, getConfigData, lift,
    Client.getConfigData, Client.communicate.
  split_and!.
  - intros oidcEndpoints reported -> Hc. cbn. rewrite Hc. reflexivity.
  - intros error ->. reflexivity.
  - intros oidcEndpoints error -> Hc. cbn. rewrite Hc. reflexivity.
Qed.

Lemma getConfigData_eq (h : Host) :
  getConfigData env h =
    (on_GET_CONFIG_DATA (core (worker env)), note (Posted (Core GET_CONFIG_DATA)) h).
Proof. reflexivity. Qed.

Lemma startAutoRefreshToken_eq (h : Host) :
  startAutoRefreshToken env h =
    (on_START_AUTO_REFRESH_TOKEN (core (worker env)),
     note (Posted (Core START_AUTO_REFRESH_TOKEN)) h).
Proof. reflexivity. Qed.

Lemma searchParams_get_delete_same (key : string) (l : Location) :
  searchParams_get key (searchParams_delete key l) = None.
Proof.
  unfold searchParams_get, searchParams_delete. cbn [searchParams].
  induction (searchParams l) as [|[k v] kvs IH]; [reflexivity|].
  cbn [List.filter List.find fst snd]. destruct (String.eqb k key) eqn:E; cbn [negb].
  - exact IH.
  - cbn [List.find fst]. rewrite E. exact IH.
Qed.

Lemma searchParams_get_delete_other (key key' : string) (l : Location) :
  key <> key' ->
  searchParams_get key (searchParams_delete key' l) = searchParams_get key l.
Proof.
  intros Hne. unfold searchParams_get, searchParams_delete. cbn [searchParams].
  induction (searchParams l) as [|[k v] kvs IH]; [reflexivity|].
  cbn [List.filter List.find fst snd]. destruct (String.eqb k key') eqn:E; cbn [negb].
  - apply String.eqb_eq in E. subst k.
    destruct (String.eqb key' key) eqn:E'; [|exact IH].
    apply String.eqb_eq in E'. congruence.
  - cbn [List.find fst snd]. destruct (String.eqb k key); [reflexivity|exact IH].
Qed.

(** [signIn] on a page whose URL carries an error of the provider: the call
    is rejected with that error (and its description, the empty string when
    there is none), the worker is asked for nothing but the configuration,
    and the URL pushed to the history has lost both parameters and kept all
    the others, so that the next [signIn] on the page does not meet the
    error again. *)
Theorem signIn_error_response (params : option GetAuthURLConfig)
    (authorizationCode sessionState state : option string) (h : Host)
    (reported : Config) (error : string) :
  on_GET_CONFIG_DATA (core (worker env)) = Resolved reported ->
  receivePromptNoneResponse_ends env = Resolved false ->
  searchParams_get (ERROR env) (location h) = Some error ->
  truthy error = true ->
  let result := signIn env params authorizationCode sessionState state h in
  fst result =
    Failed (Exc {| code := "WEB_WORKER_CLIENT-SI-BE";
                   name := "web-worker-client";
                   method := "signIn";
                   message := error;
                   description :=
                     default "" (searchParams_get (ERROR_DESCRIPTION env) (location h)) |})
  /\ happened (snd result) =
       (happened h ++ [Posted (Core GET_CONFIG_DATA); ReceivedPromptNoneResponse;
                       PushedState (location (snd result))])%list
  /\ searchParams_get (ERROR env) (location (snd result)) = None
  /\ searchParams_get (ERROR_DESCRIPTION env) (location (snd result)) = None
  /\ (forall key,
        key <> ERROR env -> key <> ERROR_DESCRIPTION env ->
        searchParams_get key (location (snd result)) = searchParams_get key (location h)).
Proof.
  intros Hc Hp He Ht result. subst result.
  unfold signIn, bind. rewrite getConfigData_eq, Hc. cbn beta iota.
  unfold receivePromptNoneResponse. rewrite Hp. cbn beta iota zeta.
  cbn [location note]. rewrite He. cbn [truthy_opt]. rewrite Ht.
  cbn [fst snd default location with_location note happened].
  split_and!.
  - reflexivity.
  - rewrite <- !app_assoc. reflexivity.
  - destruct (String.eqb (ERROR env) (ERROR_DESCRIPTION env)) eqn:E.
    + apply String.eqb_eq in E. rewrite E. apply searchParams_get_delete_same.
    + apply String.eqb_neq in E.
      rewrite (searchParams_get_delete_other _ _ _ E). apply searchParams_get_delete_same.
  - apply searchParams_get_delete_same.
  - intros key H1 H2.
    rewrite (searchParams_get_delete_other _ _ _ H2).
    apply (searchParams_get_delete_other _ _ _ H1).
Qed.

(** [signIn] for a user who is signed in already: the refresh timer is armed
    and awaited, the liveness check is started when session management is
    on, and the call ends as [getBasicUserInfo] does.  No authorization
    code is read or exchanged and the page stays.  When the timer cannot be
    armed the call is rejected with that failure, before the liveness check
    and before the user is asked for. *)
Theorem signIn_when_authenticated (params : option GetAuthURLConfig)
    (authorizationCode sessionState state : option string) (h : Host)
    (reported : Config) :
  on_GET_CONFIG_DATA (core (worker env)) = Resolved reported ->
  receivePromptNoneResponse_ends env = Resolved false ->
  truthy_opt (searchParams_get (ERROR env) (location h)) = false ->
  on_IS_AUTHENTICATED (worker env) = Resolved true ->
  let result := signIn env params authorizationCode sessionState state h in
  (on_START_AUTO_REFRESH_TOKEN (core (worker env)) = Resolved tt ->
   fst result = on_GET_BASIC_USER_INFO (worker env) /\
   happened (snd result) =
     (happened h ++
      [Posted (Core GET_CONFIG_DATA); ReceivedPromptNoneResponse; Posted IS_AUTHENTICATED;
       Posted (Core START_AUTO_REFRESH_TOKEN)] ++
      (if truthy_flag (enableOIDCSessionManagement reported)
       then [OnPage CheckSession] else []) ++
      [Posted GET_BASIC_USER_INFO])%list)
  /\ (forall error,
        on_START_AUTO_REFRESH_TOKEN (core (worker env)) = Failed error ->
        fst result = Failed error /\
        happened (snd result) =
          (happened h ++
           [Posted (Core GET_CONFIG_DATA); ReceivedPromptNoneResponse;
            Posted IS_AUTHENTICATED; Posted (Core START_AUTO_REFRESH_TOKEN)])%list)
  /\ location (snd result) = location h
  /\ verifiers (snd result) = verifiers h.
Proof.
  intros Hc Hp He Ha result. subst result.
  unfold signIn, bind. rewrite getConfigData_eq, Hc. cbn beta iota.
  unfold receivePromptNoneResponse. rewrite Hp. cbn beta iota zeta.
  cbn [location note]. rewrite He.
  unfold isAuthenticated, communicate. rewrite Ha. cbn beta iota.
  rewrite startAutoRefreshToken_eq.
  split_and!.
  - intros ->. cbn beta iota.
    destruct (truthy_flag (enableOIDCSessionManagement reported));
      unfold act, ret, getBasicUserInfo, communicate; cbn; rewrite <- !app_assoc;
      split; reflexivity.
  - intros error ->. cbn. rewrite <- !app_assoc. split; reflexivity.
  - destruct (on_START_AUTO_REFRESH_TOKEN _) as [[]|r|]; cbn beta iota; try reflexivity.
    destruct (truthy_flag (enableOIDCSessionManagement reported)); reflexivity.
  - destruct (on_START_AUTO_REFRESH_TOKEN _) as [[]|r|]; cbn beta iota; try reflexivity.
    destruct (truthy_flag (enableOIDCSessionManagement reported)); reflexivity.
Qed.



(** [signIn] ends at once, and asks the worker for nothing more, when the
    configuration cannot be read (rejection) and when
    [receivePromptNoneResponse] says so (the empty user); a failure of
    [receivePromptNoneResponse] is the rejection of the call. *)
Theorem signIn_early_endings (params : option GetAuthURLConfig)
    (authorizationCode sessionState state : option string) (h : Host) :
  (forall error,
      on_GET_CONFIG_DATA (core (worker env)) = Failed error ->
      signIn env params authorizationCode sessionState state h =
        (Failed error, note (Posted (Core GET_CONFIG_DATA)) h))
  /\ (forall reported,
        on_GET_CONFIG_DATA (core (worker env)) = Resolved reported ->
        receivePromptNoneResponse_ends env = Resolved true ->
        signIn env params authorizationCode sessionState state h =
          (Resolved empty_user_info,
           note ReceivedPromptNoneResponse (note (Posted (Core GET_CONFIG_DATA)) h)))
  /\ (forall reported error,
        on_GET_CONFIG_DATA (core (worker env)) = Resolved reported ->
        receivePromptNoneResponse_ends env = Failed error ->
        signIn env params authorizationCode sessionState state h =
          (Failed error,
           note ReceivedPromptNoneResponse (note (Posted (Core GET_CONFIG_DATA)) h))).
Proof.
  unfold signIn, bind. rewrite getConfigData_eq. unfold receivePromptNoneResponse.
  split_and!.
  - intros error ->. reflexivity.
  - intros reported -> ->. reflexivity.
  - intros reported error -> ->. reflexivity.
Qed.

Lemma silent_GET_AUTH_URL_eq (h : Host) :
  lift (Client.communicate (GET_AUTH_URL (Some (silent_params env)))
          (on_GET_AUTH_URL (core (worker env)) (Some (silent_params env)))) h =
    (on_GET_AUTH_URL (core (worker env)) (Some (silent_params env)),
     note (Posted (Core (GET_AUTH_URL (Some (silent_params env))))) h).
Proof. reflexivity. Qed.

(** [trySignInSilently] without a wait.  In the iframe the call hands the
    response to the session management helper and resolves with the empty
    user, and no authorization URL is asked for.  In the host page, when the
    authorization URL cannot be had the call is rejected with the worker's
    failure and the iframe is left alone.  When the iframe is not in the
    document the call is rejected with a [TypeError], and the PKCE verifier
    has been stored all the same. *)
Theorem trySignInSilently_without_wait
    (messages : list (Z * option SilentSignIn.WindowMessage)) (h : Host)
    (reported : Config) :
  on_GET_CONFIG_DATA (core (worker env)) = Resolved reported ->
  let h1 := note (Posted (Core GET_CONFIG_DATA)) h in
  let h2 := note (Posted (Core (GET_AUTH_URL (Some (silent_params env))))) h1 in
  (forall stop,
      isInitializedSilentSignIn env = true ->
      receivePromptNoneResponse_ends env = Resolved stop ->
      trySignInSilently env messages h =
        (Resolved (SilentSignIn.UserInfo empty_user_info),
         note ReceivedPromptNoneResponse h1, None))
  /\ (forall error,
        isInitializedSilentSignIn env = false ->
        on_GET_AUTH_URL (core (worker env)) (Some (silent_params env)) = Failed error ->
        trySignInSilently env messages h = (Failed error, h2, None))
  /\ (forall response found,
        isInitializedSilentSignIn env = false ->
        on_GET_AUTH_URL (core (worker env)) (Some (silent_params env)) = Resolved response ->
        state_param env (authorizationURL response) = Some found ->
        promptNoneIFrame h = None ->
        let result := trySignInSilently env messages h in
        fst (fst result) = Failed (Thrown TypeError)
        /\ snd result = None
        /\ (truthy_opt (pkce response) && truthy_flag (enablePKCE reported) = true ->
            verifiers (snd (fst result))
              !! extractPKCEKeyFromStateParam env (default "" found) =
              Some (default "" (pkce response)))).
Proof.
  intros Hc h1 h2.
  unfold trySignInSilently, prepareSilentSignIn.
  rewrite getConfigData_eq, Hc. cbn beta iota. fold h1.
  split_and!.
  - intros stop -> Hp. unfold receivePromptNoneResponse. rewrite Hp. reflexivity.
  - intros error -> Hg. rewrite silent_GET_AUTH_URL_eq, Hg. reflexivity.
  - intros response found -> Hg Hs Hi. cbv zeta.
    rewrite silent_GET_AUTH_URL_eq, Hg. cbn beta iota. rewrite Hs. cbv zeta.
    destruct (truthy_opt (pkce response) && truthy_flag (enablePKCE reported)).
    + cbn. rewrite Hi. cbn. split_and!; try reflexivity.
      intros _. apply lookup_insert_eq.
    + cbn. rewrite Hi. cbn. split_and!; try reflexivity. discriminate.
Qed.

(** [trySignInSilently] in the host page with the iframe in place: the
    verifier is stored under the key of the URL's state when PKCE is on (the
    store is untouched when it is off), the iframe is sent to the
    authorization URL with response mode [query], and the call ends as the
    wait does; with no message on the window it resolves with false. *)
Theorem trySignInSilently_sets_iframe
    (messages : list (Z * option SilentSignIn.WindowMessage)) (h : Host)
    (reported : Config) (response : AuthorizationResponse) (found : option string)
    (old : string) :
  on_GET_CONFIG_DATA (core (worker env)) = Resolved reported ->
  isInitializedSilentSignIn env = false ->
  on_GET_AUTH_URL (core (worker env)) (Some (silent_params env)) = Resolved response ->
  state_param env (authorizationURL response) = Some found ->
  promptNoneIFrame h = Some old ->
  let result := trySignInSilently env messages h in
  let w := SilentSignIn.wait (exchange env) messages in
  fst (fst result) = settled_of (SilentSignIn.promise w)
  /\ snd result = Some w
  /\ promptNoneIFrame (snd (fst result)) =
       Some (with_response_mode_query env (authorizationURL response))
  /\ (truthy_opt (pkce response) && truthy_flag (enablePKCE reported) = true ->
      verifiers (snd (fst result)) =
        <[extractPKCEKeyFromStateParam env (default "" found) := default "" (pkce response)]>
          (verifiers h))
  /\ (truthy_opt (pkce response) && truthy_flag (enablePKCE reported) = false ->
      verifiers (snd (fst result)) = verifiers h)
  /\ (messages = [] -> fst (fst result) = Resolved (SilentSignIn.Bool false)).
Proof.
  intros Hc Hinit Hg Hs Hi result w. subst result w.
  unfold trySignInSilently, prepareSilentSignIn.
  rewrite getConfigData_eq, Hc. cbn beta iota. rewrite Hinit.
  rewrite silent_GET_AUTH_URL_eq, Hg. cbn beta iota. rewrite Hs. cbv zeta.
  destruct (truthy_opt (pkce response) && truthy_flag (enablePKCE reported)).
  - cbn [lift setPKCE snd promptNoneIFrame note page_of log]. rewrite Hi.
    cbn [fst snd promptNoneIFrame verifiers note with_iframe_src pkce_store].
    split_and!; try reflexivity; try discriminate. intros ->. reflexivity.
  - cbn [promptNoneIFrame note]. rewrite Hi.
    cbn [fst snd promptNoneIFrame verifiers note with_iframe_src].
    split_and!; try reflexivity; try discriminate. intros ->. reflexivity.
Qed.

End Facts.

Section Frame.
Variable R : Host -> Host -> Prop.
Hypothesis F : neutral R.
Variable env : Environment.

Lemma keeps_at {A} (m : Op A) (h : Host) : keeps R m -> R h (snd (m h)).
Proof. intros H. apply H. Qed.

Lemma keeps_ret {A} (a : A) : keeps R (ret a).
Proof. intros h. apply (neutral_refl R F). Qed.

Lemma keeps_fail {A} (r : Reason) : keeps R (@fail A r).
Proof. intros h. apply (neutral_refl R F). Qed.

Lemma keeps_act (e : HostEvent) : keeps R (act e).
Proof. intros h. apply (neutral_note R F). Qed.

Lemma keeps_communicate {A} (m : HostMessage) (ending : Settled A) :
  keeps R (communicate m ending).
Proof. intros h. apply (neutral_note R F). Qed.

Lemma keeps_invoke (i : Invocation) (c : Callback) : keeps R (invoke env i c).
Proof. intros h. apply (neutral_note R F). Qed.

Lemma keeps_lift {A} (m : Task A) : keeps R (lift m).
Proof. intros h. apply (neutral_lift R F). Qed.

Lemma keeps_bind {A B} (m : Op A) (k : A -> Op B) :
  keeps R m -> (forall a, keeps R (k a)) -> keeps R (bind m k).
Proof.
  intros Hm Hk h. unfold bind. specialize (Hm h).
  destruct (m h) as [[a|r|] h']; cbn [snd] in *; try exact Hm.
  eapply (neutral_trans R F); [exact Hm|apply Hk].
Qed.

Lemma keeps_getSignOutURL : keeps R (getSignOutURL env).
Proof. intros h. apply (neutral_note R F). Qed.

Lemma keeps_receivePromptNoneResponse : keeps R (receivePromptNoneResponse env).
Proof. intros h. apply (neutral_note R F). Qed.

Lemma keeps_removeAuthorizationCode : keeps R (removeAuthorizationCode env).
Proof.
  intros h. cbn [snd removeAuthorizationCode].
  eapply (neutral_trans R F); [apply (neutral_location R F)|apply (neutral_note R F)].
Qed.

Lemma keeps_http_failed {A} (error : Reason) : keeps R (@http_failed env A error).
Proof.
  intros h. unfold http_failed.
  destruct (_isHttpHandlerEnabled h); [|apply (neutral_refl R F)].
  destruct (httpClientHandlers h) as [handlers|]; [|apply (neutral_refl R F)].
  apply keeps_at.
  apply keeps_bind; [apply keeps_invoke|intros _].
  apply keeps_bind; [apply keeps_invoke|intros _].
  apply keeps_fail.
Qed.

Lemma keeps_httpRequest (request : Json) : keeps R (httpRequest env request).
Proof.
  intros h. unfold httpRequest, communicate.
  destruct (on_HTTP_REQUEST (worker env) request) as [a|r|];
    try apply (neutral_note R F).
  eapply (neutral_trans R F); [apply (neutral_note R F)|apply keeps_http_failed].
Qed.

Lemma keeps_httpRequestAll (requests : list Json) : keeps R (httpRequestAll env requests).
Proof.
  intros h. unfold httpRequestAll, communicate.
  destruct (on_HTTP_REQUEST_ALL (worker env) requests) as [a|r|];
    try apply (neutral_note R F).
  eapply (neutral_trans R F); [apply (neutral_note R F)|apply keeps_http_failed].
Qed.

Lemma keeps_signOutURLProvider : keeps R (signOutURLProvider env).
Proof.
  intros h. unfold signOutURLProvider, communicate.
  destruct (on_SIGN_OUT (worker env)) as [a|r|]; try apply (neutral_note R F).
  eapply (neutral_trans R F); [apply (neutral_note R F)|apply keeps_getSignOutURL].
Qed.

Lemma keeps_revokeAccessToken : keeps R (revokeAccessToken env).
Proof.
  unfold revokeAccessToken.
  apply keeps_bind; [apply keeps_communicate|intros response].
  apply keeps_bind; [apply keeps_act|intros _]. apply keeps_ret.
Qed.

Lemma keeps_checkSession : keeps R (checkSession env).
Proof.
  unfold checkSession.
  apply keeps_bind; [apply keeps_communicate|intros oidcEndpoints].
  apply keeps_bind; [apply keeps_lift|intros reported]. apply keeps_act.
Qed.

Lemma keeps_signOut : keeps R (signOut env).
Proof.
  unfold signOut.
  apply keeps_bind; [apply keeps_communicate|intros response h].
  destruct (response && negb (_getSignOutURLFromSessionStorage h)); apply keeps_at.
  - apply keeps_bind; [apply keeps_communicate|intros url].
    apply keeps_bind; [apply keeps_act|intros _].
    apply keeps_bind; [apply keeps_act|intros _]. apply keeps_ret.
  - apply keeps_bind; [apply keeps_getSignOutURL|intros url].
    apply keeps_bind; [apply keeps_act|intros _].
    apply keeps_bind; [apply keeps_act|intros _]. apply keeps_ret.
Qed.

Lemma keeps_signIn (params : option GetAuthURLConfig)
    (authorizationCode sessionState state : option string) :
  keeps R (signIn env params authorizationCode sessionState state).
Proof.
  unfold signIn.
  apply keeps_bind; [apply keeps_lift|intros reported].
  apply keeps_bind; [apply keeps_receivePromptNoneResponse|intros stop].
  destruct stop; [apply keeps_ret|]. intros h. cbv zeta.
  destruct (truthy_opt (searchParams_get (ERROR env) (location h))).
  { cbn [snd]. eapply (neutral_trans R F);
      [apply (neutral_location R F)|apply (neutral_note R F)]. }
  apply keeps_at.
  apply keeps_bind; [apply keeps_communicate|intros authenticated].
  destruct authenticated.
  { apply keeps_bind; [apply keeps_lift|intros _].
    apply keeps_bind; [|intros _; apply keeps_communicate].
    destruct (truthy_flag (enableOIDCSessionManagement reported));
      [apply keeps_act|apply keeps_ret]. }
  intros h'. cbv zeta. apply keeps_at.
  apply keeps_bind.
  { match goal with |- keeps R (if ?b then _ else _) => destruct b end.
    - apply keeps_ret.
    - apply keeps_bind; [apply keeps_removeAuthorizationCode|intros _]. apply keeps_ret. }
  intros [[code session_state] st].
  destruct (truthy code); [apply keeps_lift|].
  apply keeps_bind; [apply keeps_lift|intros response].
  apply keeps_bind; [apply keeps_act|intros _].
  apply keeps_bind; [apply keeps_act|intros _]. apply keeps_ret.
Qed.

Lemma prepareSilentSignIn_keeps (h : Host) : R h (snd (prepareSilentSignIn env h)).
Proof.
  unfold prepareSilentSignIn.
  pose proof (keeps_lift (Client.getConfigData (core (worker env))) h) as H1.
  fold (getConfigData env) in H1.
  destruct (getConfigData env h) as [[reported|r|] h1]; cbn [snd] in *; try exact H1.
  destruct (isInitializedSilentSignIn env).
  { pose proof (keeps_receivePromptNoneResponse h1) as H2.
    destruct (receivePromptNoneResponse env h1) as [[b|r|] h2]; cbn [snd] in *;
      eapply (neutral_trans R F); eassumption. }
  match goal with |- context [lift ?m h1] => pose proof (keeps_lift m h1) as H2;
    destruct (lift m h1) as [[response|r|] h2] end; cbn [snd] in *;
    try (eapply (neutral_trans R F); eassumption).
  destruct (state_param env (authorizationURL response)) as [found|]; cbn [snd];
    [|eapply (neutral_trans R F); eassumption].
  cbv zeta.
  match goal with |- context [promptNoneIFrame ?h3] =>
    assert (R h h3) as H3; [|destruct (promptNoneIFrame h3); cbn [snd]] end.
  - destruct (truthy_opt (pkce response) && truthy_flag (enablePKCE reported)).
    + eapply (neutral_trans R F); [exact H1|].
      eapply (neutral_trans R F); [exact H2|apply keeps_lift].
    + eapply (neutral_trans R F); eassumption.
  - eapply (neutral_trans R F); [exact H3|].
    eapply (neutral_trans R F); [apply (neutral_iframe R F)|apply (neutral_note R F)].
  - exact H3.
Qed.

Lemma trySignInSilently_keeps (messages : list (Z * option SilentSignIn.WindowMessage))
    (h : Host) :
  R h (snd (fst (trySignInSilently env messages h))).
Proof.
  unfold trySignInSilently. pose proof (prepareSilentSignIn_keeps h) as H.
  destruct (prepareSilentSignIn env h) as [[ending|] h']; exact H.
Qed.

Lemma on_notification_keeps (n : Notification) (h : Host) : R h (on_notification n h).
Proof.
  unfold on_notification.
  destruct (worker_onmessage h); [|apply (neutral_refl R F)].
  destruct (httpClientHandlers h) as [handlers|]; [|apply (neutral_refl R F)].
  destruct n as [| |data|type]; try apply (neutral_note R F);
    try apply (neutral_refl R F).
  destruct (Channel.parse_or_null data); apply (neutral_note R F).
Qed.

(** The calls that only take steps every relation of this kind respects. *)
Lemma perform_neutral (c : Call) (h : Host) :
  match c with
  | Call_initialize | Call_enableHttpHandler | Call_disableHttpHandler
  | Call_requestCustomGrant _
  | Call_setHttpRequestSuccessCallback _ | Call_setHttpRequestErrorCallback _
  | Call_setHttpRequestStartCallback _ | Call_setHttpRequestFinishCallback _ => True
  | _ => R h (perform env c h)
  end.
Proof.
  destruct c; cbn [perform]; try exact I.
  - apply keeps_httpRequest.
  - apply keeps_httpRequestAll.
  - apply keeps_signIn.
  - apply trySignInSilently_keeps.
  - apply keeps_lift.
  - apply keeps_lift.
  - apply keeps_signOut.
  - apply keeps_revokeAccessToken.
  - apply keeps_communicate.
  - apply keeps_lift.
  - apply keeps_communicate.
  - apply keeps_communicate.
  - apply keeps_communicate.
  - apply keeps_communicate.
  - apply keeps_communicate.
  - apply keeps_communicate.
  - apply keeps_lift.
  - apply keeps_lift.
  - apply keeps_checkSession.
  - apply keeps_signOutURLProvider.
  - apply on_notification_keeps.
Qed.

End Frame.

Lemma kept_neutral : neutral kept.
Proof.
  split; unfold kept.
  - intros h. tauto.
  - intros h1 h2 h3. tauto.
  - intros e h. cbn. tauto.
  - intros A m h. unfold lift. destruct (m (page_of h)). cbn. tauto.
  - intros l h. cbn. tauto.
  - intros url h. cbn. tauto.
Qed.

Lemma same_switch_neutral : neutral same_switch.
Proof.
  split; unfold same_switch.
  - reflexivity.
  - intros h1 h2 h3 H1 H2. congruence.
  - reflexivity.
  - intros A m h. unfold lift. destruct (m (page_of h)). reflexivity.
  - reflexivity.
  - reflexivity.
Qed.

Lemma set_handler_kept (update : Callback -> HttpClient -> HttpClient)
    (callback : option Callback) (h : Host) :
  kept h (after_setter (set_handler update callback h) h)
  /\ same_switch h (after_setter (set_handler update callback h) h).
Proof.
  unfold set_handler, kept, same_switch.
  destruct callback as [c|]; [|cbn; tauto].
  destruct (httpClientHandlers h) as [handlers|] eqn:E; cbn; rewrite ?E; [|tauto].
  split_and!; try tauto. intros _. eexists. reflexivity.
Qed.

Lemma perform_kept (env : Environment) (c : Call) (h : Host) : kept h (perform env c h).
Proof.
  pose proof (perform_neutral kept kept_neutral env c h) as H.
  destruct c; try exact H; cbn [perform]; clear H.
  - unfold initialize, bind, communicate, ret, kept.
    destruct (httpClientHandlers h) as [handlers|] eqn:E, (on_INIT _ _);
      cbn; rewrite ?E; split_and!; try tauto; intros _; eexists; reflexivity.
  - unfold enableHttpHandler, bind, communicate, kept.
    destruct (on_ENABLE_HTTP_HANDLER _); cbn; tauto.
  - unfold disableHttpHandler, bind, communicate, kept.
    destruct (on_DISABLE_HTTP_HANDLER _); cbn; tauto.
  - unfold requestCustomGrant, bind, communicate, kept.
    destruct (on_REQUEST_CUSTOM_GRANT _ _); cbn; try tauto.
    destruct (truthy_flag _); cbn; tauto.
  - apply set_handler_kept.
  - apply set_handler_kept.
  - apply set_handler_kept.
  - apply set_handler_kept.
Qed.

Lemma perform_same_switch (env : Environment) (c : Call) (h : Host) :
  is_switch c = false -> same_switch h (perform env c h).
Proof.
  intros Hc.
  pose proof (perform_neutral same_switch same_switch_neutral env c h) as H.
  destruct c; try exact H; try discriminate Hc; cbn [perform]; clear H.
  - unfold initialize, bind, communicate, ret, same_switch.
    destruct (httpClientHandlers h), (on_INIT _ _); reflexivity.
  - unfold requestCustomGrant, bind, communicate, same_switch.
    destruct (on_REQUEST_CUSTOM_GRANT _ _); cbn; try reflexivity.
    destruct (truthy_flag _); reflexivity.
  - apply set_handler_kept.
  - apply set_handler_kept.
  - apply set_handler_kept.
  - apply set_handler_kept.
Qed.

Lemma calls_kept (cs : list (Environment * Call)) (h : Host) : kept h (calls cs h).
Proof.
  unfold calls. revert h. induction cs as [|[env c] cs IH]; intros h; cbn [fold_left fst snd].
  - apply (neutral_refl kept kept_neutral).
  - eapply (neutral_trans kept kept_neutral); [apply (perform_kept env c h)|apply IH].
Qed.

(** Whatever is called on the client, in whatever order and whatever the
    worker answers: [_getSignOutURLFromSessionStorage] is never cleared once
    set, the HTTP handlers are never taken away once installed, and the
    notification handler stays on the worker. *)
Theorem client_never_resets (cs : list (Environment * Call)) (h : Host) :
  (_getSignOutURLFromSessionStorage h = true ->
   _getSignOutURLFromSessionStorage (calls cs h) = true)
  /\ (is_Some (httpClientHandlers h) -> is_Some (httpClientHandlers (calls cs h)))
  /\ (worker_onmessage h = true -> worker_onmessage (calls cs h) = true).
Proof. exact (calls_kept cs h). Qed.

(** Only [enableHttpHandler] and [disableHttpHandler] move the switch of
    the HTTP handlers: after any calls without these two it is as before. *)
Theorem only_switch_calls_move_switch (cs : list (Environment * Call)) (h : Host) :
  forallb (fun ec => negb (is_switch (snd ec))) cs = true ->
  _isHttpHandlerEnabled (calls cs h) = _isHttpHandlerEnabled h.
Proof.
  unfold calls. revert h.
  induction cs as [|[env c] cs IH]; intros h Hcs; cbn [fold_left fst snd]; [reflexivity|].
  cbn in Hcs. apply andb_prop in Hcs as [Hc Hcs].
  rewrite (IH _ Hcs). apply perform_same_switch.
  destruct (is_switch c); [discriminate Hc|reflexivity].
Qed.

(** One successful custom grant that asks to keep the sign-out URL decides
    every later [signOut] of the client: whatever is called in between
    (another sign-in included), [signOut] sends no [SIGN_OUT] message, also
    for an authenticated user, and takes the page to the stored URL. *)
Theorem custom_grant_decides_every_signOut (env : Environment) (requestParams : CustomGrant)
    (response : GrantResult) (cs : list (Environment * Call)) (env' : Environment)
    (authenticated : bool) (h : Host) :
  on_REQUEST_CUSTOM_GRANT (worker env) requestParams = Resolved response ->
  truthy_flag (preventSignOutURLUpdate requestParams) = true ->
  on_IS_AUTHENTICATED (worker env') = Resolved authenticated ->
  let h' := calls cs (snd (requestCustomGrant env requestParams h)) in
  signOut env' h' =
    (Resolved true,
     note WaitedTillPageRedirect
       (note (Navigated (default (no_sign_out_url env') (signOutURL h')))
          (note ReadSignOutURL (note (Posted IS_AUTHENTICATED) h')))).
Proof.
  intros Hg Hp Ha h'. apply (signOut_stored env' h' authenticated Ha). right.
  subst h'. apply calls_kept.
  unfold requestCustomGrant, bind, communicate. rewrite Hg, Hp. reflexivity.
Qed.

End HostFacts.

(** ** PKCE and the two configurations *)

Module PkceFacts.
Import JS Models Client.

Section Calls.
Variable extractPKCEKeyFromStateParam : string -> string.
Variable state_param : string -> option (option string).
Variable config : Config.
Variable worker : Worker.

#[local] Abbreviation getAuthorizationURL :=
  (Client.getAuthorizationURL extractPKCEKeyFromStateParam state_param config worker).
#[local] Abbreviation requestAccessToken :=
  (Client.requestAccessToken extractPKCEKeyFromStateParam worker).

Lemma token_request_sent (code session_state state : string) (p : Page) (reported : Config) :
  on_GET_CONFIG_DATA worker = Resolved reported ->
  In (Sent (REQUEST_ACCESS_TOKEN
              (token_request extractPKCEKeyFromStateParam reported p code session_state state)))
     (events (snd (requestAccessToken code session_state state p))).
Proof.
  intros Hc.
  destruct (ClientFacts.requestAccessToken_events extractPKCEKeyFromStateParam worker
              code session_state state p reported Hc) as [rest ->].
  rewrite ClientFacts.page_at_token_request_events.
  apply in_or_app. left. apply in_or_app. right. apply in_or_app. right. left. reflexivity.
Qed.

(** [getAuthorizationURL] decides on PKCE by the configuration the client
    was made with, [requestAccessToken] by the one the worker reports.
    When they differ the token request carries no verifier: with PKCE off in
    the client's configuration nothing was stored for the request to find,
    and with PKCE off in the reported one the stored verifier is neither
    read nor removed and is still in the store after the exchange. *)
Theorem pkce_needs_both_configurations (params : option GetAuthURLConfig) (p : Page)
    (response : AuthorizationResponse) (verifier found code session_state : string)
    (reported : Config) :
  on_GET_AUTH_URL worker params = Resolved response ->
  pkce response = Some verifier -> truthy verifier = true ->
  state_param (authorizationURL response) = Some (Some found) ->
  on_GET_CONFIG_DATA worker = Resolved reported ->
  pkce_store p !! extractPKCEKeyFromStateParam found = None ->
  let p1 := snd (getAuthorizationURL params p) in
  let p2 := snd (requestAccessToken code session_state found p1) in
  let without_verifier :=
    Sent (REQUEST_ACCESS_TOKEN
            {| info_code := code;
               info_pkce := None;
               info_sessionState := session_state;
               info_state := found |}) in
  (truthy_flag (enablePKCE config) = false ->
   truthy_flag (enablePKCE reported) = true ->
   pkce_store p1 = pkce_store p /\ In without_verifier (events p2))
  /\ (truthy_flag (enablePKCE config) = true ->
      truthy_flag (enablePKCE reported) = false ->
      In without_verifier (events p2) /\
      pkce_store p2 !! extractPKCEKeyFromStateParam found = Some verifier).
Proof.
  intros Hg Hpk Hv Hs Hc Hnone p1 p2 without_verifier.
  pose proof (token_request_sent code session_state found p1 reported Hc) as Hsent.
  fold p2 in Hsent. unfold token_request in Hsent.
  assert (truthy_flag (enablePKCE config) = false -> pkce_store p1 = pkce_store p) as Hoff.
  { intros Hoff. subst p1. unfold Client.getAuthorizationURL, bind, communicate.
    rewrite Hg. cbn. rewrite Hoff, andb_false_r. reflexivity. }
  assert (truthy_flag (enablePKCE config) = true ->
          pkce_store p1 = <[extractPKCEKeyFromStateParam found := verifier]> (pkce_store p))
    as Hon.
  { intros Hon. subst p1. unfold Client.getAuthorizationURL, bind, communicate.
    rewrite Hg. cbn. rewrite Hpk, Hon. cbn. rewrite Hv, Hs. reflexivity. }
  split; intros Hconfig Hreported.
  - split; [exact (Hoff Hconfig)|].
    rewrite Hreported, (Hoff Hconfig), Hnone in Hsent. exact Hsent.
  - rewrite Hreported in Hsent. split; [exact Hsent|].
    subst p2.
    rewrite (ClientFacts.requestAccessToken_store extractPKCEKeyFromStateParam worker
               code session_state found p1 reported Hc).
    rewrite ClientFacts.page_at_token_request_store, Hreported, (Hon Hconfig).
    apply lookup_insert_eq.
Qed.

End Calls.
End PkceFacts.

(** ** Closed instances *)

Module SPAHelperRuns.
Import JS SPAHelper SPAHelperFacts Samples.Helper.

(** C4 as stated fails: two calls of [refreshAccessTokenAutomatically] in a
    row arm two timers, and no [clearTimeout] is ever called. *)
Lemma two_schedules_two_timers :
  let w1 := snd (refreshAccessTokenAutomatically timer_key (fresh hour_session)) in
  let w2 := snd (refreshAccessTokenAutomatically timer_key w1) in
  armed w2 = {[ 1 := Int 3590000; 2 := Int 3590000 ]} /\
  size (armed w2) = 2%nat /\
  existsb is_ClearTimeout (trace w2) = false.
Proof. vm_compute. repeat split; reflexivity. Qed.

(** Two restarts that cancel first: the first timer is gone when the second
    is armed. *)
Lemma one_refresh_timer_when_cancelled_first_run :
  let restart w :=
    snd (refreshAccessTokenAutomatically timer_key
           (snd (clearRefreshTokenTimeout timer_key None w))) in
  let w2 := restart (restart (fresh hour_session)) in
  cancels_first timer_key w2 /\
  (size (armed w2) <= 1)%nat /\
  armed w2 = {[ 2 := Int 3590000 ]}.
Proof.
  intros restart w2.
  assert (Hw : cancels_first timer_key w2) by (do 2 apply cf_restart; apply cf_fresh).
  split; [exact Hw|]. split.
  - exact (proj1 (one_refresh_timer_when_cancelled_first timer_key w2 Hw)).
  - vm_compute. reflexivity.
Defined.

Lemma refreshAccessTokenAutomatically_schedules_run :
  let w := fresh (session_of "100" (Some "rt")) in
  let w' := fresh (session_of "100" None) in
  truthy_opt (refresh_token (session w)) = true /\
  parseInt (expires_in (session w)) = Int 100 /\
  snd (refreshAccessTokenAutomatically timer_key w) =
    {| session := session w;
       temporary_data := {[ timer_key := JSON_stringify (JNum 1) ]};
       armed := {[ 1 := Int 90000 ]};
       next_handle := 2;
       trace := [GetSessionData; SetTimeout 1 (Int 90000);
                 SetTemporaryDataParameter timer_key (JSON_stringify (JNum 1))] |} /\
  truthy_opt (refresh_token (session w')) = false /\
  refreshAccessTokenAutomatically timer_key w' = (Returned tt, record GetSessionData w').
Proof.
  intros w w'.
  destruct (refreshAccessTokenAutomatically_schedules timer_key w) as [H _].
  destruct (refreshAccessTokenAutomatically_schedules timer_key w') as (_ & H' & _).
  split; [reflexivity|]. split; [reflexivity|]. split.
  - rewrite (H 100 eq_refl eq_refl). reflexivity.
  - split; [reflexivity|]. exact (H' eq_refl).
Defined.

Lemma clearRefreshTokenTimeout_cancels_run :
  armed (snd (clearRefreshTokenTimeout timer_key (Some 7) armed_world)) = ∅ /\
  trace (snd (clearRefreshTokenTimeout timer_key (Some 7) armed_world)) =
    [ClearTimeout (JNum 7)] /\
  armed (snd (clearRefreshTokenTimeout timer_key None armed_world)) = ∅ /\
  clearRefreshTokenTimeout timer_key None sentinel_world =
    (Returned tt,
     record (GetTemporaryDataParameter timer_key)
       (record (GetTemporaryDataParameter timer_key) sentinel_world)) /\
  clearRefreshTokenTimeout timer_key None (fresh hour_session) =
    (Returned tt, record (GetTemporaryDataParameter timer_key) (fresh hour_session)) /\
  fst (getRefreshTimeoutTimer timer_key armed_world) = Returned (JNum 7) /\
  fst (getRefreshTimeoutTimer timer_key (fresh hour_session)) = Returned (JNum (-1)).
Proof.
  destruct (clearRefreshTokenTimeout_cancels timer_key armed_world)
    as (Hexplicit & Hstored & _ & _ & Hget & _).
  destruct (clearRefreshTokenTimeout_cancels timer_key sentinel_world)
    as (_ & _ & Hsentinel & _).
  destruct (clearRefreshTokenTimeout_cancels timer_key (fresh hour_session))
    as (_ & _ & _ & Hnone & _ & Hget0).
  split_and!.
  - rewrite (Hexplicit 7) by discriminate. reflexivity.
  - rewrite (Hexplicit 7) by discriminate. reflexivity.
  - rewrite (Hstored 7 eq_refl) by discriminate. reflexivity.
  - exact (Hsentinel eq_refl).
  - exact (Hnone eq_refl).
  - exact (Hget 7 eq_refl).
  - exact (Hget0 eq_refl).
Defined.

End SPAHelperRuns.

Module ChannelRuns.
Import JS Models Channel ChannelFacts Samples.

Lemma communicate_timeout_run :
  _requestTimeout (config_of None) = 60000 /\
  0 <= _requestTimeout (config_of (Some 1500)) <= MAX_DELAY /\
  promise (communicate (config_of None) "GET_ID_TOKEN" []) =
    Rejected (Exc (timeout_exception (config_of None))) /\
  description (timeout_exception (config_of None)) =
    "No response was received from the web worker for 60 since dispatching the request" /\
  description (timeout_exception (config_of (Some 1500))) =
    "No response was received from the web worker for 1.5 since dispatching the request" /\
  (exists tail,
     steps (communicate (config_of None) "GET_ID_TOKEN" [(5, ok_message)]) =
       ([PostMessage "GET_ID_TOKEN"; SetTimeout 60000; ClearTimeout] ++ tail)%list /\
     existsb is_TimerFired tail = false) /\
  promise (communicate (config_of None) "GET_ID_TOKEN" [(5, ok_message)]) =
    Fulfilled (Plain (JObj [("status", JNum 200)])).
Proof.
  destruct (communicate_timeout (config_of None) "GET_ID_TOKEN" []) as (Hd & _ & Hlate & _).
  destruct (communicate_timeout (config_of (Some 1500)) "GET_ID_TOKEN" [])
    as (_ & _ & Hlate' & _).
  destruct (communicate_timeout (config_of None) "GET_ID_TOKEN" [(5, ok_message)])
    as (_ & _ & _ & Hearly).
  pose proof (proj2 (Hd eq_refl)) as Hrange.
  assert (Hrange' : 0 <= _requestTimeout (config_of (Some 1500)) <= MAX_DELAY).
  { split; discriminate. }
  split_and!.
  - exact (proj1 (Hd eq_refl)).
  - exact (proj1 Hrange').
  - exact (proj2 Hrange').
  - exact (proj1 (Hlate Hrange (Forall_nil_2 _))).
  - rewrite (proj2 (proj2 (Hlate Hrange (Forall_nil_2 _)))). reflexivity.
  - rewrite (proj2 (proj2 (Hlate' Hrange' (Forall_nil_2 _)))). reflexivity.
  - exact (proj2 (Hearly Hrange 5 ok_message [] eq_refl eq_refl)).
  - reflexivity.
Defined.

Lemma communicate_first_response_run :
  promise (communicate (config_of None) "HTTP_REQUEST"
             [(5, Some {| success := true;
                          data := Some (JSON_stringify (JObj [("status", JNum 200)]));
                          blob := Some sample_blob;
                          error := None |});
              (70000, ok_message)]) =
    Fulfilled (WithBlob (JObj [("status", JNum 200)]) sample_blob) /\
  promise (communicate (config_of None) "HTTP_REQUEST"
             [(5, Some {| success := false; data := None; blob := None; error := None |})]) =
    Rejected (Remote JNull).
Proof.
  split.
  - eapply communicate_first_response; try reflexivity.
    + split; discriminate.
    + left. eexists. reflexivity.
  - eapply communicate_first_response; try reflexivity. split; discriminate.
Defined.

End ChannelRuns.

Module ClientRuns.
Import JS Models Client ClientFacts Samples.

Lemma pkce_verifier_single_use_run :
  let reported := config_with None None in
  let worker := worker_with reported (Resolved "https://idp.example/logout") in
  let p1 := snd (getAuthorizationURL extract_key state_of_url reported worker None blank_page) in
  let p2 := snd (requestAccessToken extract_key worker "code" "ss" "request_0" p1) in
  pkce_store p1 = {[ "pkce_code_verifier_request_0" := "verifier" ]} /\
  pkce_store p2 = ∅ /\
  fst (getPKCE "pkce_code_verifier_request_0" p2) = Resolved None /\
  In (Sent (REQUEST_ACCESS_TOKEN
              {| info_code := "code";
                 info_pkce := Some "verifier";
                 info_sessionState := "ss";
                 info_state := "request_0" |}))
     (events p2).
Proof.
  intros reported worker p1 p2.
  destruct (pkce_verifier_single_use extract_key state_of_url reported worker)
    as (Hstore & Huse & Hchain).
  destruct (Hstore None blank_page _ "verifier" (Some "request_0")
              eq_refl eq_refl eq_refl eq_refl eq_refl) as (_ & Hp1 & _).
  assert (Hv : pkce_store p1 !! extract_key "request_0" = Some "verifier").
  { subst p1. rewrite Hp1. reflexivity. }
  destruct (Huse "code" "ss" "request_0" p1 reported "verifier" eq_refl eq_refl Hv)
    as (_ & Hp2 & Hget).
  destruct (Hchain None blank_page _ "verifier" "request_0" "code" "ss" reported
              eq_refl eq_refl eq_refl eq_refl eq_refl eq_refl eq_refl)
    as (_ & Hsent & _).
  split_and!.
  - subst p1. rewrite Hp1. reflexivity.
  - subst p2. rewrite Hp2. subst p1. rewrite Hp1. reflexivity.
  - exact Hget.
  - exact Hsent.
Defined.

Lemma requestAccessToken_needs_sign_out_url_run :
  let reported := config_with (Some true) None in
  let worker := worker_with reported (Failed rejection) in
  fst (requestAccessToken extract_key worker "code" "ss" "request_0" blank_page) =
    Failed rejection /\
  sign_out_url (snd (requestAccessToken extract_key worker "code" "ss" "request_0" blank_page))
    = None /\
  existsb is_follow_up
    (events (snd (requestAccessToken extract_key worker "code" "ss" "request_0" blank_page)))
    = false.
Proof.
  intros reported worker.
  destruct (requestAccessToken_needs_sign_out_url extract_key worker
              "code" "ss" "request_0" blank_page) as [Hfail _].
  destruct (Hfail reported user rejection eq_refl eq_refl eq_refl)
    as (Hr & Hu & new & Hev & Hnew).
  split_and!.
  - exact Hr.
  - exact Hu.
  - rewrite Hev. exact Hnew.
Defined.

(** C8 as stated fails: the check-session iframe URL changes, OIDC session
    management is not enabled, and the liveness check is neither reset nor
    started again. *)
Lemma updateConfig_changed_url_without_session_management :
  let existing := config_with None (Some "https://idp.example/a") in
  let newConfig := partial_config (Some "https://idp.example/b") in
  let worker := worker_with existing (Resolved "https://idp.example/logout") in
  iframe_url existing = Some "https://idp.example/a" /\
  iframe_url (merge existing newConfig) = Some "https://idp.example/b" /\
  updateConfig worker newConfig blank_page =
    (Resolved tt,
     {| pkce_store := ∅;
        sign_out_url := None;
        events := [Sent GET_CONFIG_DATA; Sent (UPDATE_CONFIG (merge existing newConfig))] |}) /\
  existsb is_liveness_restart (events (snd (updateConfig worker newConfig blank_page))) = false.
Proof. repeat split. Qed.

(** With session management enabled, a partial configuration that says
    nothing about the endpoints restarts the check although the URL is the
    same before and after. *)
Example updateConfig_without_endpoints_restarts :
  let existing := config_with (Some true) (Some "https://idp.example/a") in
  let newConfig := partial_config None in
  let worker := worker_with existing (Resolved "https://idp.example/logout") in
  iframe_url (merge existing newConfig) = iframe_url existing /\
  events (snd (updateConfig worker newConfig blank_page)) =
    [Sent GET_CONFIG_DATA; Sent (UPDATE_CONFIG (merge existing newConfig));
     ResetSessionManagement; CheckSession].
Proof. split; reflexivity. Qed.

Lemma updateConfig_restarts_liveness_check_run :
  let existing := config_with (Some true) (Some "https://idp.example/a") in
  let worker := worker_with existing (Resolved "https://idp.example/logout") in
  events (snd (updateConfig worker (partial_config (Some "https://idp.example/b")) blank_page)) =
    [Sent GET_CONFIG_DATA;
     Sent (UPDATE_CONFIG (merge existing (partial_config (Some "https://idp.example/b"))));
     ResetSessionManagement; CheckSession] /\
  events (snd (updateConfig worker (partial_config (Some "https://idp.example/a")) blank_page)) =
    [Sent GET_CONFIG_DATA;
     Sent (UPDATE_CONFIG (merge existing (partial_config (Some "https://idp.example/a"))))].
Proof.
  intros existing worker.
  destruct (updateConfig_restarts_liveness_check worker
              (partial_config (Some "https://idp.example/b")) blank_page
              existing eq_refl eq_refl) as (restart & Hrun & _ & Hiff).
  destruct (updateConfig_restarts_liveness_check worker
              (partial_config (Some "https://idp.example/a")) blank_page
              existing eq_refl eq_refl) as (restart' & Hrun' & _ & Hiff').
  split.
  - rewrite Hrun. cbn [snd events].
    assert (restart = true) as ->.
    { apply (Hiff eq_refl "https://idp.example/a" "https://idp.example/b" eq_refl eq_refl).
      discriminate. }
    reflexivity.
  - rewrite Hrun'. cbn [snd events].
    assert (restart' = false) as ->.
    { destruct restart'; [|reflexivity].
      destruct (proj1 (Hiff' eq_refl "https://idp.example/a" "https://idp.example/a"
                         eq_refl eq_refl) eq_refl eq_refl). }
    reflexivity.
Defined.

End ClientRuns.

Module SilentSignInRuns.
Import JS Models Client SilentSignIn SilentSignInFacts Samples.

(** The signed-in signal arrives after 100 ms, the exchange succeeds but
    takes 12 seconds: the promise has resolved to false at the ceiling. *)
Lemma trySignInSilently_slow_exchange_run :
  exchange_taking 12000 good_worker 100 signal_payload = (12000, Resolved user) /\
  wait (exchange_taking 12000 good_worker) [(100, signedIn signal_payload)] =
    {| promise := Fulfilled (Bool false);
       timer := false;
       listening := false;
       in_flight := [];
       steps := [SetTimeout 10000; AddEventListener; RequestAccessToken signal_payload;
                 TimerFired; Resolve (Bool false);
                 RemoveEventListener; Resolve (UserInfo user); ClearTimeout] |}.
Proof.
  split; [reflexivity|].
  apply (proj1 (trySignInSilently_slow_exchange (exchange_taking 12000 good_worker)
                  [] 100 (signedIn signal_payload) signal_payload 12000 (Resolved user)
                  (Forall_nil_2 _) eq_refl eq_refl eq_refl eq_refl) user).
  reflexivity.
Defined.

Lemma trySignInSilently_wait_run :
  promise (wait (exchange_taking 500 good_worker) [(10500, signedOut)]) =
    Fulfilled (Bool false) /\
  promise (wait (exchange_taking 500 good_worker)
             [(50, Some {| type := OtherType "ping"; payload := None |}); (100, signedOut)]) =
    Fulfilled (Bool false) /\
  promise (wait (exchange_taking 500 good_worker) [(100, signedIn signal_payload)]) =
    Fulfilled (UserInfo user) /\
  promise (wait (exchange_taking 500 bad_worker) [(100, signedIn signal_payload)]) =
    Rejected rejection.
Proof.
  split_and!.
  - destruct (trySignInSilently_wait (exchange_taking 500 good_worker)
                [(10500, signedOut)]) as (Hnone & _).
    apply Hnone. repeat constructor. cbn. unfold ceiling. lia.
  - destruct (trySignInSilently_wait (exchange_taking 500 good_worker)
                [(50, Some {| type := OtherType "ping"; payload := None |}); (100, signedOut)])
      as (_ & Hout & _).
    rewrite (Hout [(50, Some {| type := OtherType "ping"; payload := None |})]
               100 signedOut [] eq_refl).
    + reflexivity.
    + repeat constructor.
    + reflexivity.
    + reflexivity.
  - destruct (trySignInSilently_wait (exchange_taking 500 good_worker)
                [(100, signedIn signal_payload)]) as (_ & _ & Hin).
    destruct (Hin [] 100 (signedIn signal_payload) [] signal_payload 500 (Resolved user)
                eq_refl (Forall_nil_2 _) eq_refl eq_refl eq_refl eq_refl (Forall_nil_2 _))
      as [Hok _].
    rewrite (Hok user eq_refl). reflexivity.
  - destruct (trySignInSilently_wait (exchange_taking 500 bad_worker)
                [(100, signedIn signal_payload)]) as (_ & _ & Hin).
    destruct (Hin [] 100 (signedIn signal_payload) [] signal_payload 500 (Failed rejection)
                eq_refl (Forall_nil_2 _) eq_refl eq_refl eq_refl eq_refl (Forall_nil_2 _))
      as [_ Hfail].
    rewrite (Hfail rejection eq_refl). reflexivity.
Defined.

(** While an exchange is under way the listener stays registered: a second
    signed-in signal starts a second exchange, and [removeEventListener] is
    called once for each. *)
Example two_signals_two_exchanges :
  steps (wait (exchange_taking 500 good_worker)
           [(100, signedIn signal_payload); (200, signedIn signal_payload)]) =
    [SetTimeout 10000; AddEventListener;
     RequestAccessToken signal_payload; RequestAccessToken signal_payload;
     RemoveEventListener; Resolve (UserInfo user); ClearTimeout;
     RemoveEventListener; Resolve (UserInfo user); ClearTimeout].
Proof. reflexivity. Qed.

(** After the ceiling the listener left behind still reacts: a late
    signed-in signal starts an exchange for a promise that is already
    resolved to false. *)
Example late_signal_after_ceiling :
  wait (exchange_taking 500 good_worker) [(10500, signedIn signal_payload)] =
    {| promise := Fulfilled (Bool false);
       timer := false;
       listening := false;
       in_flight := [];
       steps := [SetTimeout 10000; AddEventListener; TimerFired; Resolve (Bool false);
                 RequestAccessToken signal_payload;
                 RemoveEventListener; Resolve (UserInfo user); ClearTimeout] |}.
Proof. reflexivity. Qed.

End SilentSignInRuns.

Module SPAHelperUseRuns.
Import JS SPAHelper SPAHelperUse SPAHelperUseFacts Samples.Helper.

(** Timer 7 is armed and persisted; a scheduling arms timer 8 beside it, a
    cancellation takes 8 away again and leaves 7. *)
Lemma schedule_lookup_cancel_run :
  let w1 := snd (refreshAccessTokenAutomatically timer_key armed_world) in
  armed w1 = {[ 7 := Int 3590000; 8 := Int 3590000 ]} /\
  fst (getRefreshTimeoutTimer timer_key w1) = Returned (JNum 8) /\
  armed (snd (clearRefreshTokenTimeout timer_key None w1)) = {[ 7 := Int 3590000 ]}.
Proof.
  intros w1.
  destruct (schedule_lookup_cancel timer_key armed_world eq_refl eq_refl eq_refl)
    as (_ & Hget & _ & Hback).
  split_and!.
  - vm_compute. reflexivity.
  - exact Hget.
  - subst w1. rewrite Hback. reflexivity.
Defined.

Lemma schedules_accumulate_run :
  size (armed (schedule_times timer_key 5 (fresh hour_session))) = 5%nat.
Proof.
  rewrite (schedules_accumulate timer_key 5 (fresh hour_session)).
  - reflexivity.
  - split; [reflexivity|]. intros h d Hh. cbn in Hh. rewrite lookup_empty in Hh.
    discriminate.
  - reflexivity.
Defined.

(** The timer is scheduled and fires; nothing is armed, and the stale handle
    1 is still what [getRefreshTimeoutTimer] returns. *)
Lemma persisted_handle_never_reset_run :
  let w1 := snd (refreshAccessTokenAutomatically timer_key (fresh hour_session)) in
  let w2 := fire 1 w1 in
  armed w2 = ∅ /\
  exists h, 0 < h /\ fst (getRefreshTimeoutTimer timer_key w2) = Returned (JNum h).
Proof.
  intros w1 w2. split; [vm_compute; reflexivity|].
  apply (persisted_handle_never_reset timer_key w1 w2).
  - split; [reflexivity|]. exists 1. split; reflexivity.
  - apply rtc_once. apply step_fire.
Defined.

End SPAHelperUseRuns.

Module MoreRuns.
Import JS Models Channel Client SilentSignIn Samples MoreSamples.
Import ChannelMoreFacts UpdateConfigFacts SilentSignInMoreFacts.

Lemma communicate_settles_unless_handler_throws_run :
  Channel.promise (Channel.communicate (config_of None) "GET_ID_TOKEN" [(70000, ok_message)])
    <> Pending /\
  Channel.promise (Channel.communicate (config_of None) "GET_ID_TOKEN"
                     [(5, not_json); (9, None)]) = Pending.
Proof.
  split.
  - apply (communicate_settles_unless_handler_throws (config_of None) "GET_ID_TOKEN"
             [(70000, ok_message)]).
    repeat constructor. cbn. discriminate.
  - eapply (communicate_settles_unless_handler_throws (config_of None) "GET_ID_TOKEN"
              [(5, not_json); (9, None)]).
    + split; discriminate.
    + reflexivity.
    + reflexivity.
    + repeat constructor; eexists; reflexivity.
Defined.

Lemma updateConfig_restarts_without_url_run :
  let existing := config_with (Some true) (Some "https://idp.example/a") in
  let worker := worker_with existing (Resolved "https://idp.example/logout") in
  events (snd (updateConfig worker (partial_config None) blank_page)) =
    [Sent GET_CONFIG_DATA; Sent (UPDATE_CONFIG (merge existing (partial_config None)));
     ResetSessionManagement; CheckSession] /\
  iframe_url (merge existing (partial_config None)) = Some "https://idp.example/a".
Proof.
  intros existing worker.
  destruct (updateConfig_restarts_without_url worker (partial_config None) blank_page
              existing eq_refl eq_refl eq_refl (or_intror eq_refl)) as [Hev Hurl].
  split; [exact Hev|]. rewrite (Hurl eq_refl). reflexivity.
Defined.

Lemma updateConfig_failure_run :
  let existing := config_with (Some true) (Some "https://idp.example/a") in
  let newConfig := partial_config (Some "https://idp.example/b") in
  fst (updateConfig (refusing_worker existing) newConfig blank_page) = Failed rejection /\
  existsb is_liveness_restart
    (events (snd (updateConfig (refusing_worker existing) newConfig blank_page))) = false.
Proof.
  intros existing newConfig.
  destruct (updateConfig_failure (refusing_worker existing) newConfig blank_page) as [_ H].
  rewrite (H existing rejection eq_refl eq_refl). split; reflexivity.
Defined.

Lemma wait_without_signal_keeps_listener_run :
  listening (wait (exchange_taking 500 good_worker) [(50, ping); (12000, ping)]) = true.
Proof.
  apply (wait_without_signal_keeps_listener (exchange_taking 500 good_worker)
           [(50, ping); (12000, ping)]).
  repeat constructor.
Defined.

Lemma late_signal_starts_exchange_run :
  In (RequestAccessToken signal_payload)
     (steps (wait (exchange_taking 500 good_worker)
               [(50, ping); (10500, signedIn signal_payload)])).
Proof.
  apply (late_signal_starts_exchange (exchange_taking 500 good_worker)
           [(50, ping)] [] 10500 (signedIn signal_payload) signal_payload).
  - repeat constructor.
  - unfold ceiling. lia.
  - reflexivity.
Defined.

Lemma second_signal_second_exchange_run :
  steps (fold_left (dispatch (exchange_taking 500 good_worker))
           [(100, signedIn signal_payload); (200, signedIn signal_payload)] start) =
    [SetTimeout ceiling; AddEventListener;
     RequestAccessToken signal_payload; RequestAccessToken signal_payload].
Proof.
  rewrite (second_signal_second_exchange (exchange_taking 500 good_worker)
             100 200 (signedIn signal_payload) (signedIn signal_payload)
             signal_payload signal_payload 500 500 (Resolved user) (Resolved user));
    reflexivity.
Defined.

End MoreRuns.

Module HostRuns.
Import JS Models Client Host Samples MoreSamples HostSamples HostFacts.

Lemma http_request_endings_run :
  httpRequest (env_of (Resolved true) (Failed rejection) true good_worker) JNull fresh_host =
    (Failed (Thrown TypeError), note (Posted (HTTP_REQUEST JNull)) fresh_host)
  /\ httpRequest (env_of (Resolved true) (Failed rejection) true good_worker) JNull ready_host =
       (Failed rejection,
        note (Invoked (Finish_callback NoOp))
          (note (Invoked (Error_callback NoOp rejection))
             (note (Posted (HTTP_REQUEST JNull)) ready_host))).
Proof.
  split.
  - destruct (http_request_endings
                (env_of (Resolved true) (Failed rejection) true good_worker)
                JNull [] fresh_host) as (_ & _ & H & _).
    apply (H rejection); reflexivity.
  - destruct (http_request_endings
                (env_of (Resolved true) (Failed rejection) true good_worker)
                JNull [] ready_host) as (_ & _ & _ & H & _).
    apply (H rejection default_handlers); reflexivity.
Defined.

Lemma http_handler_switch_run :
  httpRequest (env_of (Resolved true) (Failed rejection) true good_worker) JNull
    (snd (disableHttpHandler (env_of (Resolved true) (Failed rejection) true good_worker)
            fresh_host)) =
    (Failed rejection,
     note (Posted (HTTP_REQUEST JNull))
       (snd (disableHttpHandler (env_of (Resolved true) (Failed rejection) true good_worker)
               fresh_host))).
Proof.
  destruct (http_handler_switch
              (env_of (Resolved true) (Failed rejection) true good_worker) fresh_host)
    as (_ & _ & _ & _ & H).
  apply (H JNull rejection); reflexivity.
Defined.

Lemma initialize_installs_handlers_run :
  httpClientHandlers
    (snd (initialize (env_of (Resolved true) http_ok false good_worker) fresh_host)) =
    Some default_handlers
  /\ fst (initialize (env_of (Resolved true) http_ok false good_worker) fresh_host) =
       Failed rejection.
Proof.
  destruct (initialize_installs_handlers
              (env_of (Resolved true) http_ok false good_worker) fresh_host)
    as (H1 & _ & _ & _ & H5).
  split; [apply H1; reflexivity|apply H5; reflexivity].
Defined.

Lemma notifications_ignore_switch_run :
  on_notification REQUEST_START (with_http_handler_enabled false ready_host) =
    with_http_handler_enabled false (on_notification REQUEST_START ready_host)
  /\ on_notification REQUEST_START ready_host =
       note (Invoked (Start_callback NoOp)) ready_host.
Proof.
  destruct (notifications_ignore_switch REQUEST_START false ready_host) as (H1 & _ & H3).
  split; [exact H1|].
  apply (H3 default_handlers); reflexivity.
Defined.

Lemma set_then_notify_run :
  exists h1,
    setHttpRequestSuccessCallback (Some (App 0)) ready_host = inr h1 /\
    (forall j,
       on_notification (REQUEST_SUCCESS (Some (JSON_stringify j))) h1 =
         note (Invoked (Success_callback (App 0) j)) h1) /\
    on_notification REQUEST_START h1 = note (Invoked (Start_callback NoOp)) h1 /\
    on_notification REQUEST_FINISH h1 = note (Invoked (Finish_callback NoOp)) h1.
Proof.
  apply (set_then_notify (App 0) ready_host default_handlers); reflexivity.
Defined.

Lemma requestCustomGrant_flag_run :
  requestCustomGrant (env_of (Resolved true) http_ok true good_worker) keeping_grant
    fresh_host =
    (Resolved (SignedInAs user),
     with_sign_out_url_from_storage true
       (note (Posted (REQUEST_CUSTOM_GRANT keeping_grant)) fresh_host)).
Proof.
  apply (proj1 (requestCustomGrant_flag (env_of (Resolved true) http_ok true good_worker)
                  keeping_grant fresh_host) (SignedInAs user)).
  reflexivity.
Defined.

Lemma signOut_paths_run :
  signOut (env_of (Resolved true) http_ok true good_worker) fresh_host =
    (Resolved true,
     note WaitedTillPageRedirect
       (note (Navigated "https://idp.example/logout")
          (note (Posted SIGN_OUT) (note (Posted IS_AUTHENTICATED) fresh_host))))
  /\ signOut (env_of (Resolved true) http_ok false good_worker) fresh_host =
       (Failed rejection, note (Posted SIGN_OUT) (note (Posted IS_AUTHENTICATED) fresh_host))
  /\ signOut (env_of (Resolved false) http_ok true good_worker) fresh_host =
       (Resolved true,
        note WaitedTillPageRedirect
          (note (Navigated "")
             (note ReadSignOutURL (note (Posted IS_AUTHENTICATED) fresh_host)))).
Proof.
  split_and!.
  - destruct (signOut_paths (env_of (Resolved true) http_ok true good_worker) fresh_host)
      as (_ & H & _).
    apply H; reflexivity.
  - destruct (signOut_paths (env_of (Resolved true) http_ok false good_worker) fresh_host)
      as (_ & _ & H & _).
    apply H; reflexivity.
  - destruct (signOut_paths (env_of (Resolved false) http_ok true good_worker) fresh_host)
      as (_ & _ & _ & H).
    apply (H false); [reflexivity|left; reflexivity].
Defined.

Lemma signOutURLProvider_never_rejects_run :
  signOutURLProvider (env_of (Resolved true) http_ok false good_worker) fresh_host =
    (Resolved "", note ReadSignOutURL (note (Posted SIGN_OUT) fresh_host)).
Proof.
  destruct (signOutURLProvider_never_rejects
              (env_of (Resolved true) http_ok false good_worker) fresh_host) as (_ & H & _).
  apply (H rejection). reflexivity.
Defined.

Lemma revokeAccessToken_resets_run :
  revokeAccessToken (env_of (Resolved true) http_ok true good_worker) fresh_host =
    (Resolved true,
     note (OnPage ResetSessionManagement) (note (Posted REVOKE_ACCESS_TOKEN) fresh_host))
  /\ revokeAccessToken (env_of (Resolved true) http_ok false good_worker) fresh_host =
       (Failed rejection, note (Posted REVOKE_ACCESS_TOKEN) fresh_host).
Proof.
  split.
  - apply (proj1 (revokeAccessToken_resets
                    (env_of (Resolved true) http_ok true good_worker) fresh_host)).
    reflexivity.
  - apply (proj2 (revokeAccessToken_resets
                    (env_of (Resolved true) http_ok false good_worker) fresh_host)).
    reflexivity.
Defined.

Lemma checkSession_defaults_run :
  checkSession (env_of (Resolved true) http_ok true good_worker) fresh_host =
    (Resolved tt,
     note (SessionManagementInitialized
             {| sm_clientID := Some "client";
                sm_checkSessionIframe := "";
                sm_checkSessionInterval := 3;
                sm_sessionRefreshInterval := 300;
                sm_signInRedirectURL := Some "https://app.example/" |})
       (note (Posted (Core GET_CONFIG_DATA))
          (note (Posted GET_OIDC_SERVICE_ENDPOINTS) fresh_host))).
Proof.
  apply (proj1 (checkSession_defaults
                  (env_of (Resolved true) http_ok true good_worker) fresh_host)
           no_endpoints (config_with None None)); reflexivity.
Defined.

Lemma signIn_error_response_run :
  fst (signIn (env_of (Resolved false) http_ok true good_worker) None None None None
         (created error_page None)) =
    Failed (Exc {| code := "WEB_WORKER_CLIENT-SI-BE";
                   name := "web-worker-client";
                   method := "signIn";
                   message := "access_denied";
                   description := "the user said no" |})
  /\ searchParams_get "error"
       (location (snd (signIn (env_of (Resolved false) http_ok true good_worker)
                         None None None None (created error_page None)))) = None
  /\ searchParams_get "tab"
       (location (snd (signIn (env_of (Resolved false) http_ok true good_worker)
                         None None None None (created error_page None)))) = Some "1".
Proof.
  pose proof (signIn_error_response (env_of (Resolved false) http_ok true good_worker)
                None None None None (created error_page None) (config_with None None)
                "access_denied" eq_refl eq_refl eq_refl eq_refl) as H.
  cbv zeta in H. destruct H as (H1 & _ & H3 & _ & H5).
  split_and!; [exact H1|exact H3|].
  apply (H5 "tab"); discriminate.
Defined.

Lemma signIn_when_authenticated_run :
  fst (signIn (env_of (Resolved true) http_ok true good_worker) None None None None
         (created code_page None)) = Resolved user
  /\ location (snd (signIn (env_of (Resolved true) http_ok true good_worker)
                      None None None None (created code_page None))) = code_page.
Proof.
  pose proof (signIn_when_authenticated (env_of (Resolved true) http_ok true good_worker)
                None None None None (created code_page None) (config_with None None)
                eq_refl eq_refl eq_refl eq_refl) as H.
  cbv zeta in H. destruct H as (H1 & _ & H3 & _).
  split; [exact (proj1 (H1 eq_refl))|exact H3].
Defined.


Lemma trySignInSilently_without_wait_run :
  fst (fst (trySignInSilently (env_of (Resolved false) http_ok true good_worker) []
              (created plain_page None))) = Failed (Thrown TypeError)
  /\ verifiers
       (snd (fst (trySignInSilently (env_of (Resolved false) http_ok true good_worker) []
                    (created plain_page None))))
       !! "pkce_code_verifier_request_0" = Some "verifier".
Proof.
  pose proof (trySignInSilently_without_wait
                (env_of (Resolved false) http_ok true good_worker) []
                (created plain_page None) (config_with None None) eq_refl) as H.
  cbv zeta in H. destruct H as (_ & _ & H).
  destruct (H {| authorizationURL := "https://idp.example/authorize?state=request_0";
                 pkce := Some "verifier" |} (Some "request_0")
              eq_refl eq_refl eq_refl eq_refl) as (H1 & _ & H3).
  split; [exact H1|exact (H3 eq_refl)].
Defined.

Lemma trySignInSilently_sets_iframe_run :
  fst (fst (trySignInSilently (env_of (Resolved false) http_ok true good_worker) []
              fresh_host)) = Resolved (SilentSignIn.Bool false)
  /\ promptNoneIFrame
       (snd (fst (trySignInSilently (env_of (Resolved false) http_ok true good_worker) []
                    fresh_host))) =
       Some "https://idp.example/authorize?state=request_0&response_mode=query".
Proof.
  pose proof (trySignInSilently_sets_iframe
                (env_of (Resolved false) http_ok true good_worker) []
                fresh_host (config_with None None)
                {| authorizationURL := "https://idp.example/authorize?state=request_0";
                   pkce := Some "verifier" |} (Some "request_0") "about:blank"
                eq_refl eq_refl eq_refl eq_refl eq_refl) as H.
  cbv zeta in H. destruct H as (_ & _ & H3 & _ & _ & H6).
  split; [exact (H6 eq_refl)|exact H3].
Defined.

Lemma client_never_resets_run :
  _getSignOutURLFromSessionStorage
    (calls [(env_of (Resolved false) http_ok true good_worker,
             Call_signIn None None None None);
            (env_of (Resolved true) http_ok true good_worker, Call_revokeAccessToken);
            (env_of (Resolved true) http_ok false good_worker, Call_initialize)]
       (snd (requestCustomGrant (env_of (Resolved true) http_ok true good_worker)
               keeping_grant fresh_host))) = true.
Proof.
  apply (proj1 (client_never_resets _ _)). reflexivity.
Defined.

Lemma only_switch_calls_move_switch_run :
  _isHttpHandlerEnabled
    (calls [(env_of (Resolved true) http_ok true good_worker, Call_initialize);
            (env_of (Resolved true) (Failed rejection) true good_worker,
             Call_httpRequest JNull)]
       (with_http_handler_enabled false fresh_host)) = false.
Proof.
  apply (only_switch_calls_move_switch
           [(env_of (Resolved true) http_ok true good_worker, Call_initialize);
            (env_of (Resolved true) (Failed rejection) true good_worker,
             Call_httpRequest JNull)]
           (with_http_handler_enabled false fresh_host)).
  reflexivity.
Defined.

Lemma custom_grant_decides_every_signOut_run :
  let h' :=
    calls [(env_of (Resolved false) http_ok true good_worker,
            Call_signIn None None None None)]
      (snd (requestCustomGrant (env_of (Resolved true) http_ok true good_worker)
              keeping_grant fresh_host)) in
  signOut (env_of (Resolved true) http_ok true good_worker) h' =
    (Resolved true,
     note WaitedTillPageRedirect
       (note (Navigated (default "" (signOutURL h')))
          (note ReadSignOutURL (note (Posted IS_AUTHENTICATED) h')))).
Proof.
  apply (custom_grant_decides_every_signOut
           (env_of (Resolved true) http_ok true good_worker) keeping_grant
           (SignedInAs user)
           [(env_of (Resolved false) http_ok true good_worker,
             Call_signIn None None None None)]
           (env_of (Resolved true) http_ok true good_worker) true fresh_host);
    reflexivity.
Defined.

End HostRuns.

Module PkceRuns.
Import JS Models Client Samples MoreSamples PkceFacts.

Lemma pkce_needs_both_configurations_run :
  pkce_store
    (snd (Client.requestAccessToken extract_key
            (worker_with (partial_config None) (Resolved "https://idp.example/logout"))
            "code" "ss" "request_0"
            (snd (Client.getAuthorizationURL extract_key state_of_url (config_with None None)
                    (worker_with (partial_config None) (Resolved "https://idp.example/logout"))
                    None blank_page))))
    !! extract_key "request_0" = Some "verifier".
Proof.
  pose proof (pkce_needs_both_configurations extract_key state_of_url (config_with None None)
                (worker_with (partial_config None) (Resolved "https://idp.example/logout"))
                None blank_page
                {| authorizationURL := "https://idp.example/authorize?state=request_0";
                   pkce := Some "verifier" |}
                "verifier" "request_0" "code" "ss" (partial_config None)
                eq_refl eq_refl eq_refl eq_refl eq_refl eq_refl) as H.
  cbv zeta in H. exact (proj2 (proj2 H eq_refl eq_refl)).
Defined.

End PkceRuns.
